(** * Acquisition and recognition pipeline of the music bot: a shallow embedding

    The development follows the Python sources:
    - [utils/helpers.py] and [config.py]      (module [Helpers], [Config])
    - [utils/ffmpeg_manager.py]               (module [FFmpegManager])
    - [services/downloader.py]                (module [Downloader])
    - [services/song_recognizer.py]           (module [SongRecognizer])
    - [services/firebase_service.py]          (module [FirebaseService])
    - [bot.py]                                (module [MusicBot])

    Python values are modelled as the code has them: [str] as [string],
    [int] as [Z], [Optional[T]] as [option T], dictionaries that are iterated
    as insertion-ordered association lists, dictionaries that are only looked
    up as [gmap]s.  Code that raises and catches exceptions is written in a
    small state-and-exception monad in which the state survives a raise, as
    it does in Python. *)

From Stdlib Require Import String Ascii ZArith Lia List Bool.
From stdpp Require Import gmap strings list pretty.
Import ListNotations.
Local Open Scope string_scope.
Local Open Scope list_scope.
Local Open Scope Z_scope.
Set Warnings "-register-all".
Local Set Warnings "-notation-overridden".

(** ** Python strings *)

Module Py.

(** [str.lower] on one character.  A [string] is read as a sequence of code
    points below 256; on that range Python lowers [A-Z] and the Latin-1
    capitals [U+00C0 .. U+00DE] (the multiplication sign [U+00D7] apart) to
    the letter 32 positions above and leaves every other character alone. *)
Definition lower_char (c : ascii) : ascii :=
  let n := N_of_ascii c in
  if ((65 <=? n) && (n <=? 90))%N
     || ((192 <=? n) && (n <=? 222) && negb (n =? 215))%N
  then ascii_of_N (n + 32)
  else c.

(** [s.lower()] *)
Fixpoint lower (s : string) : string :=
  match s with
  | EmptyString => EmptyString
  | String c t => String (lower_char c) (lower t)
  end.

(** [sub in s] for two strings: [sub] occurs in [s] as a contiguous run. *)
Fixpoint str_in (sub s : string) : bool :=
  String.prefix sub s
  || match s with
     | EmptyString => false
     | String _ t => str_in sub t
     end.

(** [s.rfind(c)]: index of the last occurrence of [c], or [-1]. *)
Fixpoint rfind_from (c : ascii) (s : string) (i : Z) : Z :=
  match s with
  | EmptyString => -1
  | String a t =>
      let later := rfind_from c t (i + 1) in
      if 0 <=? later then later
      else if Ascii.eqb a c then i else -1
  end.

Definition rfind (c : ascii) (s : string) : Z := rfind_from c s 0.

(** [s[i:j]] for [0 <= i]. *)
Definition slice (s : string) (i j : Z) : string :=
  String.substring (Z.to_nat i) (Z.to_nat (j - i)) s.

(** [s[i:]] for [0 <= i]. *)
Definition slice_from (s : string) (i : Z) : string :=
  String.substring (Z.to_nat i) (String.length s - Z.to_nat i) s.

(** The loop of [genericpath._splitext] that skips the leading dots of the
    file name: [true] as soon as a character other than the dot is met
    before [dotIndex]. *)
Fixpoint splitext_scan (p : string) (filenameIndex : Z) (steps : nat) : bool :=
  match steps with
  | O => false
  | S steps' =>
      if negb (String.eqb (slice p filenameIndex (filenameIndex + 1)) ".")
      then true
      else splitext_scan p (filenameIndex + 1) steps'
  end.

(** [os.path.splitext(p)] on a POSIX system. *)
Definition splitext (p : string) : string * string :=
  let sepIndex := rfind "/"%char p in
  let dotIndex := rfind "."%char p in
  if (sepIndex <? dotIndex)
     && splitext_scan p (sepIndex + 1) (Z.to_nat (dotIndex - (sepIndex + 1)))
  then (slice p 0 dotIndex, slice_from p dotIndex)
  else (p, "").

(** [s.endswith(suffix)] *)
Definition endswith (s suffix : string) : bool :=
  let n := String.length s in
  let k := String.length suffix in
  (k <=? n)%nat && String.eqb (String.substring (n - k) k s) suffix.

(** *** [int(text)]

    White space around the literal is dropped, a sign may lead, and the
    digits may be grouped by single underscores.  The white space that
    [int] drops is the tabulator to the carriage return, the space, the next
    line and the no-break space; the four separators [U+001C .. U+001F],
    which [str.strip] takes, are not among it. *)
Definition is_space (c : ascii) : bool :=
  let n := N_of_ascii c in
  (((9 <=? n) && (n <=? 13)) || (n =? 32) || (n =? 133) || (n =? 160))%N.

Fixpoint lstrip (s : string) : string :=
  match s with
  | EmptyString => EmptyString
  | String c t => if is_space c then lstrip t else s
  end.

Fixpoint rstrip (s : string) : string :=
  match s with
  | EmptyString => EmptyString
  | String c t =>
      match rstrip t with
      | EmptyString => if is_space c then EmptyString else String c EmptyString
      | t' => String c t'
      end
  end.

Definition strip (s : string) : string := rstrip (lstrip s).

Definition digit_value (c : ascii) : option Z :=
  let n := N_of_ascii c in
  if ((48 <=? n) && (n <=? 57))%N then Some (Z.of_N n - 48) else None.

(** The digits of the literal; [after_digit] tells whether the character
    before was a digit, which an underscore and the end both require. *)
Fixpoint int_digits (s : string) (acc : Z) (after_digit : bool) : option Z :=
  match s with
  | EmptyString => if after_digit then Some acc else None
  | String c t =>
      match digit_value c with
      | Some d => int_digits t (acc * 10 + d) true
      | None =>
          if Ascii.eqb c "_" && after_digit then int_digits t acc false
          else None
      end
  end.

Definition int_literal (text : string) : option Z :=
  match strip text with
  | String "-" t => option_map Z.opp (int_digits t 0 false)
  | String "+" t => int_digits t 0 false
  | t => int_digits t 0 false
  end.

(** *** Dictionaries with string keys, in insertion order *)
Definition dict (V : Type) : Type := list (string * V).

(** [d.get(k)] *)
Fixpoint dict_get {V} (k : string) (d : dict V) : option V :=
  match d with
  | [] => None
  | (k', v) :: rest => if String.eqb k k' then Some v else dict_get k rest
  end.

(** [d[k] = v]: an existing key keeps its position, a new one goes last. *)
Fixpoint dict_set {V} (k : string) (v : V) (d : dict V) : dict V :=
  match d with
  | [] => [(k, v)]
  | (k', v') :: rest =>
      if String.eqb k k' then (k', v) :: rest else (k', v') :: dict_set k v rest
  end.

(** [del d[k]] for a key that is present; [d.pop(k, None)] in general. *)
Fixpoint dict_del {V} (k : string) (d : dict V) : dict V :=
  match d with
  | [] => []
  | (k', v') :: rest =>
      if String.eqb k k' then rest else (k', v') :: dict_del k rest
  end.

(** [d.update(other)] *)
Definition dict_update {V} (d other : dict V) : dict V :=
  fold_left (fun acc kv => dict_set (fst kv) (snd kv) acc) other d.

(** No key occurs twice, as in every Python dictionary. *)
Definition unique_keys {V} (d : dict V) : Prop := NoDup (map fst d).

(** *** Exceptions and the monad of code that may raise

    Only what the handlers of the sources can tell apart is kept of an
    exception: its class and, where the sources build it, its argument. *)
Inductive exn : Type :=
| NameError (name : string)
| IndexError
| KeyError
| TypeError
| AttributeError
| ValueError (literal : string)
| UnicodeDecodeError
| ExternalError (what : string).

Inductive outcome (A : Type) : Type :=
| Returned (a : A)
| Raised (e : exn).
Arguments Returned {A} a.
Arguments Raised {A} e.

(** A computation over a state [S]; the state reached is kept when the
    computation raises. *)
Definition M (S A : Type) : Type := S -> outcome A * S.

Definition ret {S A} (a : A) : M S A := fun s => (Returned a, s).

Definition bind {S A B} (c : M S A) (k : A -> M S B) : M S B :=
  fun s =>
    match c s with
    | (Returned a, s') => k a s'
    | (Raised e, s') => (Raised e, s')
    end.

Definition raise {S A} (e : exn) : M S A := fun s => (Raised e, s).

(** [try: body / except Exception as e: handler e] *)
Definition try_except {S A} (body : M S A) (handler : exn -> M S A) : M S A :=
  fun s =>
    match body s with
    | (Returned a, s') => (Returned a, s')
    | (Raised e, s') => handler e s'
    end.

Definition get {S} : M S S := fun s => (Returned s, s).
Definition modify {S} (f : S -> S) : M S unit := fun s => (Returned tt, f s).

(** Lifting of a value that an external call either returns or raises. *)
Definition lift {S A} (o : outcome A) : M S A := fun s => (o, s).

(** [int(text)] raises [ValueError] on anything but a literal. *)
Definition int {S} (text : string) : M S Z :=
  match int_literal text with
  | Some n => ret n
  | None => raise (ValueError text)
  end.

(** *** Logging *)
Inductive level : Type := INFO | WARNING | ERROR.

(** A log record: the text, and the exception interpolated into it, if any. *)
Inductive log_record : Type :=
| Log (lvl : level) (text : string)
| LogExn (lvl : level) (text : string) (e : exn).

End Py.

(** The monad is written with the do-notation of stdpp, bound here to
    [Py.bind] so that the type of the bound value is known to the rest. *)
Declare Scope py_scope.
Delimit Scope py_scope with py.
Notation "x ← y ; z" := (Py.bind y (fun x => z))
  (at level 20, y at level 100, z at level 200, only parsing) : py_scope.
Notation "' x ← y ; z" := (Py.bind y (fun x => z))
  (at level 20, x pattern, y at level 100, z at level 200, only parsing) : py_scope.
Notation "x ;; z" := (Py.bind x (fun _ => z))
  (at level 100, z at level 200, only parsing, right associativity) : py_scope.
Local Open Scope py_scope.

(** ** config.py *)

Module Config.

(** [SOCIAL_MEDIA_PLATFORMS]: the reference table, in the order of the
    dictionary literal. *)
Definition SOCIAL_MEDIA_PLATFORMS : list (string * list string) :=
  [ ("youtube", ["youtube.com"; "youtu.be"]);
    ("instagram", ["instagram.com"; "instagr.am"]);
    ("tiktok", ["tiktok.com"]);
    ("pinterest", ["pinterest.com"; "pin.it"]);
    ("soundcloud", ["soundcloud.com"]) ].

End Config.

(** ** utils/helpers.py *)

Module Helpers.
Import Py.

(** [get_platform_from_url(url)], the module-level classifier. *)
Definition get_platform_from_url (url : string) : option string :=
  let url_lower := lower url in
  if str_in "youtube.com" url_lower || str_in "youtu.be" url_lower then
    Some "youtube"
  else if str_in "instagram.com" url_lower || str_in "instagr.am" url_lower then
    Some "instagram"
  else if str_in "tiktok.com" url_lower then
    Some "tiktok"
  else if str_in "pinterest.com" url_lower || str_in "pin.it" url_lower then
    Some "pinterest"
  else if str_in "soundcloud.com" url_lower then
    Some "soundcloud"
  else
    None.

(** [f"{n:02d}"]: the decimal digits, with a zero in front when they are
    fewer than two characters. *)
Definition pad2 (n : Z) : string :=
  let digits := pretty n in
  if (String.length digits <? 2)%nat then "0" +:+ digits else digits.

(** [format_duration(seconds)]; [divmod] by a positive number is [Z.div]
    and [Z.modulo]. *)
Definition format_duration (seconds : Z) : string :=
  if seconds <=? 0 then "0:00"
  else
    let '(minutes, seconds) := (seconds / 60, seconds mod 60) in
    let '(hours, minutes) := (minutes / 60, minutes mod 60) in
    if 0 <? hours then
      pretty hours +:+ ":" +:+ pad2 minutes +:+ ":" +:+ pad2 seconds
    else
      pretty minutes +:+ ":" +:+ pad2 seconds.

(** [s.split(sep)] for a separator of one character. *)
Fixpoint split (sep : ascii) (s : string) : list string :=
  match s with
  | EmptyString => [EmptyString]
  | String c t =>
      if Ascii.eqb c sep then EmptyString :: split sep t
      else match split sep t with
           | part :: parts => String c part :: parts
           | [] => [String c EmptyString]
           end
  end.

(** [parse_duration_string(duration_str)]; the bare [except] turns every
    failure of [int] into [0]. *)
Definition parse_duration_string {S} (duration_str : string) : M S Z :=
  try_except
    (match split ":" duration_str with
     | [minutes; seconds] =>
         m ← int minutes;
         s ← int seconds;
         ret (m * 60 + s)
     | [hours; minutes; seconds] =>
         h ← int hours;
         m ← int minutes;
         s ← int seconds;
         ret (h * 3600 + m * 60 + s)
     | _ => ret 0
     end)
    (fun _ => ret 0).

(** [s[:stop]]: a negative [stop] counts from the end, and both ends are
    clamped to the string. *)
Definition slice_to (s : string) (stop : Z) : string :=
  let n := Z.of_nat (String.length s) in
  let stop := if stop <? 0 then Z.max (n + stop) 0 else Z.min stop n in
  String.substring 0 (Z.to_nat stop) s.

(** [truncate_text(text, max_length)] *)
Definition truncate_text (text : string) (max_length : Z) : string :=
  if Z.of_nat (String.length text) <=? max_length then text
  else slice_to text (max_length - 3) +:+ "...".

(** The class of [sanitize_filename]: the characters that no file name may
    hold; the one written by its code is the double quote. *)
Definition invalid_character (c : ascii) : bool :=
  existsb (Ascii.eqb c)
    [ "<"; ">"; ":"; ascii_of_N 34; "/"; "\"; "|"; "?"; "*" ]%char.

(** [re.sub(class, '', s)] for a class of single characters. *)
Fixpoint remove_characters (class : ascii -> bool) (s : string) : string :=
  match s with
  | EmptyString => EmptyString
  | String c t =>
      if class c then remove_characters class t
      else String c (remove_characters class t)
  end.

(** [s.lstrip(chars)], [s.rstrip(chars)] and [s.strip(chars)] *)
Fixpoint lstrip_chars (chars : ascii -> bool) (s : string) : string :=
  match s with
  | EmptyString => EmptyString
  | String c t => if chars c then lstrip_chars chars t else s
  end.

Fixpoint rstrip_chars (chars : ascii -> bool) (s : string) : string :=
  match s with
  | EmptyString => EmptyString
  | String c t =>
      match rstrip_chars chars t with
      | EmptyString => if chars c then EmptyString else String c EmptyString
      | t' => String c t'
      end
  end.

Definition strip_chars (chars : ascii -> bool) (s : string) : string :=
  rstrip_chars chars (lstrip_chars chars s).

Definition dot_or_space (c : ascii) : bool :=
  Ascii.eqb c "." || Ascii.eqb c " ".

(** [sanitize_filename(filename)] *)
Definition sanitize_filename (filename : string) : string :=
  let filename := remove_characters invalid_character filename in
  let filename := strip_chars dot_or_space filename in
  let filename :=
    if (200 <? String.length filename)%nat then String.substring 0 200 filename
    else filename in
  if String.eqb filename "" then "unnamed" else filename.

End Helpers.

(** ** utils/ffmpeg_manager.py *)

Module FFmpegManager.
Import Py.

(** What [subprocess.run([tool, '-version'], ..., timeout=5)] does: the
    child runs and exits, or one of the three exceptions that
    [_check_ffmpeg_availability] catches is raised ([TimeoutExpired],
    [CalledProcessError], [FileNotFoundError]), or another one. *)
Inductive probe : Type :=
| Exited (returncode : Z)
| Caught
| Uncaught (e : exn).

(** The machine: the probe of a command, and [os.path.exists(path) and
    os.access(path, os.X_OK)]. *)
Record Env : Type := {
  run_version : string -> probe;
  is_executable : string -> bool
}.

(** The two attributes of the manager. *)
Record t : Type := {
  ffmpeg_path : option string;
  ffprobe_path : option string
}.

Definition with_ffmpeg_path (path : string) (self : t) : t :=
  {| ffmpeg_path := Some path; ffprobe_path := ffprobe_path self |}.

Definition with_ffprobe_path (path : string) (self : t) : t :=
  {| ffmpeg_path := ffmpeg_path self; ffprobe_path := Some path |}.

Definition common_paths : list string :=
  [ "/usr/bin/ffmpeg";
    "/usr/local/bin/ffmpeg";
    "/opt/bin/ffmpeg";
    "/opt/local/bin/ffmpeg";
    "/snap/bin/ffmpeg";
    "C:\ffmpeg\bin\ffmpeg.exe";
    "C:\Program Files\ffmpeg\bin\ffmpeg.exe" ].

Definition probe_paths : list string :=
  [ "/usr/bin/ffprobe";
    "/usr/local/bin/ffprobe";
    "/opt/bin/ffprobe";
    "/opt/local/bin/ffprobe";
    "/snap/bin/ffprobe";
    "C:\ffmpeg\bin\ffprobe.exe";
    "C:\Program Files\ffmpeg\bin\ffprobe.exe" ].

(** [FFmpegManager._try_alternative_paths]: in each list the first path
    that is an executable file is taken. *)
Definition _try_alternative_paths (env : Env) (self : t) : t :=
  let self :=
    match find (is_executable env) common_paths with
    | Some path => with_ffmpeg_path path self
    | None => self
    end in
  match find (is_executable env) probe_paths with
  | Some path => with_ffprobe_path path self
  | None => self
  end.

(** [FFmpegManager._check_ffmpeg_availability]: a probe that raises one of
    the caught exceptions ends the [try] block, and the attributes set
    before it stay. *)
Definition _check_ffmpeg_availability (env : Env) : M t unit :=
  fun self =>
    match run_version env "ffmpeg" with
    | Exited returncode =>
        let self := if returncode =? 0 then with_ffmpeg_path "ffmpeg" self else self in
        match run_version env "ffprobe" with
        | Exited returncode =>
            (Returned tt,
             if returncode =? 0 then with_ffprobe_path "ffprobe" self else self)
        | Caught => (Returned tt, _try_alternative_paths env self)
        | Uncaught e => (Raised e, self)
        end
    | Caught => (Returned tt, _try_alternative_paths env self)
    | Uncaught e => (Raised e, self)
    end.

(** [FFmpegManager.__init__] *)
Definition __init__ (env : Env) : outcome unit * t :=
  _check_ffmpeg_availability env {| ffmpeg_path := None; ffprobe_path := None |}.

End FFmpegManager.

(** ** services/downloader.py *)

Module Downloader.
Import Py.

(** One entry of the ['postprocessors'] list of a yt-dlp option set. *)
Record postprocessor : Type := {
  key : string;
  preferredcodec : string;
  preferredquality : string
}.

(** The values that occur in the option sets of this file. *)
Inductive optval : Type :=
| OStr (s : string)
| OBool (b : bool)
| OInt (n : Z)
| OPostprocessors (pps : list postprocessor)
| OSleepFunctions (fs : dict (Z -> Z)).

Definition ydl_options : Type := dict optval.

(** What the extractor leaves of the standard error stream of the child:
    bytes that decode to [text] (no bytes at all when [text] is empty), or
    bytes that [bytes.decode] rejects. *)
Inductive captured : Type :=
| Decodes (text : string)
| Undecodable.

(** What the downloader does to the outside world, in order. *)
Inductive event : Type :=
| Requested (opts : ydl_options) (target : string)   (* yt_dlp.YoutubeDL(opts), extract_info(target, download=True) *)
| Spawned (cmd : list string)                        (* asyncio.create_subprocess_exec on cmd *)
| Logged (r : log_record).

Definition trace : Type := list event.

(** The collaborators of the downloader. *)
Record Env : Type := {
  (* os.path.exists, before the call under study changes the file system *)
  path_exists : string -> bool;
  (* ffmpeg_manager.get_ffmpeg_path() and get_ffprobe_path() *)
  get_ffmpeg_path : option string;
  get_ffprobe_path : option string;
  (* YoutubeDL(opts): extract_info(target, download=True), then
     prepare_filename(info); the name of the file and os.path.exists as it
     is afterwards, or the exception raised *)
  YoutubeDL : ydl_options -> string -> outcome (string * (string -> bool));
  (* the instaloader adapter, which never goes through yt-dlp *)
  download_from_instagram : string -> option string;
  (* create_subprocess_exec on cmd, then communicate(): return code, captured
     standard error and os.path.exists as it is afterwards, or the
     exception raised when no child could be started *)
  subprocess_exec : list string -> outcome (Z * captured * (string -> bool))
}.

Definition emit (e : event) : M trace unit := modify (fun t => t ++ [e]).
Definition log (lvl : level) (text : string) : M trace unit :=
  emit (Logged (Log lvl text)).
Definition log_exn (lvl : level) (text : string) (e : exn) : M trace unit :=
  emit (Logged (LogExn lvl text e)).

(** [lambda n: min(n * 2, 10)] *)
Definition retry_sleep (n : Z) : Z := Z.min (n * 2) 10.

(** The instance: the two attributes set by [__init__]. *)
Record t : Type := {
  ffmpeg_available : bool;
  ydl_opts : ydl_options
}.

(** [Downloader.__init__], given what [setup_ffmpeg()] returned. *)
Definition __init__ (setup_ffmpeg : bool) : t :=
  {| ffmpeg_available := setup_ffmpeg;
     ydl_opts :=
       if setup_ffmpeg then
         [ ("format", OStr "bestaudio/best");
           ("postprocessors",
             OPostprocessors
               [ {| key := "FFmpegExtractAudio";
                    preferredcodec := "mp3";
                    preferredquality := "192" |} ]);
           ("outtmpl", OStr "downloads/%(title)s.%(ext)s");
           ("quiet", OBool false);
           ("no_warnings", OBool false);
           ("extract_flat", OStr "discard_in_playlist");
           ("fragment_retries", OInt 10);
           ("retry_sleep_functions",
             OSleepFunctions [ ("http", retry_sleep); ("fragment", retry_sleep) ]) ]
       else
         [ ("format", OStr "bestaudio[ext=mp3]/bestaudio[ext=m4a]/bestaudio/best");
           ("outtmpl", OStr "downloads/%(title)s.%(ext)s");
           ("quiet", OBool false);
           ("no_warnings", OBool false);
           ("extract_flat", OStr "discard_in_playlist");
           ("fragment_retries", OInt 10);
           ("retry_sleep_functions",
             OSleepFunctions [ ("http", retry_sleep); ("fragment", retry_sleep) ]);
           ("postprocessors", OPostprocessors []) ] |}.

(** [Downloader._get_platform_from_url] *)
Definition _get_platform_from_url (url : string) : option string :=
  let url_lower := lower url in
  if str_in "youtube.com" url_lower || str_in "youtu.be" url_lower then
    Some "youtube"
  else if str_in "instagram.com" url_lower || str_in "instagr.am" url_lower then
    Some "instagram"
  else if str_in "tiktok.com" url_lower then
    Some "tiktok"
  else if str_in "pinterest.com" url_lower || str_in "pin.it" url_lower then
    Some "pinterest"
  else if str_in "soundcloud.com" url_lower then
    Some "soundcloud"
  else
    None.

(** [with yt_dlp.YoutubeDL(opts) as ydl: info = ydl.extract_info(target,
    download=True); downloaded_file = ydl.prepare_filename(info)] *)
Definition run_ydl (env : Env) (opts : ydl_options) (target : string)
  : M trace (string * (string -> bool)) :=
  emit (Requested opts target);;
  lift (YoutubeDL env opts target).

(** The tail shared by the YouTube and SoundCloud adapters: prefer the
    sibling [.mp3] of a [.webm] or [.m4a] file when it exists. *)
Definition prefer_mp3 (what : string) (downloaded_file : string)
    (exists_ : string -> bool) : M trace (option string) :=
  let mp3_file := fst (splitext downloaded_file) +:+ ".mp3" in
  if (endswith downloaded_file ".webm" || endswith downloaded_file ".m4a")
     && exists_ mp3_file then
    log INFO (what +:+ " content downloaded successfully: " +:+ mp3_file);;
    ret (Some mp3_file)
  else if exists_ downloaded_file then
    log INFO (what +:+ " content downloaded successfully: " +:+ downloaded_file);;
    ret (Some downloaded_file)
  else
    ret None.

(** [Downloader._download_from_youtube] *)
Definition _download_from_youtube (self : t) (env : Env) (url : string)
  : M trace (option string) :=
  try_except
    ('(downloaded_file, exists_) ← run_ydl env (ydl_opts self) url;
     prefer_mp3 "YouTube" downloaded_file exists_)
    (fun e => log_exn ERROR "Error downloading from YouTube: " e;; ret None).

(** [search_opts] of [download_song]: a copy of [self.ydl_opts], updated. *)
Definition search_opts (self : t) : ydl_options :=
  dict_update (ydl_opts self)
    [ ("quiet", OBool true);
      ("default_search", OStr "auto");
      ("source_address", OStr "0.0.0.0") ].

(** [Downloader.download_song]; the look-up [['entries'][0]] in the result
    of the search is part of what [YoutubeDL] stands for. *)
Definition download_song (self : t) (env : Env) (query : string)
  : M trace (option string) :=
  try_except
    ((if negb (ffmpeg_available self)
      then log WARNING "FFmpeg not available. Download quality may be limited."
      else ret tt);;
     '(downloaded_file, exists_) ← run_ydl env (search_opts self) ("ytsearch:" +:+ query);
     if exists_ downloaded_file then
       log INFO ("Song downloaded successfully: " +:+ downloaded_file);;
       ret (Some downloaded_file)
     else
       let base_name := fst (splitext downloaded_file) in
       match find (fun ext => exists_ (base_name +:+ ext))
               [".mp3"; ".m4a"; ".webm"; ".opus"] with
       | Some ext =>
           let test_file := base_name +:+ ext in
           log INFO ("Song downloaded successfully: " +:+ test_file);;
           ret (Some test_file)
       | None =>
           log WARNING ("Could not find downloaded file for query: " +:+ query);;
           ret None
       end)
    (fun e => log_exn ERROR "Error downloading song: " e;; ret None).

Definition tiktok_opts : ydl_options :=
  [ ("format", OStr "best");
    ("outtmpl", OStr "downloads/tiktok_%(id)s.%(ext)s");
    ("quiet", OBool true) ].

(** [Downloader._download_from_tiktok] *)
Definition _download_from_tiktok (self : t) (env : Env) (url : string)
  : M trace (option string) :=
  try_except
    ('(downloaded_file, exists_) ← run_ydl env tiktok_opts url;
     if exists_ downloaded_file then
       log INFO ("TikTok content downloaded successfully: " +:+ downloaded_file);;
       ret (Some downloaded_file)
     else ret None)
    (fun e => log_exn ERROR "Error downloading from TikTok: " e;; ret None).

Definition pinterest_opts : ydl_options :=
  [ ("format", OStr "best");
    ("outtmpl", OStr "downloads/pinterest_%(id)s.%(ext)s");
    ("quiet", OBool true) ].

(** [Downloader._download_from_pinterest] *)
Definition _download_from_pinterest (self : t) (env : Env) (url : string)
  : M trace (option string) :=
  try_except
    ('(downloaded_file, exists_) ← run_ydl env pinterest_opts url;
     if exists_ downloaded_file then
       log INFO ("Pinterest content downloaded successfully: " +:+ downloaded_file);;
       ret (Some downloaded_file)
     else ret None)
    (fun e => log_exn ERROR "Error downloading from Pinterest: " e;; ret None).

Definition soundcloud_opts : ydl_options :=
  [ ("format", OStr "bestaudio/best");
    ("postprocessors",
      OPostprocessors
        [ {| key := "FFmpegExtractAudio";
             preferredcodec := "mp3";
             preferredquality := "192" |} ]);
    ("outtmpl", OStr "downloads/soundcloud_%(title)s.%(ext)s");
    ("quiet", OBool true) ].

(** [Downloader._download_from_soundcloud] *)
Definition _download_from_soundcloud (self : t) (env : Env) (url : string)
  : M trace (option string) :=
  try_except
    ('(downloaded_file, exists_) ← run_ydl env soundcloud_opts url;
     prefer_mp3 "SoundCloud" downloaded_file exists_)
    (fun e => log_exn ERROR "Error downloading from SoundCloud: " e;; ret None).

(** [Downloader.download_from_url] *)
Definition download_from_url (self : t) (env : Env) (url : string)
  : M trace (option string) :=
  try_except
    (let platform := _get_platform_from_url url in
     if decide (platform = Some "youtube") then _download_from_youtube self env url
     else if decide (platform = Some "instagram") then
       ret (download_from_instagram env url)
     else if decide (platform = Some "tiktok") then _download_from_tiktok self env url
     else if decide (platform = Some "pinterest") then
       _download_from_pinterest self env url
     else if decide (platform = Some "soundcloud") then
       _download_from_soundcloud self env url
     else
       log ERROR "Unsupported platform: None";; ret None)
    (fun e => log_exn ERROR ("Error downloading from URL " +:+ url +:+ ": ") e;;
              ret None).

(** An option set queues server-side transcoding when its
    ['postprocessors'] list holds an FFmpeg post-processor. *)
Definition is_ffmpeg_postprocessor (pp : postprocessor) : bool :=
  String.prefix "FFmpeg" (key pp).

Definition queues_ffmpeg (opts : ydl_options) : bool :=
  match dict_get "postprocessors" opts with
  | Some (OPostprocessors pps) => existsb is_ffmpeg_postprocessor pps
  | _ => false
  end.

(** The option sets that a run handed to yt-dlp. *)
Fixpoint requested_options (tr : trace) : list ydl_options :=
  match tr with
  | [] => []
  | Requested opts _ :: rest => opts :: requested_options rest
  | _ :: rest => requested_options rest
  end.

(** The child processes that a run started. *)
Fixpoint spawned (tr : trace) : list (list string) :=
  match tr with
  | [] => []
  | Spawned cmd :: rest => cmd :: spawned rest
  | _ :: rest => spawned rest
  end.

(** The records that a run logged. *)
Fixpoint logged (tr : trace) : list log_record :=
  match tr with
  | [] => []
  | Logged r :: rest => r :: logged rest
  | _ :: rest => logged rest
  end.

(** The output path and the argument list of [extract_audio_from_video]. *)
Definition audio_path_of (video_path : string) : string :=
  let base_name := fst (splitext video_path) in
  base_name +:+ ".mp3".

Definition ffmpeg_cmd (ffmpeg_path video_path : string) : list string :=
  [ ffmpeg_path; "-i"; video_path; "-vn"; "-acodec"; "libmp3lame";
    "-ab"; "192k"; "-ar"; "44100"; "-y"; audio_path_of video_path ].

(** The text logged for a child that failed: [stderr.decode() if stderr
    else "Unknown error"]. *)
Definition error_msg_of {S} (stderr : captured) : M S string :=
  match stderr with
  | Decodes EmptyString => ret "Unknown error"
  | Decodes text => ret text
  | Undecodable => raise UnicodeDecodeError
  end.

(** [Downloader.extract_audio_from_video] *)
Definition extract_audio_from_video (self : t) (env : Env) (video_path : string)
  : M trace (option string) :=
  try_except
    (if negb (path_exists env video_path) then
       log ERROR ("Video file not found: " +:+ video_path);; ret None
     else if negb (ffmpeg_available self) then
       log ERROR "FFmpeg not available. Cannot extract audio from video.";;
       ret None
     else
       let audio_path := audio_path_of video_path in
       match get_ffmpeg_path env with
       | None | Some EmptyString =>
           log ERROR "FFmpeg not found. Cannot extract audio.";; ret None
       | Some ffmpeg_path =>
           let cmd := ffmpeg_cmd ffmpeg_path video_path in
           '(returncode, stderr, exists_) ← lift (subprocess_exec env cmd);
           emit (Spawned cmd);;
           if (returncode =? 0) && exists_ audio_path then
             log INFO ("Audio extracted successfully: " +:+ audio_path);;
             ret (Some audio_path)
           else
             error_msg ← error_msg_of stderr;
             log ERROR ("Error extracting audio: " +:+ error_msg);;
             ret None
       end)
    (fun e => log_exn ERROR "Error extracting audio from video: " e;; ret None).

(** The value returned and the trace left by a call on a fresh trace. *)
Definition extract_result (self : t) (env : Env) (video_path : string)
  : outcome (option string) :=
  fst (extract_audio_from_video self env video_path []).

Definition extract_trace (self : t) (env : Env) (video_path : string) : trace :=
  snd (extract_audio_from_video self env video_path []).

(** The longest prefix of [s] without a slash: what [[^/]+] takes. *)
Fixpoint up_to_slash (s : string) : string :=
  match s with
  | EmptyString => EmptyString
  | String c t => if Ascii.eqb c "/" then EmptyString else String c (up_to_slash t)
  end.

(** [s.split(sep)[0]] for a one-character separator. *)
Fixpoint before_first (sep : ascii) (s : string) : string :=
  match s with
  | EmptyString => EmptyString
  | String c t => if Ascii.eqb c sep then EmptyString else String c (before_first sep t)
  end.

(** [s[n:]] *)
Fixpoint drop_chars (n : nat) (s : string) : string :=
  match n, s with
  | O, _ => s
  | S n', String _ t => drop_chars n' t
  | S _, EmptyString => EmptyString
  end.

(** The group of a match of [literal([^/]+)] that starts at the head of
    [s], if there is one. *)
Definition match_here (literal s : string) : option string :=
  if String.prefix literal s then
    match up_to_slash (drop_chars (String.length literal) s) with
    | EmptyString => None
    | group => Some group
    end
  else None.

(** [re.search(literal([^/]+), s)]: the group of the leftmost match. *)
Fixpoint search_group (literal s : string) : option string :=
  match match_here literal s with
  | Some group => Some group
  | None =>
      match s with
      | EmptyString => None
      | String _ t => search_group literal t
      end
  end.

(** [Downloader._extract_instagram_shortcode]; the three patterns are a
    literal followed by the group [([^/]+)]. *)
Definition _extract_instagram_shortcode (url : string) : option string :=
  let patterns := [ "instagram.com/p/"; "instagram.com/reel/"; "instagr.am/p/" ] in
  match
    find (fun pattern => match search_group pattern url with Some _ => true | None => false end)
      patterns
  with
  | Some pattern =>
      match search_group pattern url with
      | Some shortcode =>
          Some (before_first "?" (before_first "/" shortcode))
      | None => None
      end
  | None => None
  end.

(** What an adapter that goes through yt-dlp does, for the option set
    [opts] it hands over: it never raises; it asks yt-dlp once; what it
    returns is a file that exists once yt-dlp is done, the one yt-dlp named
    or its [.mp3] sibling; and it returns [None] when yt-dlp raised. *)
Definition adapter_contract (env : Env) (opts : ydl_options) (target : string)
    (run : outcome (option string) * trace) : Prop :=
  requested_options (snd run) = [opts]
  /\ match YoutubeDL env opts target with
     | Returned (file, exists_) =>
         (exists path, fst run = Returned (Some path) /\ exists_ path = true
                       /\ (path = file \/ path = fst (splitext file) +:+ ".mp3"))
         \/ (fst run = Returned None /\ exists_ file = false)
     | Raised e => fst run = Returned None
     end.

(** The option set that [download_from_url] uses for a platform. *)
Definition options_for (self : t) (platform : string) : ydl_options :=
  if String.eqb platform "youtube" then ydl_opts self
  else if String.eqb platform "tiktok" then tiktok_opts
  else if String.eqb platform "pinterest" then pinterest_opts
  else soundcloud_opts.

End Downloader.

(** ** services/song_recognizer.py *)

Module SongRecognizer.
Import Py.

(** The response of the fingerprinting service: an untyped tree, as
    decoded from JSON. *)
Inductive pyval : Type :=
| PNone
| PBool (b : bool)
| PInt (n : Z)
| PStr (s : string)
| PList (items : list pyval)
| PDict (entries : dict pyval).

(** Truth value of an object, as [if v:] takes it. *)
Definition truthy (v : pyval) : bool :=
  match v with
  | PNone => false
  | PBool b => b
  | PInt n => negb (n =? 0)
  | PStr s => negb (String.eqb s "")
  | PList items => match items with [] => false | _ => true end
  | PDict entries => match entries with [] => false | _ => true end
  end.

(** [v.get(k, default)]: only dictionaries have the method. *)
Definition py_get {S} (v : pyval) (k : string) (default : pyval) : M S pyval :=
  match v with
  | PDict entries =>
      match dict_get k entries with
      | Some x => ret x
      | None => ret default
      end
  | _ => raise AttributeError
  end.

(** [v[k]] for a string key. *)
Definition py_item {S} (v : pyval) (k : string) : M S pyval :=
  match v with
  | PDict entries =>
      match dict_get k entries with
      | Some x => ret x
      | None => raise KeyError
      end
  | _ => raise TypeError
  end.

(** [v[i]] for an index [0 <= i]: an element of a list, a character of a
    string; the keys of a decoded dictionary are strings, so an integer is
    never among them. *)
Definition py_index {S} (v : pyval) (i : nat) : M S pyval :=
  match v with
  | PList items =>
      match nth_error items i with
      | Some x => ret x
      | None => raise IndexError
      end
  | PStr s =>
      match String.get i s with
      | Some c => ret (PStr (String c EmptyString))
      | None => raise IndexError
      end
  | PDict _ => raise KeyError
  | _ => raise TypeError
  end.

(** [{}] and [[{}]], the defaults of the nested look-ups. *)
Definition empty_dict : pyval := PDict [].
Definition list_of_empty_dict : pyval := PList [PDict []].

(** The collaborators: [os.path.exists] and [shazam.recognize]. *)
Record Env : Type := {
  path_exists : string -> bool;
  recognize : string -> outcome pyval
}.

(** The dictionary literal [song_info] of [recognize_song]; its entries are
    evaluated in the order written, and the first one that raises ends the
    evaluation. *)
Definition song_info_of {S} (track : pyval) : M S (dict pyval) :=
  title ← py_get track "title" (PStr "Unknown");
  artist ← py_get track "subtitle" (PStr "Unknown");
  album ← (sections ← py_get track "sections" list_of_empty_dict;
           section ← py_index sections 0;
           metadata ← py_get section "metadata" list_of_empty_dict;
           entry ← py_index metadata 0;
           py_get entry "text" (PStr "Unknown"));
  duration ← py_get track "duration" (PInt 0);
  genre ← (genres ← py_get track "genres" empty_dict;
           py_get genres "primary" (PStr ""));
  year ← py_get track "year" (PInt 0);
  spotify_url ← (hub ← py_get track "hub" empty_dict;
                 actions ← py_get hub "actions" list_of_empty_dict;
                 action ← py_index actions 0;
                 py_get action "uri" (PStr ""));
  apple_url ← (hub ← py_get track "hub" empty_dict;
               options ← py_get hub "options" list_of_empty_dict;
               option0 ← py_index options 0;
               actions ← py_get option0 "actions" list_of_empty_dict;
               action ← py_index actions 0;
               py_get action "uri" (PStr ""));
  youtube_url ← (hub ← py_get track "hub" empty_dict;
                 options ← py_get hub "options" list_of_empty_dict;
                 option1 ← py_index options 1;
                 actions ← py_get option1 "actions" list_of_empty_dict;
                 action ← py_index actions 0;
                 py_get action "uri" (PStr ""));
  image_url ← (images ← py_get track "images" empty_dict;
               py_get images "coverarthq" (PStr ""));
  shazam_id ← py_get track "key" (PStr "");
  isrc ← py_get track "isrc" (PStr "");
  ret [ ("title", title); ("artist", artist); ("album", album);
        ("duration", duration); ("genre", genre); ("year", year);
        ("spotify_url", spotify_url); ("apple_url", apple_url);
        ("youtube_url", youtube_url); ("image_url", image_url);
        ("shazam_id", shazam_id); ("isrc", isrc) ].

(** [SongRecognizer.recognize_song].  The state is the list of the
    exceptions that the handler logged; the informational log lines do not
    bear on the result and are left out. *)
Definition recognize_song (env : Env) (file_path : string)
  : M (list exn) (option (dict pyval)) :=
  try_except
    (if negb (path_exists env file_path) then ret None
     else
       result ← lift (recognize env file_path);
       matched ← (if truthy result
                  then (track ← py_get result "track" PNone; ret (truthy track))
                  else ret false);
       if matched then
         track ← py_item result "track";
         song_info ← song_info_of track;
         ret (Some song_info)
       else ret None)
    (fun e => modify (fun logged => logged ++ [e]);; ret None).

(** The record that the specification documents for a match none of whose
    optional fields is present. *)
Definition documented_defaults : dict pyval :=
  [ ("title", PStr "Unknown"); ("artist", PStr "Unknown"); ("album", PStr "Unknown");
    ("duration", PInt 0); ("genre", PStr ""); ("year", PInt 0);
    ("spotify_url", PStr ""); ("apple_url", PStr "");
    ("youtube_url", PStr ""); ("image_url", PStr "");
    ("shazam_id", PStr ""); ("isrc", PStr "") ].

(** The other calls of the [shazam] client, each with the keyword
    arguments that the recognizer passes. *)
Record Shazam : Type := {
  shazam_search_track : string -> Z -> outcome pyval;
  shazam_search_artist : string -> Z -> outcome pyval;
  shazam_related_tracks : string -> Z -> Z -> outcome pyval;
  shazam_top_city_tracks : option string -> option string -> Z -> outcome pyval;
  shazam_top_country_tracks : option string -> Z -> outcome pyval;
  shazam_top_world_tracks : Z -> outcome pyval;
  shazam_listening_counter : string -> outcome pyval
}.

(** [for x in v]: the elements of a list, the characters of a string, the
    keys of a dictionary; nothing else of a decoded response is iterable. *)
Definition py_iter {S} (v : pyval) : M S (list pyval) :=
  match v with
  | PList items => ret items
  | PStr s => ret (map (fun c => PStr (String c EmptyString)) (list_ascii_of_string s))
  | PDict entries => ret (map (fun kv => PStr (fst kv)) entries)
  | _ => raise TypeError
  end.

(** The loop [for x in items: out.append(f(x))]. *)
Fixpoint collect {S A} (f : pyval -> M S A) (items : list pyval) (out : list A)
  : M S (list A) :=
  match items with
  | [] => ret out
  | x :: rest => info ← f x; collect f rest (out ++ [info])
  end.

(** The dictionary literal that [search_song], [get_related_tracks] and
    [get_top_tracks] build for a track. *)
Definition track_info_of {S} (track : pyval) : M S (dict pyval) :=
  id ← py_get track "key" (PStr "");
  title ← py_get track "title" (PStr "Unknown");
  artist ← py_get track "subtitle" (PStr "Unknown");
  album ← (sections ← py_get track "sections" list_of_empty_dict;
           section ← py_index sections 0;
           metadata ← py_get section "metadata" list_of_empty_dict;
           entry ← py_index metadata 0;
           py_get entry "text" (PStr "Unknown"));
  duration ← py_get track "duration" (PInt 0);
  image_url ← (images ← py_get track "images" empty_dict;
               py_get images "coverarthq" (PStr ""));
  spotify_url ← (hub ← py_get track "hub" empty_dict;
                 actions ← py_get hub "actions" list_of_empty_dict;
                 action ← py_index actions 0;
                 py_get action "uri" (PStr ""));
  apple_url ← (hub ← py_get track "hub" empty_dict;
               options ← py_get hub "options" list_of_empty_dict;
               option0 ← py_index options 0;
               actions ← py_get option0 "actions" list_of_empty_dict;
               action ← py_index actions 0;
               py_get action "uri" (PStr ""));
  youtube_url ← (hub ← py_get track "hub" empty_dict;
                 options ← py_get hub "options" list_of_empty_dict;
                 option1 ← py_index options 1;
                 actions ← py_get option1 "actions" list_of_empty_dict;
                 action ← py_index actions 0;
                 py_get action "uri" (PStr ""));
  ret [ ("id", id); ("title", title); ("artist", artist); ("album", album);
        ("duration", duration); ("image_url", image_url);
        ("spotify_url", spotify_url); ("apple_url", apple_url);
        ("youtube_url", youtube_url) ].

(** The handler shared by the methods below: the exception is logged and
    the empty list returned. *)
Definition or_empty {A} (body : M (list exn) (list A)) : M (list exn) (list A) :=
  try_except body (fun e => modify (fun logged => logged ++ [e]);; ret []).

(** [SongRecognizer.search_song] *)
Definition search_song (shazam : Shazam) (query : string)
  : M (list exn) (list (dict pyval)) :=
  or_empty
    (tracks_result ← lift (shazam_search_track shazam query 10);
     has_hits ← (if truthy tracks_result
                 then (tracks ← py_get tracks_result "tracks" empty_dict;
                       hits ← py_get tracks "hits" PNone;
                       ret (truthy hits))
                 else ret false);
     if has_hits then
       tracks ← py_item tracks_result "tracks";
       hits ← py_item tracks "hits";
       items ← py_iter hits;
       collect (fun hit => track ← py_item hit "track"; track_info_of track) items []
     else ret []).

(** The dictionary literal [artist_info] of [search_artist]. *)
Definition artist_info_of {S} (artist : pyval) : M S (dict pyval) :=
  id ← py_get artist "id" (PStr "");
  name ← py_get artist "name" (PStr "Unknown");
  genre ← (genres ← py_get artist "genres" empty_dict;
           py_get genres "primary" (PStr ""));
  image_url ← py_get artist "avatar" (PStr "");
  verified ← py_get artist "verified" (PBool false);
  ret [ ("id", id); ("name", name); ("genre", genre);
        ("image_url", image_url); ("verified", verified) ].

(** [SongRecognizer.search_artist] *)
Definition search_artist (shazam : Shazam) (query : string) (limit : Z)
  : M (list exn) (list (dict pyval)) :=
  or_empty
    (artists_result ← lift (shazam_search_artist shazam query limit);
     has_hits ← (if truthy artists_result
                 then (artists ← py_get artists_result "artists" empty_dict;
                       hits ← py_get artists "hits" PNone;
                       ret (truthy hits))
                 else ret false);
     if has_hits then
       artists ← py_item artists_result "artists";
       hits ← py_item artists "hits";
       items ← py_iter hits;
       collect (fun hit => artist ← py_item hit "artist"; artist_info_of artist) items []
     else ret []).

(** The part shared by [get_related_tracks] and [get_top_tracks]: the
    tracks of a response, one dictionary each. *)
Definition tracks_of (result : pyval) : M (list exn) (list (dict pyval)) :=
  has_tracks ← (if truthy result
                then (tracks ← py_get result "tracks" PNone; ret (truthy tracks))
                else ret false);
  if has_tracks then
    tracks ← py_item result "tracks";
    items ← py_iter tracks;
    collect track_info_of items []
  else ret [].

(** [SongRecognizer.get_related_tracks] *)
Definition get_related_tracks (shazam : Shazam) (track_id : string) (limit offset : Z)
  : M (list exn) (list (dict pyval)) :=
  or_empty
    (related_result ← lift (shazam_related_tracks shazam track_id limit offset);
     tracks_of related_result).

(** Truth value of an argument that is a string or [None]. *)
Definition given (argument : option string) : bool :=
  match argument with
  | Some text => negb (String.eqb text "")
  | None => false
  end.

(** [SongRecognizer.get_top_tracks]; the arguments go to the client as
    they came. *)
Definition get_top_tracks (shazam : Shazam) (country_code city_name : option string)
    (limit : Z) : M (list exn) (list (dict pyval)) :=
  or_empty
    (result ← (if given city_name && given country_code then
                 lift (shazam_top_city_tracks shazam country_code city_name limit)
               else if given country_code then
                 lift (shazam_top_country_tracks shazam country_code limit)
               else
                 lift (shazam_top_world_tracks shazam limit));
     tracks_of result).

(** The answer of the chart that [get_top_tracks] asks for. *)
Definition requested_chart (shazam : Shazam) (country_code city_name : option string)
    (limit : Z) : outcome pyval :=
  if given city_name && given country_code then
    shazam_top_city_tracks shazam country_code city_name limit
  else if given country_code then
    shazam_top_country_tracks shazam country_code limit
  else
    shazam_top_world_tracks shazam limit.

(** [SongRecognizer.get_listening_count] *)
Definition get_listening_count (shazam : Shazam) (track_id : string)
  : M (list exn) (option pyval) :=
  try_except
    (count ← lift (shazam_listening_counter shazam track_id);
     if truthy count then ret (Some count) else ret None)
    (fun e => modify (fun logged => logged ++ [e]);; ret None).

(** A hit of an artist search that [search_artist] can read: a dictionary
    whose ['artist'] is a dictionary, the ['genres'] of which, when present,
    is a dictionary too. *)
Definition readable_artist_hit (hit : pyval) : bool :=
  match hit with
  | PDict entries =>
      match dict_get "artist" entries with
      | Some (PDict artist) =>
          match dict_get "genres" artist with
          | Some (PDict _) | None => true
          | Some _ => false
          end
      | _ => false
      end
  | _ => false
  end.

End SongRecognizer.

(** ** models/user.py and models/song.py *)

Module Models.

(** A [datetime]: the instant, in microseconds.  [isoformat] and
    [fromisoformat] are inverse to each other, so a stored ISO string is
    kept as the instant it denotes. *)
Definition datetime : Type := Z.

(** [User], after [__init__] has filled in [joined_at]. *)
Record User : Type := {
  u_id : Z;
  u_username : option string;
  u_first_name : option string;
  u_last_name : option string;
  u_language : string;
  u_joined_at : datetime;
  u_is_active : bool
}.

(** [Song], after [__init__] has filled in [recognized_at]. *)
Record Song : Type := {
  s_id : Z;
  s_title : option string;
  s_artist : option string;
  s_album : option string;
  s_duration : Z;
  s_genre : option string;
  s_year : Z;
  s_spotify_url : option string;
  s_apple_url : option string;
  s_youtube_url : option string;
  s_image_url : option string;
  s_shazam_id : option string;
  s_isrc : option string;
  s_recognized_at : datetime;
  s_user_id : option Z
}.

End Models.

(** ** services/firebase_service.py

  The service as it runs once [__init__] has fallen back to the in-process
  store ([self.initialized] is false); the other branch of each method
  hands the same data to the Firestore client, an external collaborator. *)

Module FirebaseService.
Import Py Models.

(** The dictionary [user_data] that [save_user] builds. *)
Record user_data : Type := {
  ud_id : Z;
  ud_username : option string;
  ud_first_name : option string;
  ud_last_name : option string;
  ud_language : string;
  ud_joined_at : datetime;
  ud_last_activity : datetime;
  ud_is_active : bool
}.

(** The dictionary [song_data] that [save_song] builds. *)
Record song_data : Type := {
  sd_title : option string;
  sd_artist : option string;
  sd_album : option string;
  sd_duration : Z;
  sd_genre : option string;
  sd_year : Z;
  sd_spotify_url : option string;
  sd_apple_url : option string;
  sd_youtube_url : option string;
  sd_image_url : option string;
  sd_shazam_id : option string;
  sd_isrc : option string;
  sd_recognized_at : datetime;
  sd_user_id : option Z
}.

(** The dictionary [broadcast_data] that [save_broadcast_message] builds. *)
Record broadcast_data : Type := {
  bd_id : string;
  bd_message : string;
  bd_duration_hours : Z;
  bd_sent_by : Z;
  bd_sent_at : datetime;
  bd_expires_at : option datetime;
  bd_is_active : bool
}.

(** A value of the ['statistics'] dictionary: a counter, or the ISO string
    under ['last_updated']. *)
Inductive stat_value : Type :=
| SInt (n : Z)
| SIso (t : datetime).

(** [self.local_storage]; the key ['broadcasts'] is absent until the first
    broadcast is saved. *)
Record local_storage : Type := {
  users : dict user_data;
  songs : dict song_data;
  statistics : gmap string stat_value;
  broadcasts : option (dict broadcast_data)
}.

(** The service and its surroundings: the store, the successive readings
    of [datetime.now()], how many of them were taken, and the rendering of
    [datetime.timestamp()] as text in an f-string. *)
Record state : Type := {
  local : local_storage;
  clock : nat -> datetime;
  ticks : nat;
  timestamp_str : datetime -> string
}.

(** [datetime.now()] *)
Definition now : M state datetime :=
  fun s =>
    (Returned (clock s (ticks s)),
     {| local := local s; clock := clock s; ticks := S (ticks s);
        timestamp_str := timestamp_str s |}).

Definition get_local : M state local_storage :=
  fun s => (Returned (local s), s).

Definition set_local (f : local_storage -> local_storage) : M state unit :=
  fun s =>
    (Returned tt,
     {| local := f (local s); clock := clock s; ticks := ticks s;
        timestamp_str := timestamp_str s |}).

Definition with_users (f : dict user_data -> dict user_data) (ls : local_storage) :=
  {| users := f (users ls); songs := songs ls;
     statistics := statistics ls; broadcasts := broadcasts ls |}.
Definition with_songs (f : dict song_data -> dict song_data) (ls : local_storage) :=
  {| users := users ls; songs := f (songs ls);
     statistics := statistics ls; broadcasts := broadcasts ls |}.
Definition with_statistic (k : string) (v : stat_value) (ls : local_storage) :=
  {| users := users ls; songs := songs ls;
     statistics := <[k := v]> (statistics ls); broadcasts := broadcasts ls |}.
Definition with_broadcasts (b : option (dict broadcast_data)) (ls : local_storage) :=
  {| users := users ls; songs := songs ls;
     statistics := statistics ls; broadcasts := b |}.

(** [str(n)] for an integer. *)
Definition str_of_int (n : Z) : string := pretty n.

(** [timedelta(hours=h)] *)
Definition hours (h : Z) : Z := h * 3600000000.

(** [timedelta(minutes=m)] *)
Definition minutes (m : Z) : Z := m * 60000000.

(** [FirebaseService._use_local_storage] *)
Definition _use_local_storage : M state unit :=
  t ← now;
  set_local (fun _ =>
    {| users := [];
       songs := [];
       statistics :=
         <["last_updated" := SIso t]>
           (<["songs_downloaded" := SInt 0]>
              (<["songs_recognized" := SInt 0]>
                 (<["total_users" := SInt 0]> ∅)));
       broadcasts := None |}).

(** [FirebaseService.save_user] *)
Definition save_user (user : User) : M state bool :=
  try_except
    ((* a datetime is never false: the stored value is user.joined_at *)
     last_activity ← now;
     let user_data :=
       {| ud_id := u_id user;
          ud_username := u_username user;
          ud_first_name := u_first_name user;
          ud_last_name := u_last_name user;
          ud_language := u_language user;
          ud_joined_at := u_joined_at user;
          ud_last_activity := last_activity;
          ud_is_active := true |} in
     set_local (with_users (dict_set (str_of_int (u_id user)) user_data));;
     ls ← get_local;
     set_local (with_statistic "total_users" (SInt (Z.of_nat (length (users ls)))));;
     ret true)
    (fun e => ret false).

(** The call [User(id=..., ..., joined_at=...)] of [get_user] and
    [get_all_users]: every key read is present in a stored [user_data], so
    no default of [.get] is taken; [is_active] is not passed and takes the
    default of [User.__init__]. *)
Definition user_of_data (d : user_data) : User :=
  {| u_id := ud_id d;
     u_username := ud_username d;
     u_first_name := ud_first_name d;
     u_last_name := ud_last_name d;
     u_language := ud_language d;
     u_joined_at := ud_joined_at d;
     u_is_active := true |}.

(** [FirebaseService.get_user].  The default of
    [user_data.get('joined_at', datetime.now().isoformat())] is evaluated
    before the look-up, hence the reading of the clock. *)
Definition get_user (user_id : Z) : M state (option User) :=
  try_except
    (ls ← get_local;
     match dict_get (str_of_int user_id) (users ls) with
     | Some user_data =>
         _ ← now;
         ret (Some (user_of_data user_data))
     | None => ret None
     end)
    (fun e => ret None).

(** [FirebaseService.update_user_language] *)
Definition update_user_language (user_id : Z) (language : string) : M state bool :=
  try_except
    (ls ← get_local;
     match dict_get (str_of_int user_id) (users ls) with
     | Some d =>
         last_activity ← now;
         set_local (with_users (dict_set (str_of_int user_id)
           {| ud_id := ud_id d;
              ud_username := ud_username d;
              ud_first_name := ud_first_name d;
              ud_last_name := ud_last_name d;
              ud_language := language;
              ud_joined_at := ud_joined_at d;
              ud_last_activity := last_activity;
              ud_is_active := ud_is_active d |}));;
         ret true
     | None => ret true
     end)
    (fun e => ret false).

(** The loop of [get_all_users]. *)
Fixpoint all_users_loop (items : dict user_data) : M state (list User) :=
  match items with
  | [] => ret []
  | (user_id, d) :: rest =>
      _ ← now;
      others ← all_users_loop rest;
      ret (user_of_data d :: others)
  end.

(** [FirebaseService.get_all_users] *)
Definition get_all_users : M state (list User) :=
  try_except
    (ls ← get_local; all_users_loop (users ls))
    (fun e => ret []).

(** [x or y] for an optional string [x]. *)
Definition or_else (x : option string) (y : string) : string :=
  match x with
  | Some EmptyString | None => y
  | Some s => s
  end.

(** [FirebaseService.save_song] *)
Definition save_song (song : Song) : M state bool :=
  try_except
    (let song_data :=
       {| sd_title := s_title song;
          sd_artist := s_artist song;
          sd_album := s_album song;
          sd_duration := s_duration song;
          sd_genre := s_genre song;
          sd_year := s_year song;
          sd_spotify_url := s_spotify_url song;
          sd_apple_url := s_apple_url song;
          sd_youtube_url := s_youtube_url song;
          sd_image_url := s_image_url song;
          sd_shazam_id := s_shazam_id song;
          sd_isrc := s_isrc song;
          sd_recognized_at := s_recognized_at song;
          sd_user_id := s_user_id song |} in
     let song_id := or_else (s_shazam_id song) (str_of_int (s_id song)) in
     set_local (with_songs (dict_set song_id song_data));;
     ret true)
    (fun e => ret false).

(** [FirebaseService.get_song]; [song_data] has no ['id'] key, so the
    identifier of the result is the default [0]. *)
Definition get_song (song_id : string) : M state (option Song) :=
  try_except
    (ls ← get_local;
     match dict_get song_id (songs ls) with
     | Some d =>
         _ ← now;
         ret (Some
           {| s_id := 0;
              s_title := sd_title d;
              s_artist := sd_artist d;
              s_album := sd_album d;
              s_duration := sd_duration d;
              s_genre := sd_genre d;
              s_year := sd_year d;
              s_spotify_url := sd_spotify_url d;
              s_apple_url := sd_apple_url d;
              s_youtube_url := sd_youtube_url d;
              s_image_url := sd_image_url d;
              s_shazam_id := sd_shazam_id d;
              s_isrc := sd_isrc d;
              s_recognized_at := sd_recognized_at d;
              s_user_id := sd_user_id d |})
     | None => ret None
     end)
    (fun e => ret None).

(** [FirebaseService.get_statistics] *)
Definition get_statistics : M state (gmap string stat_value) :=
  try_except
    (ls ← get_local; ret (statistics ls))
    (fun e =>
       t ← now;
       ret (<["last_updated" := SIso t]>
              (<["songs_downloaded" := SInt 0]>
                 (<["songs_recognized" := SInt 0]>
                    (<["total_users" := SInt 0]> ∅))))).

(** [FirebaseService.increment_stat]; adding one to the string under
    ['last_updated'] raises. *)
Definition increment_stat (stat_name : string) : M state bool :=
  try_except
    (ls ← get_local;
     match statistics ls !! stat_name with
     | Some (SInt n) => set_local (with_statistic stat_name (SInt (n + 1)))
     | Some (SIso _) => raise TypeError
     | None => set_local (with_statistic stat_name (SInt 1))
     end;;
     t ← now;
     set_local (with_statistic "last_updated" (SIso t));;
     ret true)
    (fun e => ret false).

(** [FirebaseService.save_broadcast_message].  The module imports
    [datetime] alone from the [datetime] package: the name [timedelta] is
    unbound, and evaluating it, after the left operand of the sum, raises
    [NameError]. *)
Definition save_broadcast_message (message : string) (duration_hours : Z)
    (sent_by : Z) : M state string :=
  try_except
    (created ← now;
     s ← get;
     let message_id := "broadcast_" +:+ timestamp_str s created in
     sent_at ← now;
     expires_at ←
       (if 0 <? duration_hours
        then (_ ← now; raise (NameError "timedelta"))
        else ret None);
     let broadcast_data :=
       {| bd_id := message_id;
          bd_message := message;
          bd_duration_hours := duration_hours;
          bd_sent_by := sent_by;
          bd_sent_at := sent_at;
          bd_expires_at := expires_at;
          bd_is_active := true |} in
     set_local (fun ls =>
       with_broadcasts
         (Some (dict_set message_id broadcast_data
                  (match broadcasts ls with Some b => b | None => [] end)))
         ls);;
     ret message_id)
    (fun e => ret "").

(** [broadcast_data['is_active'] = False] *)
Definition deactivate (d : broadcast_data) : broadcast_data :=
  {| bd_id := bd_id d;
     bd_message := bd_message d;
     bd_duration_hours := bd_duration_hours d;
     bd_sent_by := bd_sent_by d;
     bd_sent_at := bd_sent_at d;
     bd_expires_at := bd_expires_at d;
     bd_is_active := false |}.

(** [current_time > expires_time], under [if expires_at:]. *)
Definition expired (current_time : datetime) (d : broadcast_data) : bool :=
  match bd_expires_at d with
  | Some expires_time => expires_time <? current_time
  | None => false
  end.

(** The loop of [get_active_broadcasts] over the items of the dictionary:
    the dictionary as the loop leaves it (a record found expired is marked
    in place) and the records appended to [broadcasts]. *)
Fixpoint active_loop (current_time : datetime) (items : dict broadcast_data)
  : dict broadcast_data * list broadcast_data :=
  match items with
  | [] => ([], [])
  | (broadcast_id, d) :: rest =>
      let '(rest', appended) := active_loop current_time rest in
      if bd_is_active d then
        if expired current_time d then
          ((broadcast_id, deactivate d) :: rest', appended)
        else
          ((broadcast_id, d) :: rest', d :: appended)
      else
        ((broadcast_id, d) :: rest', appended)
  end.

(** [FirebaseService.get_active_broadcasts] *)
Definition get_active_broadcasts : M state (list broadcast_data) :=
  try_except
    (current_time ← now;
     ls ← get_local;
     match broadcasts ls with
     | Some items =>
         let '(items', appended) := active_loop current_time items in
         set_local (with_broadcasts (Some items'));;
         ret appended
     | None => ret []
     end)
    (fun e => ret []).

(** The first loop of [cleanup_expired_data]: the identifiers to delete. *)
Definition expired_broadcasts (current_time : datetime) (items : dict broadcast_data)
  : list string :=
  map fst (filter (fun item => expired current_time (snd item)) items).

(** [FirebaseService.cleanup_expired_data] *)
Definition cleanup_expired_data : M state unit :=
  try_except
    (current_time ← now;
     ls ← get_local;
     match broadcasts ls with
     | Some items =>
         set_local (with_broadcasts
           (Some (fold_left (fun acc broadcast_id => dict_del broadcast_id acc)
                    (expired_broadcasts current_time items) items)))
     | None => ret tt
     end)
    (fun e => ret tt).

(** The operations of the store, and the state each leaves behind. *)
Inductive operation : Type :=
| SaveUser (user : User)
| GetUser (user_id : Z)
| UpdateUserLanguage (user_id : Z) (language : string)
| GetAllUsers
| SaveSong (song : Song)
| GetSong (song_id : string)
| GetStatistics
| IncrementStat (stat_name : string)
| SaveBroadcastMessage (message : string) (duration_hours : Z) (sent_by : Z)
| GetActiveBroadcasts
| CleanupExpiredData.

Definition run (op : operation) (s : state) : state :=
  match op with
  | SaveUser user => snd (save_user user s)
  | GetUser user_id => snd (get_user user_id s)
  | UpdateUserLanguage user_id language => snd (update_user_language user_id language s)
  | GetAllUsers => snd (get_all_users s)
  | SaveSong song => snd (save_song song s)
  | GetSong song_id => snd (get_song song_id s)
  | GetStatistics => snd (get_statistics s)
  | IncrementStat stat_name => snd (increment_stat stat_name s)
  | SaveBroadcastMessage message duration_hours sent_by =>
      snd (save_broadcast_message message duration_hours sent_by s)
  | GetActiveBroadcasts => snd (get_active_broadcasts s)
  | CleanupExpiredData => snd (cleanup_expired_data s)
  end.

(** The counter stored under [name], when there is one. *)
Definition counter (name : string) (s : state) : option Z :=
  match statistics (local s) !! name with
  | Some (SInt n) => Some n
  | _ => None
  end.

(** The list that [get_active_broadcasts] returns. *)
Definition active_broadcasts (s : state) : list broadcast_data :=
  match fst (get_active_broadcasts s) with
  | Returned active => active
  | Raised _ => []
  end.

(** The user that [get_user] returns. *)
Definition fetched_user (user_id : Z) (s : state) : option User :=
  match fst (get_user user_id s) with
  | Returned found => found
  | Raised _ => None
  end.

(** The broadcasts stored, none when the key is absent. *)
Definition stored_broadcasts (s : state) : dict broadcast_data :=
  match broadcasts (local s) with Some b => b | None => [] end.

(** The song that [get_song] returns. *)
Definition fetched_song (song_id : string) (s : state) : option Song :=
  match fst (get_song song_id s) with
  | Returned found => found
  | Raised _ => None
  end.

(** The list that [get_all_users] returns. *)
Definition listed_users (s : state) : list User :=
  match fst (get_all_users s) with
  | Returned listed => listed
  | Raised _ => []
  end.

(** The key under which [save_song] files a song. *)
Definition song_key (song : Song) : string :=
  or_else (s_shazam_id song) (str_of_int (s_id song)).

(** Every user is filed under the text of the identifier it holds. *)
Definition users_well_keyed (s : state) : Prop :=
  forall k d, In (k, d) (users (local s)) -> k = str_of_int (ud_id d).

(** The state after a sequence of operations. *)
Definition run_all (ops : list operation) (s : state) : state :=
  fold_left (fun acc op => run op acc) ops s.


End FirebaseService.

(** ** bot.py *)

Module MusicBot.
Import Py Models.

(** Conversation states; a user without an entry in [user_states] is idle. *)
Definition EDIT_SONG_WAITING_FOR_FILE : Z := 1.
Definition EDIT_SONG_WAITING_FOR_INFO : Z := 2.
Definition BROADCAST_WAITING_FOR_MESSAGE : Z := 3.
Definition BROADCAST_WAITING_FOR_DURATION : Z := 4.

(** [ADMIN_USER_ID] of config.py *)
Definition ADMIN_USER_ID : Z := 123456789.

(** [is_admin] of utils/helpers.py *)
Definition is_admin (user_id : Z) : bool := user_id =? ADMIN_USER_ID.

(** A keyword argument of [get_message]. *)
Inductive kwarg : Type :=
| KInt (n : Z)
| KStr (s : string)
| KExn (e : exn).      (* str(e) *)

(** What the bot sends, in order.  [Reply key kwargs] is
    [update.message.reply_text(self.get_message(user_id, key, ...))]; the
    rendering of the template belongs to the presentation layer.  The
    pictographs that the source puts in front of the literal texts are left
    out: [ReplyText] holds the words, [Broadcast] the message that follows
    the megaphone. *)
Inductive outgoing : Type :=
| Reply (user_id : Z) (key : string) (kwargs : list (string * kwarg))
| ReplyText (user_id : Z) (text : string)
| Broadcast (chat_id : Z) (message : string).   (* context.bot.send_message *)

(** The bot: [self.user_states], the [context.user_data] of every user,
    the store, what was sent so far, and the network on the way back to the
    user who wrote: [reply_outcome n] is what the [n]-th call of
    [update.message.reply_text] does, deliver the reply or raise, and
    [replies] counts the calls made so far.  A message to another chat may
    fail as well, which [handle_broadcast] catches. *)
Record state : Type := {
  user_states : gmap Z Z;
  user_data : gmap Z (dict string);
  firebase_service : FirebaseService.state;
  outbox : list outgoing;
  reply_outcome : nat -> outcome unit;
  replies : nat
}.

(** An incoming text message. *)
Record Update : Type := {
  effective_user_id : Z;
  text : string
}.

(** [context.bot.send_message(chat_id, text)], which may raise. *)
Definition Transport : Type := Z -> string -> outcome unit.

(** A message that went out is added to the outbox. *)
Definition record (o : outgoing) : M state unit :=
  modify (fun s =>
    {| user_states := user_states s; user_data := user_data s;
       firebase_service := firebase_service s; outbox := outbox s ++ [o];
       reply_outcome := reply_outcome s; replies := replies s |}).

(** [await update.message.reply_text(...)]: the call is counted; it
    raises what the network raises, and the reply goes out otherwise. *)
Definition send (o : outgoing) : M state unit :=
  s ← get;
  modify (fun s =>
    {| user_states := user_states s; user_data := user_data s;
       firebase_service := firebase_service s; outbox := outbox s;
       reply_outcome := reply_outcome s; replies := S (replies s) |});;
  lift (reply_outcome s (replies s));;
  record o.

(** Every reply is delivered. *)
Definition replies_delivered (s : state) : Prop :=
  forall n, reply_outcome s n = Returned tt.

Definition set_user_states (f : gmap Z Z -> gmap Z Z) : M state unit :=
  modify (fun s =>
    {| user_states := f (user_states s); user_data := user_data s;
       firebase_service := firebase_service s; outbox := outbox s;
       reply_outcome := reply_outcome s; replies := replies s |}).

(** [context.user_data] of [user_id]; empty until first written. *)
Definition user_data_of (s : state) (user_id : Z) : dict string :=
  match user_data s !! user_id with Some d => d | None => [] end.

Definition context_user_data (user_id : Z) : M state (dict string) :=
  s ← get;
  ret (user_data_of s user_id).

Definition set_context_user_data (user_id : Z) (f : dict string -> dict string)
  : M state unit :=
  modify (fun s =>
    {| user_states := user_states s;
       user_data := <[user_id := f (user_data_of s user_id)]> (user_data s);
       firebase_service := firebase_service s; outbox := outbox s;
       reply_outcome := reply_outcome s; replies := replies s |}).

(** A call into [self.firebase_service]. *)
Definition firebase {A} (c : M FirebaseService.state A) : M state A :=
  fun s =>
    let '(r, fs) := c (firebase_service s) in
    (r, {| user_states := user_states s; user_data := user_data s;
           firebase_service := fs; outbox := outbox s;
           reply_outcome := reply_outcome s; replies := replies s |}).

(** [MusicBot.broadcast_command] *)
Definition broadcast_command (update : Update) : M state unit :=
  let user_id := effective_user_id update in
  if negb (is_admin user_id) then
    send (Reply user_id "admin_only" [])
  else
    set_user_states (<[user_id := BROADCAST_WAITING_FOR_MESSAGE]>);;
    send (Reply user_id "broadcast" []).

(** [MusicBot.handle_song_edit].  The loop over the lines of the text fills
    a local dictionary that nothing reads, and cannot raise; it is left
    out. *)
Definition handle_song_edit (update : Update) : M state unit :=
  let user_id := effective_user_id update in
  try_except
    (data ← context_user_data user_id;
     match dict_get "edit_file_id" data with
     | None | Some EmptyString =>
         send (Reply user_id "error" [("error", KStr "File not found")])
     | Some _ =>
         send (Reply user_id "info_updated" []);;
         set_user_states (delete user_id);;
         set_context_user_data user_id (dict_del "edit_file_id")
     end)
    (fun e => send (Reply user_id "error" [("error", KExn e)])).

(** The loop of [handle_broadcast] over the users: the number of messages
    that went out. *)
Fixpoint broadcast_loop (transport : Transport) (message : string)
    (users : list User) (sent_count : Z) : M state Z :=
  match users with
  | [] => ret sent_count
  | user :: rest =>
      sent ← try_except
               (lift (transport (u_id user) message);;
                record (Broadcast (u_id user) message);;
                ret true)
               (fun e => ret false);
      broadcast_loop transport message rest
        (if sent then sent_count + 1 else sent_count)
  end.

(** [MusicBot.handle_broadcast] *)
Definition handle_broadcast (transport : Transport) (update : Update) : M state unit :=
  let user_id := effective_user_id update in
  let text := text update in
  try_except
    (duration_hours ← int text;
     data ← context_user_data user_id;
     match dict_get "broadcast_message" data with
     | None | Some EmptyString =>
         send (Reply user_id "error" [("error", KStr "Message not found")])
     | Some message =>
         users ← firebase FirebaseService.get_all_users;
         sent_count ← broadcast_loop transport message users 0;
         send (Reply user_id "broadcast_sent" [("count", KInt sent_count)]);;
         (if 0 <? duration_hours
          then send (Reply user_id "broadcast_duration" [("hours", KInt duration_hours)])
          else ret tt);;
         set_user_states (delete user_id);;
         set_context_user_data user_id (dict_del "broadcast_message")
     end)
    (fun e => send (Reply user_id "error" [("error", KExn e)])).

(** [MusicBot.handle_text_message]; [handle_url_download] is the handler
    of the last branch. *)
Definition handle_text_message (transport : Transport)
    (handle_url_download : Update -> M state unit) (update : Update)
  : M state unit :=
  let user_id := effective_user_id update in
  let text := text update in
  s ← get;
  if decide (user_states s !! user_id = Some EDIT_SONG_WAITING_FOR_INFO) then
    handle_song_edit update
  else if decide (user_states s !! user_id = Some BROADCAST_WAITING_FOR_MESSAGE) then
    set_context_user_data user_id (dict_set "broadcast_message" text);;
    set_user_states (<[user_id := BROADCAST_WAITING_FOR_DURATION]>);;
    send (ReplyText user_id "Enter message duration in hours (or 0 for permanent):")
  else if decide (user_states s !! user_id = Some BROADCAST_WAITING_FOR_DURATION) then
    handle_broadcast transport update
  else if existsb (fun platform => str_in platform (lower text))
            [ "youtube.com"; "youtu.be"; "instagram.com"; "tiktok.com";
              "pinterest.com"; "soundcloud.com" ] then
    handle_url_download update
  else ret tt.

(** The conversation state of a user; [None] is idle. *)
Definition conversation_state (s : state) (user_id : Z) : option Z :=
  user_states s !! user_id.

(** An incoming media message: the file identifier of each attachment
    that is present. *)
Record MediaUpdate : Type := {
  media_user_id : Z;
  audio : option string;
  voice : option string;
  video : option string;
  video_note : option string
}.

(** [MusicBot.handle_audio_message]; [recognize_and_reply] is the rest of
    the handler, from [processing_msg] on.  The state is advanced before the
    file identifier is read, and [message.voice.file_id] raises when the
    message holds neither an audio nor a voice attachment. *)
Definition handle_audio_message
    (recognize_and_reply : MediaUpdate -> M state unit) (update : MediaUpdate)
  : M state unit :=
  let user_id := media_user_id update in
  s ← get;
  if decide (user_states s !! user_id = Some EDIT_SONG_WAITING_FOR_FILE) then
    set_user_states (<[user_id := EDIT_SONG_WAITING_FOR_INFO]>);;
    file_id ← match audio update with
              | Some file_id => ret file_id
              | None =>
                  match voice update with
                  | Some file_id => ret file_id
                  | None => raise AttributeError
                  end
              end;
    set_context_user_data user_id (dict_set "edit_file_id" file_id);;
    send (Reply user_id "edit_info" [])
  else
    recognize_and_reply update.

(** The users to whom the transport delivers [message]. *)
Definition reached (transport : Transport) (message : string) (user : User) : bool :=
  match transport (u_id user) message with
  | Returned _ => true
  | Raised _ => false
  end.

(** The broadcasts among what was sent. *)
Fixpoint broadcasts_sent (sent : list outgoing) : list (Z * string) :=
  match sent with
  | [] => []
  | Broadcast chat_id message :: rest => (chat_id, message) :: broadcasts_sent rest
  | _ :: rest => broadcasts_sent rest
  end.

(** Nobody but the administrator is in a state of the broadcast flow. *)
Definition broadcast_flow_is_admins (s : state) : Prop :=
  forall user_id,
    user_states s !! user_id = Some BROADCAST_WAITING_FOR_MESSAGE
    \/ user_states s !! user_id = Some BROADCAST_WAITING_FOR_DURATION ->
    user_id = ADMIN_USER_ID.

End MusicBot.

(** ** The classifier as the specification words it

  A pure substring match of the lowered URL against a table of
  platform to domain fragments; the first platform of the table with a
  matching fragment wins. *)

Module ClassifierSpec.
Import Py.

Definition matches (url_lower : string) (fragments : list string) : bool :=
  existsb (fun f => str_in f url_lower) fragments.

Fixpoint first_match (table : list (string * list string)) (url_lower : string)
  : option string :=
  match table with
  | [] => None
  | (platform, fragments) :: rest =>
      if matches url_lower fragments then Some platform
      else first_match rest url_lower
  end.

Definition classify (url : string) : option string :=
  first_match Config.SOCIAL_MEDIA_PLATFORMS (lower url).

(** [s] is a spelling of [fragment] in some letter case. *)
Definition spells (s fragment : string) : Prop := lower s = fragment.

(** [url] contains a spelling of [fragment], in any letter case. *)
Definition contains_anycase (url fragment : string) : Prop :=
  exists pre s post, url = pre +:+ s +:+ post /\ spells s fragment.

(** No fragment of the platforms listed in [rows] occurs in [url]. *)
Definition no_fragment_of (rows : list (string * list string)) (url : string) : Prop :=
  forall platform fragments fragment,
    In (platform, fragments) rows -> In fragment fragments ->
    ~ contains_anycase url fragment.

End ClassifierSpec.

(** * Scenarios

    Concrete surroundings on which the properties below are exercised. *)

Module Scenario.
Import Py.

(** A machine where [clip.mp4] exists and the conversion tool runs, exits
    with status 1 and writes [boom] to its standard error. *)
Definition failing_child : Downloader.Env :=
  {| Downloader.path_exists := fun p => String.eqb p "clip.mp4";
     Downloader.get_ffmpeg_path := Some "ffmpeg";
     Downloader.get_ffprobe_path := Some "ffprobe";
     Downloader.YoutubeDL := fun _ _ => Raised (ExternalError "offline");
     Downloader.download_from_instagram := fun _ => None;
     Downloader.subprocess_exec :=
       fun _ => Returned (1, Downloader.Decodes "boom", fun _ => false) |}.

(** The same machine, with a tool that exits with status 0 and leaves
    [clip.mp3] behind. *)
Definition succeeding_child : Downloader.Env :=
  {| Downloader.path_exists := fun p => String.eqb p "clip.mp4";
     Downloader.get_ffmpeg_path := Some "ffmpeg";
     Downloader.get_ffprobe_path := Some "ffprobe";
     Downloader.YoutubeDL := fun _ _ => Raised (ExternalError "offline");
     Downloader.download_from_instagram := fun _ => None;
     Downloader.subprocess_exec :=
       fun _ => Returned (0, Downloader.Decodes "", fun p => String.eqb p "clip.mp3") |}.

(** A fingerprinting service that matches every file with a track that
    has a title and an artist and none of the optional subtrees. *)
Definition bare_match : SongRecognizer.pyval :=
  SongRecognizer.PDict
    [ ("track",
       SongRecognizer.PDict
         [ ("title", SongRecognizer.PStr "Song");
           ("subtitle", SongRecognizer.PStr "Artist") ]) ].

Definition bare_service : SongRecognizer.Env :=
  {| SongRecognizer.path_exists := fun _ => true;
     SongRecognizer.recognize := fun _ => Returned bare_match |}.

(** The record that the documented defaults give for [bare_match]. *)
Definition bare_match_expected : dict SongRecognizer.pyval :=
  dict_update SongRecognizer.documented_defaults
    [ ("title", SongRecognizer.PStr "Song");
      ("artist", SongRecognizer.PStr "Artist") ].

(** A store before [_use_local_storage], with a clock that advances by one
    second at each reading. *)
Definition blank_store : FirebaseService.state :=
  {| FirebaseService.local :=
       {| FirebaseService.users := [];
          FirebaseService.songs := [];
          FirebaseService.statistics := ∅;
          FirebaseService.broadcasts := None |};
     FirebaseService.clock := fun n => 1700000000000000 + Z.of_nat n * 1000000;
     FirebaseService.ticks := 0;
     FirebaseService.timestamp_str := fun t => pretty t |}.

(** The store as [__init__] leaves it. *)
Definition fresh_store : FirebaseService.state :=
  snd (FirebaseService._use_local_storage blank_store).

(** A user without a display name, and the same user marked inactive. *)
Definition alice : Models.User :=
  {| Models.u_id := 7;
     Models.u_username := None;
     Models.u_first_name := Some "Alice";
     Models.u_last_name := None;
     Models.u_language := "fa";
     Models.u_joined_at := 1690000000000000;
     Models.u_is_active := true |}.

Definition dormant_alice : Models.User :=
  {| Models.u_id := 7;
     Models.u_username := None;
     Models.u_first_name := Some "Alice";
     Models.u_last_name := None;
     Models.u_language := "fa";
     Models.u_joined_at := 1690000000000000;
     Models.u_is_active := false |}.

(** A broadcast sent at [sent_at] that lives for one hour, and a store that
    holds it and whose next reading of the clock is [current_time]. *)
Definition one_hour_broadcast (sent_at : Z) : FirebaseService.broadcast_data :=
  {| FirebaseService.bd_id := "broadcast_1";
     FirebaseService.bd_message := "hello";
     FirebaseService.bd_duration_hours := 1;
     FirebaseService.bd_sent_by := 123456789;
     FirebaseService.bd_sent_at := sent_at;
     FirebaseService.bd_expires_at := Some (sent_at + FirebaseService.hours 1);
     FirebaseService.bd_is_active := true |}.

Definition store_with_broadcast (d : FirebaseService.broadcast_data) (current_time : Z)
  : FirebaseService.state :=
  {| FirebaseService.local :=
       {| FirebaseService.users := [];
          FirebaseService.songs := [];
          FirebaseService.statistics := ∅;
          FirebaseService.broadcasts := Some [(FirebaseService.bd_id d, d)] |};
     FirebaseService.clock := fun _ => current_time;
     FirebaseService.ticks := 0;
     FirebaseService.timestamp_str := fun t => pretty t |}.

(** The administrator, right after answering the first question of the
    broadcast flow with the message [hello]. *)
Definition admin : Z := 123456789.

Definition awaiting_duration : MusicBot.state :=
  {| MusicBot.user_states := {[ admin := MusicBot.BROADCAST_WAITING_FOR_DURATION ]};
     MusicBot.user_data := {[ admin := [("broadcast_message", "hello")] ]};
     MusicBot.firebase_service := fresh_store;
     MusicBot.outbox := [];
     MusicBot.reply_outcome := fun _ => Returned tt;
     MusicBot.replies := 0 |}.

(** A user who is asked for the new song information although no file
    identifier was recorded for them. *)
Definition editor : Z := 55.

Definition awaiting_info_without_file : MusicBot.state :=
  {| MusicBot.user_states := {[ editor := MusicBot.EDIT_SONG_WAITING_FOR_INFO ]};
     MusicBot.user_data := ∅;
     MusicBot.firebase_service := fresh_store;
     MusicBot.outbox := [];
     MusicBot.reply_outcome := fun _ => Returned tt;
     MusicBot.replies := 0 |}.

(** A transport that delivers every message, and a download handler that
    does nothing. *)
Definition delivering : MusicBot.Transport := fun _ _ => Returned tt.
Definition no_download : MusicBot.Update -> M MusicBot.state unit := fun _ => ret tt.

Definition says (user_id : Z) (text : string) : MusicBot.Update :=
  {| MusicBot.effective_user_id := user_id; MusicBot.text := text |}.

(** What [save_user alice] files on a fresh store. *)
Definition alice_data : FirebaseService.user_data :=
  {| FirebaseService.ud_id := 7;
     FirebaseService.ud_username := None;
     FirebaseService.ud_first_name := Some "Alice";
     FirebaseService.ud_last_name := None;
     FirebaseService.ud_language := "fa";
     FirebaseService.ud_joined_at := 1690000000000000;
     FirebaseService.ud_last_activity := 1700000001000000;
     FirebaseService.ud_is_active := true |}.

(** A song that the recognizer did not identify: no service identifier,
    and the default numeric identifier. *)
Definition unidentified_song (title : string) : Models.Song :=
  {| Models.s_id := 0;
     Models.s_title := Some title;
     Models.s_artist := Some "Unknown";
     Models.s_album := Some "Unknown";
     Models.s_duration := 0;
     Models.s_genre := Some "";
     Models.s_year := 0;
     Models.s_spotify_url := Some "";
     Models.s_apple_url := Some "";
     Models.s_youtube_url := Some "";
     Models.s_image_url := Some "";
     Models.s_shazam_id := Some "";
     Models.s_isrc := Some "";
     Models.s_recognized_at := 1690000000000000;
     Models.s_user_id := None |}.

(** A store that holds three broadcasts: one permanent, one that expired
    at 50, one that expires at 200; the clock reads 100. *)
Definition three_broadcasts : FirebaseService.state :=
  {| FirebaseService.local :=
       {| FirebaseService.users := [];
          FirebaseService.songs := [];
          FirebaseService.statistics := ∅;
          FirebaseService.broadcasts :=
            Some [ ("a", {| FirebaseService.bd_id := "a";
                            FirebaseService.bd_message := "permanent";
                            FirebaseService.bd_duration_hours := 0;
                            FirebaseService.bd_sent_by := 1;
                            FirebaseService.bd_sent_at := 0;
                            FirebaseService.bd_expires_at := None;
                            FirebaseService.bd_is_active := true |});
                   ("b", {| FirebaseService.bd_id := "b";
                            FirebaseService.bd_message := "stale";
                            FirebaseService.bd_duration_hours := 1;
                            FirebaseService.bd_sent_by := 1;
                            FirebaseService.bd_sent_at := 0;
                            FirebaseService.bd_expires_at := Some 50;
                            FirebaseService.bd_is_active := true |});
                   ("c", {| FirebaseService.bd_id := "c";
                            FirebaseService.bd_message := "fresh";
                            FirebaseService.bd_duration_hours := 1;
                            FirebaseService.bd_sent_by := 1;
                            FirebaseService.bd_sent_at := 0;
                            FirebaseService.bd_expires_at := Some 200;
                            FirebaseService.bd_is_active := false |}) ] |};
     FirebaseService.clock := fun _ => 100;
     FirebaseService.ticks := 0;
     FirebaseService.timestamp_str := fun t => pretty t |}.

(** The store after [alice] was saved. *)
Definition store_with_alice : FirebaseService.state :=
  snd (FirebaseService.save_user alice fresh_store).

(** A user who chose to edit a song and is asked for the file. *)
Definition awaiting_file : MusicBot.state :=
  {| MusicBot.user_states := {[ editor := MusicBot.EDIT_SONG_WAITING_FOR_FILE ]};
     MusicBot.user_data := ∅;
     MusicBot.firebase_service := fresh_store;
     MusicBot.outbox := [];
     MusicBot.reply_outcome := fun _ => Returned tt;
     MusicBot.replies := 0 |}.

Definition sends_audio (user_id : Z) (file_id : string) : MusicBot.MediaUpdate :=
  {| MusicBot.media_user_id := user_id;
     MusicBot.audio := Some file_id;
     MusicBot.voice := None;
     MusicBot.video := None;
     MusicBot.video_note := None |}.


Definition no_recognition : MusicBot.MediaUpdate -> M MusicBot.state unit :=
  fun _ => ret tt.

(** The administrator awaiting the duration, in a store that holds
    [alice]. *)
Definition awaiting_duration_with_alice : MusicBot.state :=
  {| MusicBot.user_states := {[ admin := MusicBot.BROADCAST_WAITING_FOR_DURATION ]};
     MusicBot.user_data := {[ admin := [("broadcast_message", "hello")] ]};
     MusicBot.firebase_service := store_with_alice;
     MusicBot.outbox := [];
     MusicBot.reply_outcome := fun _ => Returned tt;
     MusicBot.replies := 0 |}.

(** A machine on which yt-dlp fetches a YouTube address as
    [downloads/clip.webm] and leaves [downloads/clip.mp3] beside it. *)
Definition transcoding_ydl : Downloader.Env :=
  {| Downloader.path_exists := fun _ => false;
     Downloader.get_ffmpeg_path := Some "ffmpeg";
     Downloader.get_ffprobe_path := Some "ffprobe";
     Downloader.YoutubeDL :=
       fun _ _ => Returned ("downloads/clip.webm",
                            fun p => String.eqb p "downloads/clip.mp3"
                                     || String.eqb p "downloads/clip.webm");
     Downloader.download_from_instagram := fun _ => None;
     Downloader.subprocess_exec :=
       fun _ => Returned (0, Downloader.Decodes "", fun _ => false) |}.

(** A track with every subtree that the recognizer reads, and the bare
    track of [bare_match]. *)
Definition full_track : SongRecognizer.pyval :=
  SongRecognizer.PDict
    [ ("key", SongRecognizer.PStr "42");
      ("title", SongRecognizer.PStr "Song");
      ("subtitle", SongRecognizer.PStr "Artist");
      ("hub",
       SongRecognizer.PDict
         [ ("actions",
            SongRecognizer.PList
              [ SongRecognizer.PDict [ ("uri", SongRecognizer.PStr "spotify:42") ] ]);
           ("options",
            SongRecognizer.PList
              [ SongRecognizer.PDict
                  [ ("actions",
                     SongRecognizer.PList
                       [ SongRecognizer.PDict
                           [ ("uri", SongRecognizer.PStr "apple:42") ] ]) ];
                SongRecognizer.PDict
                  [ ("actions",
                     SongRecognizer.PList
                       [ SongRecognizer.PDict
                           [ ("uri", SongRecognizer.PStr "youtube:42") ] ]) ] ]) ]) ].

Definition bare_track : dict SongRecognizer.pyval :=
  [ ("title", SongRecognizer.PStr "Song");
    ("subtitle", SongRecognizer.PStr "Artist") ].

Definition artist_hits : list SongRecognizer.pyval :=
  [ SongRecognizer.PDict
      [ ("artist",
         SongRecognizer.PDict
           [ ("id", SongRecognizer.PStr "1"); ("name", SongRecognizer.PStr "Ann") ]) ];
    SongRecognizer.PDict [ ("artist", SongRecognizer.PDict []) ] ].

(** A catalogue that answers every listing with [full_track] followed by
    the bare track, every artist search with [artist_hits], and a
    listening count with 1000 for the track 42 and with zero otherwise. *)
Definition catalogue : SongRecognizer.Shazam :=
  let listing :=
    SongRecognizer.PDict
      [ ("tracks",
         SongRecognizer.PList [ full_track; SongRecognizer.PDict bare_track ]) ] in
  {| SongRecognizer.shazam_search_track := fun _ _ =>
       Returned
         (SongRecognizer.PDict
            [ ("tracks",
               SongRecognizer.PDict
                 [ ("hits",
                    SongRecognizer.PList
                      [ SongRecognizer.PDict [ ("track", full_track) ];
                        SongRecognizer.PDict
                          [ ("track", SongRecognizer.PDict bare_track) ] ]) ]) ]);
     SongRecognizer.shazam_search_artist := fun _ _ =>
       Returned
         (SongRecognizer.PDict
            [ ("artists",
               SongRecognizer.PDict
                 [ ("hits", SongRecognizer.PList artist_hits) ]) ]);
     SongRecognizer.shazam_related_tracks := fun _ _ _ => Returned listing;
     SongRecognizer.shazam_top_city_tracks := fun _ _ _ => Returned listing;
     SongRecognizer.shazam_top_country_tracks := fun _ _ => Returned listing;
     SongRecognizer.shazam_top_world_tracks := fun _ => Returned listing;
     SongRecognizer.shazam_listening_counter := fun track_id =>
       Returned (SongRecognizer.PInt (if String.eqb track_id "42" then 1000 else 0)) |}.

(** A machine with [ffmpeg] on the search path and [ffprobe] only under
    [/usr/local/bin], where a copy of [ffmpeg] lies too. *)
Definition split_install : FFmpegManager.Env :=
  {| FFmpegManager.run_version := fun tool =>
       if String.eqb tool "ffmpeg" then FFmpegManager.Exited 0
       else FFmpegManager.Caught;
     FFmpegManager.is_executable := fun path =>
       String.eqb path "/usr/local/bin/ffmpeg"
       || String.eqb path "/usr/local/bin/ffprobe" |}.

End Scenario.

(** * Properties *)

(** ** Strings *)

Section Strings.
Import Py.

Lemma append_nil_l (b : string) : "" +:+ b = b.
Proof. reflexivity. Qed.

Lemma append_cons (c : ascii) (a b : string) :
    String c a +:+ b = String c (a +:+ b).
Proof. reflexivity. Qed.

Lemma prefix_spec (a s : string) :
    String.prefix a s = true <-> exists post, s = a +:+ post.
Proof.
    revert s. induction a as [|c a IH]; intros s.
    - split; [intros _; exists s; reflexivity | intros _; now destruct s].
    - destruct s as [|d s]; cbn.
      + split; [discriminate | intros [post H]; discriminate].
      + destruct (ascii_dec c d) as [->|Hne].
        * rewrite IH. split; intros [post H]; exists post.
          -- now rewrite append_cons, H.
          -- rewrite append_cons in H. congruence.
        * split; [discriminate | intros [post H]].
          rewrite append_cons in H. congruence.
Qed.

Lemma str_in_spec (sub s : string) :
    str_in sub s = true <-> exists pre post, s = pre +:+ sub +:+ post.
Proof.
    induction s as [|c s IH]; cbn [str_in].
    - rewrite orb_false_r, prefix_spec. split.
      + intros [post H]. exists "", post. exact H.
      + intros (pre & post & H). destruct pre.
        * exists post. exact H.
        * rewrite append_cons in H. discriminate.
    - rewrite orb_true_iff, prefix_spec, IH. split.
      + intros [[post H] | (pre & post & H)].
        * exists "", post. exact H.
        * exists (String c pre), post. rewrite append_cons. now rewrite H.
      + intros (pre & post & H). destruct pre as [|d pre].
        * left. exists post. exact H.
        * right. exists pre, post. rewrite append_cons in H. congruence.
Qed.

Lemma lower_app (a b : string) : lower (a +:+ b) = lower a +:+ lower b.
Proof.
    induction a as [|c a IH]; [reflexivity|].
    rewrite append_cons. cbn [lower]. now rewrite append_cons, IH.
Qed.

Lemma lower_app_inv (u a b : string) :
    lower u = a +:+ b ->
    exists u1 u2, u = u1 +:+ u2 /\ lower u1 = a /\ lower u2 = b.
Proof.
    revert u. induction a as [|c a IH]; intros u H.
    - exists "", u. auto.
    - rewrite append_cons in H.
      destruct u as [|d u]; cbn [lower] in H; [discriminate|].
      injection H as Hc Hrest.
      destruct (IH u Hrest) as (u1 & u2 & -> & H1 & H2).
      exists (String d u1), u2. cbn [lower]. rewrite H1, Hc. auto.
Qed.

(** The lowered URL holds the fragment exactly when the URL holds a
      spelling of it in some letter case. *)
Lemma str_in_lower (url fragment : string) :
    str_in fragment (lower url) = true <-> ClassifierSpec.contains_anycase url fragment.
Proof.
    unfold ClassifierSpec.contains_anycase, ClassifierSpec.spells.
    rewrite str_in_spec. split.
    - intros (pre & post & H).
      destruct (lower_app_inv _ _ _ H) as (u1 & u2 & -> & H1 & H2).
      destruct (lower_app_inv _ _ _ H2) as (u3 & u4 & -> & H3 & H4).
      exists u1, u3, u4. auto.
    - intros (pre & w & post & -> & Hw).
      exists (lower pre), (lower post). now rewrite !lower_app, Hw.
Qed.

End Strings.

(** ** The platform classifier *)

Section Classifier.
Import Py ClassifierSpec.

Lemma matches_spec (url : string) (fragments : list string) :
    matches (lower url) fragments = true <->
    exists fragment, In fragment fragments /\ contains_anycase url fragment.
Proof.
    unfold matches. rewrite existsb_exists.
    split; intros (f & Hin & H); exists f; split; auto; now apply str_in_lower.
Qed.

Lemma first_match_none (table : list (string * list string)) (url : string) :
    no_fragment_of table url -> first_match table (lower url) = None.
Proof.
    induction table as [|[p fr] rest IH]; intros Hno; simpl; [reflexivity|].
    destruct (matches (lower url) fr) eqn:Hm.
    - apply matches_spec in Hm as (f & Hin & Hc).
      exfalso. apply (Hno p fr f); simpl; auto.
    - apply IH. intros q fq f Hq. apply (Hno q fq f). now right.
Qed.

Lemma first_match_some (before after : list (string * list string))
      (platform : string) (fragments : list string) (fragment url : string) :
    In fragment fragments ->
    contains_anycase url fragment ->
    no_fragment_of before url ->
    first_match (before ++ (platform, fragments) :: after) (lower url) = Some platform.
Proof.
    intros Hin Hc. induction before as [|[q fq] before IH]; intros Hno; simpl.
    - assert (matches (lower url) fragments = true) as ->; [|reflexivity].
      apply matches_spec. eauto.
    - destruct (matches (lower url) fq) eqn:Hm.
      + apply matches_spec in Hm as (f & Hf & Hcf).
        exfalso. apply (Hno q fq f); simpl; auto.
      + apply IH. intros r fr f Hr. apply (Hno r fr f). now right.
Qed.

(** The chain of tests of the source is the look-up in the table of
      config.py. *)
Lemma get_platform_from_url_table (url : string) :
    Helpers.get_platform_from_url url = classify url.
Proof.
    unfold Helpers.get_platform_from_url, classify, Config.SOCIAL_MEDIA_PLATFORMS.
    simpl. unfold matches. simpl. rewrite !orb_false_r. reflexivity.
Qed.

End Classifier.

(** C6, as the code has it: the result is the look-up of the lowered URL in
    the reference table, so it depends on the substring tests alone; a URL
    that holds, in any letter case, a fragment of a platform and no fragment
    of a platform listed before it is classified as that platform; a URL that
    holds no fragment at all is unsupported; two URLs that differ in letter
    case only are classified alike. *)
Theorem classify_first_match (url : string) :
  Helpers.get_platform_from_url url = ClassifierSpec.classify url
  /\ (forall before platform fragments after fragment,
        Config.SOCIAL_MEDIA_PLATFORMS = before ++ (platform, fragments) :: after ->
        In fragment fragments ->
        ClassifierSpec.contains_anycase url fragment ->
        ClassifierSpec.no_fragment_of before url ->
        Helpers.get_platform_from_url url = Some platform)
  /\ (ClassifierSpec.no_fragment_of Config.SOCIAL_MEDIA_PLATFORMS url ->
      Helpers.get_platform_from_url url = None)
  /\ (forall url', Py.lower url' = Py.lower url ->
        Helpers.get_platform_from_url url' = Helpers.get_platform_from_url url).
Proof.
  repeat split.
  - apply get_platform_from_url_table.
  - intros before platform fragments after fragment Htable Hin Hc Hno.
    rewrite get_platform_from_url_table. unfold ClassifierSpec.classify.
    rewrite Htable. now apply first_match_some with (fragment := fragment).
  - intros Hno. rewrite get_platform_from_url_table.
    now apply first_match_none.
  - intros url' Hl. rewrite !get_platform_from_url_table.
    unfold ClassifierSpec.classify. now rewrite Hl.
Qed.

(** A SoundCloud address in capitals, behind three platforms that it does
    not mention, is classified as SoundCloud. *)
Lemma classify_first_match_witness :
  Helpers.get_platform_from_url "HTTPS://SoundCloud.COM/artist/track" = Some "soundcloud".
Proof.
  apply (proj1 (proj2 (classify_first_match "HTTPS://SoundCloud.COM/artist/track")))
    with (before := [ ("youtube", ["youtube.com"; "youtu.be"]);
                      ("instagram", ["instagram.com"; "instagr.am"]);
                      ("tiktok", ["tiktok.com"]);
                      ("pinterest", ["pinterest.com"; "pin.it"]) ])
         (fragments := ["soundcloud.com"]) (after := [])
         (fragment := "soundcloud.com").
  - reflexivity.
  - simpl. auto.
  - exists "HTTPS://", "SoundCloud.COM", "/artist/track". split; reflexivity.
  - intros p fr f Hp Hf Hc. apply str_in_lower in Hc.
    simpl in Hp.
    repeat (destruct Hp as [Hp | Hp];
            [ inversion Hp; subst; simpl in Hf;
              repeat (destruct Hf as [Hf | Hf]; [subst; vm_compute in Hc; discriminate|]);
              contradiction
            | ]).
    contradiction.
Defined.

(** C6 as stated fails: an address that holds a SoundCloud fragment is not
    classified as SoundCloud when it also holds a fragment of a platform
    tested earlier. *)
Lemma classify_not_every_fragment :
  In ("soundcloud", ["soundcloud.com"]) Config.SOCIAL_MEDIA_PLATFORMS
  /\ ClassifierSpec.contains_anycase
       "https://soundcloud.com/artist/track?ref=youtube.com" "soundcloud.com"
  /\ Helpers.get_platform_from_url
       "https://soundcloud.com/artist/track?ref=youtube.com" = Some "youtube"
  /\ Helpers.get_platform_from_url
       "https://soundcloud.com/artist/track?ref=youtube.com" <> Some "soundcloud".
Proof.
  repeat split.
  - simpl. auto 10.
  - exists "https://", "soundcloud.com", "/artist/track?ref=youtube.com".
    split; reflexivity.
  - discriminate.
Qed.

(** C10: the module-level classifier and the private method of the
    downloader return the same result on every URL. *)
Theorem classifiers_agree (url : string) :
  Helpers.get_platform_from_url url = Downloader._get_platform_from_url url.
Proof.
  unfold Helpers.get_platform_from_url, Downloader._get_platform_from_url.
  destruct (Py.str_in "youtube.com" (Py.lower url) || Py.str_in "youtu.be" (Py.lower url));
    [reflexivity|].
  destruct (Py.str_in "instagram.com" (Py.lower url)
            || Py.str_in "instagr.am" (Py.lower url)); [reflexivity|].
  destruct (Py.str_in "tiktok.com" (Py.lower url)); [reflexivity|].
  destruct (Py.str_in "pinterest.com" (Py.lower url) || Py.str_in "pin.it" (Py.lower url));
    reflexivity.
Qed.

(** ** The downloader *)

Section DownloaderFacts.
Import Py Downloader.

Lemma spawned_app (a b : trace) : spawned (a ++ b) = spawned a ++ spawned b.
Proof.
  induction a as [|e a IH]; [reflexivity|].
  destruct e; simpl; now rewrite IH.
Qed.

Lemma logged_app (a b : trace) : logged (a ++ b) = logged a ++ logged b.
Proof.
  induction a as [|e a IH]; [reflexivity|].
  destruct e; simpl; now rewrite IH.
Qed.

(** The option set that [__init__] leaves in [self.ydl_opts] when the probe
    fails queues no post-processor. *)
Lemma ydl_opts_degrade : queues_ffmpeg (ydl_opts (__init__ false)) = false.
Proof. reflexivity. Qed.

Lemma ydl_opts_transcode : queues_ffmpeg (ydl_opts (__init__ true)) = true.
Proof. reflexivity. Qed.

(** The search, TikTok and Pinterest adapters queue none either. *)
Lemma other_adapters_degrade :
  queues_ffmpeg (search_opts (__init__ false)) = false
  /\ queues_ffmpeg tiktok_opts = false
  /\ queues_ffmpeg pinterest_opts = false.
Proof. repeat split. Qed.

End DownloaderFacts.

(** Unfolding of the monadic operations of the downloader. *)
Ltac run_downloader :=
  unfold Downloader.extract_result, Downloader.extract_trace,
    Downloader.extract_audio_from_video, Downloader.error_msg_of,
    Downloader.log, Downloader.log_exn, Downloader.emit,
    Py.try_except, Py.bind, Py.ret, Py.raise, Py.lift, Py.modify;
  cbn.

(** C7, as the code has it.  The call never raises.  When the probe
    reported the tool unavailable it returns [None] and starts no child.
    When the tool is available the result is the audio path exactly when a
    child was started, exited with status 0 and left the output file behind,
    and it is [None] otherwise; after a child that failed, the result is that
    same [None] and the diagnostics go to the error log: the decoded standard
    error, [Unknown error] when the stream was empty, the decoding error when
    it could not be decoded. *)
Theorem extract_audio_from_video_outcome
    (self : Downloader.t) (env : Downloader.Env) (video_path : string) :
  let result := Downloader.extract_result self env video_path in
  let tr := Downloader.extract_trace self env video_path in
  let audio_path := Downloader.audio_path_of video_path in
  (exists r, result = Py.Returned r)
  /\ (Downloader.ffmpeg_available self = false ->
      result = Py.Returned None /\ Downloader.spawned tr = [])
  /\ (Downloader.ffmpeg_available self = true ->
      (result = Py.Returned (Some audio_path) <->
       exists cmd returncode stderr exists_,
         Downloader.spawned tr = [cmd]
         /\ Downloader.subprocess_exec env cmd = Py.Returned (returncode, stderr, exists_)
         /\ returncode = 0 /\ exists_ audio_path = true)
      /\ (result <> Py.Returned (Some audio_path) -> result = Py.Returned None)
      /\ (forall cmd returncode stderr exists_,
            Downloader.spawned tr = [cmd] ->
            Downloader.subprocess_exec env cmd = Py.Returned (returncode, stderr, exists_) ->
            returncode <> 0 \/ exists_ audio_path = false ->
            result = Py.Returned None
            /\ match stderr with
               | Downloader.Decodes EmptyString =>
                   In (Py.Log Py.ERROR "Error extracting audio: Unknown error")
                      (Downloader.logged tr)
               | Downloader.Decodes text =>
                   In (Py.Log Py.ERROR ("Error extracting audio: " +:+ text))
                      (Downloader.logged tr)
               | Downloader.Undecodable =>
                   In (Py.LogExn Py.ERROR "Error extracting audio from video: "
                         Py.UnicodeDecodeError)
                      (Downloader.logged tr)
               end)).
Proof.
  run_downloader.
  destruct (Downloader.path_exists env video_path); cbn;
    [destruct (Downloader.ffmpeg_available self); cbn;
      [destruct (Downloader.get_ffmpeg_path env) as [[|c ffmpeg_path]|]; cbn;
        [ | destruct (Downloader.subprocess_exec env
                        (Downloader.ffmpeg_cmd (String c ffmpeg_path) video_path))
              as [[[rc err] ex]|e] eqn:Hexec; cbn;
            [destruct (Z.eqb_spec rc 0) as [Hrc|Hrc]; cbn;
              [destruct (ex (Downloader.audio_path_of video_path)) eqn:Hex; cbn;
                [ | destruct err as [[|d text]|]; cbn]
              | destruct err as [[|d text]|]; cbn] | ] | ] | ] | ].
  all: repeat split; intros;
    repeat match goal with
      | H : exists _, _ |- _ => destruct H
      | H : _ /\ _ |- _ => destruct H
      | H : [] = [_] |- _ => discriminate H
      | H : [_] = [_] |- _ => injection H as H; subst
      end;
    try match goal with
      | H1 : ?x = _, H2 : ?x = _ |- _ => rewrite H1 in H2; injection H2 as ? ? ?; subst
      end;
    try discriminate; try congruence; eauto 10; cbn; auto.
  all: match goal with H : _ \/ _ |- _ => destruct H; congruence end.
Qed.

(** On a machine whose tool exits with status 0 and leaves the output file
    behind, the extraction returns the audio path. *)
Lemma extract_audio_from_video_outcome_witness :
  Downloader.extract_result (Downloader.__init__ true) Scenario.succeeding_child "clip.mp4"
  = Py.Returned (Some "clip.mp3").
Proof.
  pose proof (extract_audio_from_video_outcome
                (Downloader.__init__ true) Scenario.succeeding_child "clip.mp4")
    as (_ & _ & Havailable).
  destruct (Havailable eq_refl) as (Hiff & _ & _).
  apply Hiff.
  exists (Downloader.ffmpeg_cmd "ffmpeg" "clip.mp4"), 0, (Downloader.Decodes ""),
    (fun p => String.eqb p "clip.mp3").
  repeat split; reflexivity.
Defined.

(** C7 as stated fails: after a child that exits with status 1 and writes
    [boom] to its standard error, the value returned is the bare [None] that
    an unavailable tool yields too; the text is in the log only. *)
Lemma extract_failure_returns_bare_none :
  Downloader.spawned
    (Downloader.extract_trace (Downloader.__init__ true) Scenario.failing_child "clip.mp4")
  = [Downloader.ffmpeg_cmd "ffmpeg" "clip.mp4"]
  /\ Downloader.extract_result (Downloader.__init__ true) Scenario.failing_child "clip.mp4"
     = Py.Returned None
  /\ Downloader.extract_result (Downloader.__init__ false) Scenario.failing_child "clip.mp4"
     = Py.Returned None
  /\ Downloader.logged
       (Downloader.extract_trace (Downloader.__init__ true) Scenario.failing_child "clip.mp4")
     = [Py.Log Py.ERROR "Error extracting audio: boom"].
Proof. repeat split; reflexivity. Qed.

(** C5 fails on the code: with the probe flag false, the option set that
    [__init__] prepares queues no post-processor, yet a SoundCloud address is
    fetched with an option set that holds [FFmpegExtractAudio]. *)
Theorem soundcloud_queues_ffmpeg_without_tool (env : Downloader.Env) :
  Downloader.ffmpeg_available (Downloader.__init__ false) = false
  /\ Downloader.queues_ffmpeg (Downloader.ydl_opts (Downloader.__init__ false)) = false
  /\ Downloader.requested_options
       (snd (Downloader.download_from_url (Downloader.__init__ false) env
               "https://soundcloud.com/artist/track" []))
     = [Downloader.soundcloud_opts]
  /\ Downloader.queues_ffmpeg Downloader.soundcloud_opts = true.
Proof.
  repeat split.
  unfold Downloader.download_from_url.
  assert (Downloader._get_platform_from_url "https://soundcloud.com/artist/track"
          = Some "soundcloud") as -> by reflexivity.
  unfold Downloader._download_from_soundcloud, Downloader.run_ydl,
    Downloader.prefer_mp3, Downloader.log, Downloader.log_exn, Downloader.emit,
    Py.try_except, Py.bind, Py.ret, Py.raise, Py.lift, Py.modify.
  cbn.
  destruct (Downloader.YoutubeDL env Downloader.soundcloud_opts
              "https://soundcloud.com/artist/track") as [[file ex]|e]; cbn;
    [|reflexivity].
  destruct ((Py.endswith file ".webm" || Py.endswith file ".m4a")
            && ex (fst (Py.splitext file) +:+ ".mp3")); cbn; [reflexivity|].
  destruct (ex file); reflexivity.
Qed.

(** ** The recognizer *)

Section RecognizerFacts.
Import Py SongRecognizer.

(** A computation whose continuation always raises raises. *)
Lemma bind_raises {S A B} (c : M S A) (k : A -> M S B) (s : S) :
  (forall a s', exists e, fst (k a s') = Raised e) ->
  exists e, fst (bind c k s) = Raised e.
Proof.
  intros Hk. unfold bind. destruct (c s) as [[a|e] s'].
  - apply Hk.
  - exists e. reflexivity.
Qed.

(** Without a ['hub'] entry the look-up of the second streaming option
    indexes the one-element default list at 1. *)
Lemma song_info_of_without_hub {S} (entries : dict pyval) (s : S) :
  dict_get "hub" entries = None ->
  exists e, fst (song_info_of (PDict entries) s) = Raised e.
Proof.
  intros Hhub. unfold song_info_of.
  do 8 (apply bind_raises; intros ? ?).
  unfold py_get at 1. rewrite Hhub.
  exists IndexError. reflexivity.
Qed.

(** So does a ['hub'] that has fewer than two options. *)
Lemma song_info_of_short_options {S} (entries hub : dict pyval) (s : S) :
  dict_get "hub" entries = Some (PDict hub) ->
  dict_get "options" hub = None ->
  exists e, fst (song_info_of (PDict entries) s) = Raised e.
Proof.
  intros Hhub Hoptions. unfold song_info_of.
  do 8 (apply bind_raises; intros ? ?).
  unfold py_get at 1. rewrite Hhub.
  unfold bind at 1 2 3 4 5 6. cbn. rewrite Hoptions.
  exists IndexError. reflexivity.
Qed.

(** Every match whose track has no ['hub'] is lost. *)
Lemma recognize_song_without_hub (env : Env) (file_path : string)
    (response entries : dict pyval) (logged : list exn) :
  recognize env file_path = Returned (PDict response) ->
  dict_get "track" response = Some (PDict entries) ->
  dict_get "hub" entries = None ->
  fst (recognize_song env file_path logged) = Returned None.
Proof.
  intros Hrec Htrack Hhub.
  unfold recognize_song, try_except.
  destruct (path_exists env file_path); [|reflexivity]. cbn [negb].
  unfold bind at 1, lift. rewrite Hrec.
  destruct response as [|kv response]; [discriminate|].
  cbn [truthy]. unfold bind at 1 2. unfold py_get. rewrite Htrack. cbn [ret].
  destruct entries as [|kv' entries]; [reflexivity|].
  cbn [truthy]. unfold bind at 1. unfold py_item. rewrite Htrack. cbn [ret].
  unfold bind at 1.
  destruct (song_info_of_without_hub (kv' :: entries) logged Hhub) as [e He].
  destruct (song_info_of (PDict (kv' :: entries)) logged) as [[info|e'] logged'];
    [discriminate He|reflexivity].
Qed.

End RecognizerFacts.

(** C2 fails on the code: for a match that has a title and an artist and no
    optional subtree, [recognize_song] logs an [IndexError] and returns
    [None], where the claim promises the record filled with the documented
    defaults. *)
Theorem recognize_song_drops_bare_match :
  SongRecognizer.recognize_song Scenario.bare_service "clip.mp3" []
  = (Py.Returned None, [Py.IndexError])
  /\ Scenario.bare_match_expected
     = [ ("title", SongRecognizer.PStr "Song"); ("artist", SongRecognizer.PStr "Artist");
         ("album", SongRecognizer.PStr "Unknown"); ("duration", SongRecognizer.PInt 0);
         ("genre", SongRecognizer.PStr ""); ("year", SongRecognizer.PInt 0);
         ("spotify_url", SongRecognizer.PStr ""); ("apple_url", SongRecognizer.PStr "");
         ("youtube_url", SongRecognizer.PStr ""); ("image_url", SongRecognizer.PStr "");
         ("shazam_id", SongRecognizer.PStr ""); ("isrc", SongRecognizer.PStr "") ]
  /\ fst (SongRecognizer.recognize_song Scenario.bare_service "clip.mp3" [])
     <> Py.Returned (Some Scenario.bare_match_expected).
Proof. repeat split. discriminate. Qed.

(** ** Dictionaries *)

Section DictFacts.
Import Py.
Context {V : Type}.

Lemma dict_get_set_eq (k : string) (v : V) (d : dict V) :
  dict_get k (dict_set k v d) = Some v.
Proof.
  induction d as [|[k' v'] d IH]; cbn.
  - now rewrite String.eqb_refl.
  - destruct (String.eqb k k') eqn:E; cbn; rewrite E; [reflexivity | exact IH].
Qed.

Lemma dict_set_In (k : string) (v : V) (d : dict V) (k' : string) (v' : V) :
  In (k', v') (dict_set k v d) -> v' = v \/ In (k', v') d.
Proof.
  induction d as [|[k0 v0] d IH]; cbn.
  - intros [H|[]]. left. congruence.
  - destruct (String.eqb k k0) eqn:E; cbn.
    + intros [H|H]; [left; congruence | right; now right].
    + intros [H|H]; [right; now left|].
      destruct (IH H) as [Hv|Hin]; [now left | right; now right].
Qed.

Lemma dict_del_In (k : string) (d : dict V) (x : string * V) :
  In x (dict_del k d) -> In x d.
Proof.
  induction d as [|[k0 v0] d IH]; cbn; [tauto|].
  destruct (String.eqb k k0); cbn; [now right|].
  intros [H|H]; [now left | right; now apply IH].
Qed.

Lemma fold_dict_del_In (ks : list string) (d : dict V) (x : string * V) :
  In x (fold_left (fun acc k => dict_del k acc) ks d) -> In x d.
Proof.
  revert d. induction ks as [|k ks IH]; intros d; cbn; [tauto|].
  intros H. apply (dict_del_In k). now apply IH.
Qed.

End DictFacts.

(** ** The record store *)

(** Unfolding of the monadic operations of the store. *)
Ltac run_store :=
  unfold FirebaseService.run, FirebaseService.counter, FirebaseService.stored_broadcasts,
    FirebaseService.active_broadcasts, FirebaseService.fetched_user,
    FirebaseService.fetched_song, FirebaseService.listed_users,
    FirebaseService.save_user, FirebaseService.get_user,
    FirebaseService.update_user_language, FirebaseService.get_all_users,
    FirebaseService.save_song, FirebaseService.get_song,
    FirebaseService.get_statistics, FirebaseService.increment_stat,
    FirebaseService.save_broadcast_message, FirebaseService.get_active_broadcasts,
    FirebaseService.cleanup_expired_data,
    FirebaseService.now, FirebaseService.get_local, FirebaseService.set_local,
    Py.try_except, Py.bind, Py.ret, Py.raise, Py.get;
  cbn.

Section StoreFacts.
Import Py Models FirebaseService.

(** The loop of [get_all_users] reads the clock and nothing else. *)
Lemma all_users_loop_local (items : dict user_data) (s : state) :
  exists us s', all_users_loop items s = (Returned us, s') /\ local s' = local s.
Proof.
  revert s. induction items as [|[k d] items IH]; intros s; cbn.
  - eexists _, _. split; reflexivity.
  - unfold bind, now, ret. cbn.
    match goal with |- context [all_users_loop items ?s1] =>
      destruct (IH s1) as (us & s' & -> & Hl) end.
    eexists _, _. split; [reflexivity|exact Hl].
Qed.

(** Case analysis on the tests that an unfolded operation performs. *)
Ltac store_cases :=
  repeat (match goal with
          | |- context [all_users_loop ?items ?s] =>
              let Hl := fresh "Hl" in
              destruct (all_users_loop_local items s) as (? & ? & -> & Hl)
          | |- context [match ?x with _ => _ end] =>
              lazymatch x with
              | context [match _ with _ => _ end] => fail
              | _ => destruct x eqn:?
              end
          end; cbn).

(** Every operation but the three on broadcasts leaves the broadcasts as
    they were. *)
Lemma others_keep_broadcasts (op : operation) (s : state) :
  match op with
  | SaveBroadcastMessage _ _ _ | GetActiveBroadcasts | CleanupExpiredData => True
  | _ => broadcasts (local (run op s)) = broadcasts (local s)
  end.
Proof.
  destruct op; try exact I; run_store; store_cases; congruence.
Qed.

(** Every operation but [save_user] and [increment_stat] leaves the
    statistics as they were. *)
Lemma others_keep_statistics (op : operation) (s : state) :
  match op with
  | SaveUser _ | IncrementStat _ => True
  | _ => statistics (local (run op s)) = statistics (local s)
  end.
Proof.
  destruct op; try exact I; run_store; store_cases; congruence.
Qed.

(** What the loop of [get_active_broadcasts] appends and what it marks. *)
Lemma active_loop_appended (current_time : datetime) (items : dict broadcast_data)
    (d : broadcast_data) :
  In d (snd (active_loop current_time items)) <->
  exists k, In (k, d) items /\ bd_is_active d = true /\ expired current_time d = false.
Proof.
  induction items as [|[k0 d0] items IH]; cbn.
  - split; [tauto | intros (k & [] & _)].
  - destruct (active_loop current_time items) as [rest' appended] eqn:E.
    cbn in IH.
    destruct (bd_is_active d0) eqn:Ha; [destruct (expired current_time d0) eqn:He|];
      cbn; rewrite ?IH; split.
    all: try (intros (k & Hin & H1 & H2); exists k; split; [now right | auto]).
    all: try (intros (k & [Heq|Hin] & H1 & H2);
              [injection Heq as <- <-; congruence | exists k; auto]).
    + intros [<- | (k & Hin & H1 & H2)];
        [exists k0; split; [now left | auto] | exists k; split; [now right | auto]].
    + intros (k & [Heq|Hin] & H1 & H2);
        [left; congruence | right; exists k; auto].
Qed.

Lemma active_loop_marks (current_time : datetime) (items : dict broadcast_data)
    (k : string) (d : broadcast_data) :
  In (k, d) items -> bd_is_active d = true -> expired current_time d = true ->
  In (k, deactivate d) (fst (active_loop current_time items)).
Proof.
  intros Hin Ha He. induction items as [|[k0 d0] items IH]; cbn; [destruct Hin|].
  destruct (active_loop current_time items) as [rest' appended] eqn:E. cbn in IH.
  destruct Hin as [Heq|Hin].
  - injection Heq as -> ->. rewrite Ha, He. now left.
  - specialize (IH Hin).
    destruct (bd_is_active d0); [destruct (expired current_time d0)|]; now right.
Qed.

Lemma active_loop_keeps (current_time : datetime) (items : dict broadcast_data)
    (k : string) (d : broadcast_data) :
  In (k, d) items -> expired current_time d = false ->
  In (k, d) (fst (active_loop current_time items)).
Proof.
  intros Hin He. induction items as [|[k0 d0] items IH]; cbn; [destruct Hin|].
  destruct (active_loop current_time items) as [rest' appended] eqn:E. cbn in IH.
  destruct Hin as [Heq|Hin].
  - injection Heq as -> ->. rewrite He. destruct (bd_is_active d); now left.
  - specialize (IH Hin).
    destruct (bd_is_active d0); [destruct (expired current_time d0)|]; now right.
Qed.


(** The result and the store after [get_active_broadcasts]. *)
Lemma get_active_broadcasts_eq (s : state) :
  fst (get_active_broadcasts s)
  = Returned (snd (active_loop (clock s (ticks s)) (stored_broadcasts s)))
  /\ stored_broadcasts (snd (get_active_broadcasts s))
     = fst (active_loop (clock s (ticks s)) (stored_broadcasts s)).
Proof.
  run_store. destruct (broadcasts (local s)) as [items|] eqn:Hb; cbn.
  - destruct (active_loop (clock s (ticks s)) items); cbn. split; reflexivity.
  - rewrite Hb. split; reflexivity.
Qed.




End StoreFacts.

(** C1 fails on the code for every positive duration: the name [timedelta]
    is unbound in the module, the handler of [save_broadcast_message]
    swallows the [NameError], the empty string is returned and nothing is
    stored.  With duration 0 the call does what the claim says: it returns
    the time-derived identifier and stores an active record without expiry. *)
Theorem save_broadcast_message_outcome
    (message : string) (sent_by : Z) (s : FirebaseService.state) :
  (forall p : positive,
     fst (FirebaseService.save_broadcast_message message (Z.pos p) sent_by s)
     = Py.Returned ""
     /\ FirebaseService.local
          (snd (FirebaseService.save_broadcast_message message (Z.pos p) sent_by s))
        = FirebaseService.local s)
  /\ (let message_id :=
        "broadcast_" +:+ FirebaseService.timestamp_str s
                           (FirebaseService.clock s (FirebaseService.ticks s)) in
      fst (FirebaseService.save_broadcast_message message 0 sent_by s)
      = Py.Returned message_id
      /\ Py.dict_get message_id
           (FirebaseService.stored_broadcasts
              (snd (FirebaseService.save_broadcast_message message 0 sent_by s)))
         = Some {| FirebaseService.bd_id := message_id;
                   FirebaseService.bd_message := message;
                   FirebaseService.bd_duration_hours := 0;
                   FirebaseService.bd_sent_by := sent_by;
                   FirebaseService.bd_sent_at :=
                     FirebaseService.clock s (S (FirebaseService.ticks s));
                   FirebaseService.bd_expires_at := None;
                   FirebaseService.bd_is_active := true |}).
Proof.
  split.
  - intros p. run_store. split; reflexivity.
  - run_store. split; [reflexivity|]. apply dict_get_set_eq.
Qed.

(** What [get_active_broadcasts] does with the records that it finds in a
    store, however they got there.  It returns a list; no record of it is
    inactive or past its expiry at the time the call reads; a stored active
    record without expiry (duration 0) is returned, and stays as it is in
    the store, whatever that time is; a stored active record created at [T]
    to live one hour is returned when the call reads [T] + 30 min, and is
    left out when it reads [T] + 90 min, the store then holding it with the
    active flag false; no other operation of the store turns up an inactive
    record that was not there before. *)
Lemma lazy_expiry_on_stored_records (s : FirebaseService.state) :
  let current_time := FirebaseService.clock s (FirebaseService.ticks s) in
  let active := FirebaseService.active_broadcasts s in
  let s' := snd (FirebaseService.get_active_broadcasts s) in
  fst (FirebaseService.get_active_broadcasts s) = Py.Returned active
  /\ (forall d, In d active ->
        FirebaseService.bd_is_active d = true
        /\ forall expires_time,
             FirebaseService.bd_expires_at d = Some expires_time ->
             current_time <= expires_time)
  /\ (forall k d,
        In (k, d) (FirebaseService.stored_broadcasts s) ->
        FirebaseService.bd_is_active d = true ->
        FirebaseService.bd_duration_hours d = 0 ->
        FirebaseService.bd_expires_at d = None ->
        In d active /\ In (k, d) (FirebaseService.stored_broadcasts s'))
  /\ (forall k d T,
        In (k, d) (FirebaseService.stored_broadcasts s) ->
        FirebaseService.bd_is_active d = true ->
        FirebaseService.bd_duration_hours d = 1 ->
        FirebaseService.bd_sent_at d = T ->
        FirebaseService.bd_expires_at d = Some (T + FirebaseService.hours 1) ->
        (current_time = T + FirebaseService.minutes 30 -> In d active)
        /\ (current_time = T + FirebaseService.minutes 90 ->
            ~ In d active
            /\ exists d',
                 In (k, d') (FirebaseService.stored_broadcasts s')
                 /\ FirebaseService.bd_is_active d' = false
                 /\ FirebaseService.bd_message d' = FirebaseService.bd_message d
                 /\ FirebaseService.bd_expires_at d' = FirebaseService.bd_expires_at d))
  /\ (forall op k d,
        op <> FirebaseService.GetActiveBroadcasts ->
        In (k, d) (FirebaseService.stored_broadcasts (FirebaseService.run op s)) ->
        FirebaseService.bd_is_active d = false ->
        In (k, d) (FirebaseService.stored_broadcasts s)).
Proof.
  intros current_time active s'.
  destruct (get_active_broadcasts_eq s) as [Hres Hstore].
  assert (Hactive : active
            = snd (FirebaseService.active_loop current_time
                     (FirebaseService.stored_broadcasts s))).
  { unfold active, FirebaseService.active_broadcasts. now rewrite Hres. }
  split; [now rewrite Hres, Hactive|].
  split; [|split; [|split]].
  - intros d Hd. rewrite Hactive in Hd.
    apply active_loop_appended in Hd as (k & _ & Ha & He).
    split; [exact Ha|]. intros expires_time Hexp.
    unfold FirebaseService.expired in He. rewrite Hexp in He.
    apply Z.ltb_ge in He. exact He.
  - intros k d Hin Ha _ Hexp.
    assert (He : FirebaseService.expired current_time d = false).
    { unfold FirebaseService.expired. now rewrite Hexp. }
    split.
    + rewrite Hactive. apply active_loop_appended. exists k. auto.
    + unfold s'. rewrite Hstore. now apply active_loop_keeps.
  - intros k d T Hin Ha _ _ Hexp. split; intros Hnow.
    + rewrite Hactive. apply active_loop_appended. exists k. repeat split; auto.
      unfold FirebaseService.expired. rewrite Hexp. apply Z.ltb_ge.
      rewrite Hnow. unfold FirebaseService.hours, FirebaseService.minutes. lia.
    + assert (He : FirebaseService.expired current_time d = true).
      { unfold FirebaseService.expired. rewrite Hexp. apply Z.ltb_lt.
        rewrite Hnow. unfold FirebaseService.hours, FirebaseService.minutes. lia. }
      split.
      * rewrite Hactive. intros Hd.
        apply active_loop_appended in Hd as (k' & _ & _ & He'). congruence.
      * exists (FirebaseService.deactivate d). repeat split.
        unfold s'. rewrite Hstore. now apply active_loop_marks.
  - intros op k d Hop Hin Hinactive.
    pose proof (others_keep_broadcasts op s) as Hkeep.
    unfold FirebaseService.stored_broadcasts in *.
    destruct op; try (rewrite Hkeep in Hin; exact Hin); try congruence.
    + revert Hin. run_store.
      destruct (0 <? duration_hours); cbn; [intros Hin; exact Hin|].
      intros Hin. apply dict_set_In in Hin as [-> | Hin]; [discriminate | exact Hin].
    + revert Hin. run_store.
      destruct (FirebaseService.broadcasts (FirebaseService.local s)) as [items|] eqn:Hb;
        cbn; rewrite ?Hb; [|intros Hin; exact Hin].
      apply fold_dict_del_In.
Qed.




Section CounterFacts.
Import Py Models FirebaseService.

(** A look-up that is not under the key just written. *)
Lemma counter_with_statistic (k name : string) (v : stat_value) (ls : local_storage) :
  k <> name ->
  statistics (with_statistic k v ls) !! name = statistics ls !! name.
Proof. intros Hne. cbn. now apply lookup_insert_ne. Qed.

Lemma increment_stat_counter (name : string) (s : state) :
  name <> "last_updated" ->
  (forall n, counter name s = Some n ->
     counter name (run (IncrementStat name) s) = Some (n + 1))
  /\ (statistics (local s) !! name = None ->
      counter name (run (IncrementStat name) s) = Some 1).
Proof.
  intros Hname. split.
  - intros n. run_store.
    destruct (statistics (local s) !! name) as [[m|t]|] eqn:E; try discriminate.
    intros [= ->]. cbn.
    rewrite lookup_insert_ne by congruence. now rewrite lookup_insert_eq.
  - intros E. run_store. rewrite E. cbn.
    rewrite lookup_insert_ne by congruence. now rewrite lookup_insert_eq.
Qed.

Lemma increment_stat_other (stat_name name : string) (s : state) :
  name <> "last_updated" -> stat_name <> name ->
  counter name (run (IncrementStat stat_name) s) = counter name s.
Proof.
  intros Hname Hne. run_store.
  destruct (statistics (local s) !! stat_name) as [[m|t]|]; cbn;
    try reflexivity;
    rewrite lookup_insert_ne by congruence; now rewrite lookup_insert_ne.
Qed.

Lemma save_user_total_users (user : User) (s : state) :
  counter "total_users" (run (SaveUser user) s)
  = Some (Z.of_nat (length (users (local (run (SaveUser user) s))))).
Proof. run_store. now rewrite lookup_insert_eq. Qed.

Lemma save_user_other (user : User) (name : string) (s : state) :
  name <> "total_users" ->
  counter name (run (SaveUser user) s) = counter name s.
Proof. intros Hne. run_store. now rewrite lookup_insert_ne. Qed.

End CounterFacts.

(** C8, as the code has it.  For a counter [name]: [increment_stat name]
    adds one to it, or starts it at 1 when it is absent; [save_user] writes
    the number of stored users over [total_users]; no other operation, and
    no operation on another name, changes it.  A counter other than
    [total_users] therefore never decreases and moves by at most one. *)
Theorem counters_change_as_designed
    (op : FirebaseService.operation) (s : FirebaseService.state) (name : string) :
  name <> "last_updated" ->
  (op = FirebaseService.IncrementStat name ->
   (forall n, FirebaseService.counter name s = Some n ->
      FirebaseService.counter name (FirebaseService.run op s) = Some (n + 1))
   /\ (FirebaseService.statistics (FirebaseService.local s) !! name = None ->
       FirebaseService.counter name (FirebaseService.run op s) = Some 1))
  /\ (forall user, op = FirebaseService.SaveUser user ->
        FirebaseService.counter "total_users" (FirebaseService.run op s)
        = Some (Z.of_nat (length (FirebaseService.users
                                    (FirebaseService.local (FirebaseService.run op s))))))
  /\ (op <> FirebaseService.IncrementStat name ->
      (forall user, op = FirebaseService.SaveUser user -> name <> "total_users") ->
      FirebaseService.counter name (FirebaseService.run op s)
      = FirebaseService.counter name s)
  /\ (name <> "total_users" ->
      forall n, FirebaseService.counter name s = Some n ->
        exists m, FirebaseService.counter name (FirebaseService.run op s) = Some m
                  /\ n <= m <= n + 1).
Proof.
  intros Hname.
  assert (Hother : op <> FirebaseService.IncrementStat name ->
            (forall user, op = FirebaseService.SaveUser user -> name <> "total_users") ->
            FirebaseService.counter name (FirebaseService.run op s)
            = FirebaseService.counter name s).
  { intros Hop Huser.
    pose proof (others_keep_statistics op s) as Hkeep.
    destruct op;
      try (unfold FirebaseService.counter; now rewrite Hkeep).
    - apply save_user_other. now apply (Huser user).
    - apply increment_stat_other; [exact Hname | congruence]. }
  repeat split.
  - intros n Hn. subst op. now apply increment_stat_counter.
  - intros Hnone. subst op. now apply increment_stat_counter.
  - intros user ->. apply save_user_total_users.
  - exact Hother.
  - intros Htotal n Hn.
    assert (Hsame : op <> FirebaseService.IncrementStat name ->
              exists m, FirebaseService.counter name (FirebaseService.run op s) = Some m
                        /\ n <= m <= n + 1).
    { intros Hop. exists n. split; [|lia]. rewrite Hother; auto. }
    destruct op as [| | | | | | |stat_name| | |]; try (apply Hsame; discriminate).
    destruct (decide (stat_name = name)) as [->|Hne].
    + exists (n + 1). split; [now apply increment_stat_counter | lia].
    + apply Hsame. congruence.
Qed.

(** Incrementing [songs_recognized] on a fresh store yields 1. *)
Lemma counters_change_as_designed_witness :
  FirebaseService.counter "songs_recognized"
    (FirebaseService.run (FirebaseService.IncrementStat "songs_recognized")
       Scenario.fresh_store)
  = Some 1.
Proof.
  pose proof (counters_change_as_designed
                (FirebaseService.IncrementStat "songs_recognized")
                Scenario.fresh_store "songs_recognized") as H.
  destruct H as (Hincrement & _); [discriminate|].
  destruct (Hincrement eq_refl) as [Hadd _].
  apply (Hadd 0). vm_compute. reflexivity.
Defined.

(** C8 as stated fails: [save_user] writes [total_users] directly, from 0 to
    1 on a fresh store without any call of [increment_stat]; and after two
    increments of [total_users] the same call takes the counter from 2 down
    to 1. *)
Lemma save_user_overwrites_total_users :
  FirebaseService.counter "total_users" Scenario.fresh_store = Some 0
  /\ FirebaseService.counter "total_users"
       (FirebaseService.run (FirebaseService.SaveUser Scenario.alice) Scenario.fresh_store)
     = Some 1
  /\ FirebaseService.counter "total_users"
       (FirebaseService.run (FirebaseService.IncrementStat "total_users")
          (FirebaseService.run (FirebaseService.IncrementStat "total_users")
             Scenario.fresh_store))
     = Some 2
  /\ FirebaseService.counter "total_users"
       (FirebaseService.run (FirebaseService.SaveUser Scenario.alice)
          (FirebaseService.run (FirebaseService.IncrementStat "total_users")
             (FirebaseService.run (FirebaseService.IncrementStat "total_users")
                Scenario.fresh_store)))
     = Some 1.
Proof. vm_compute. repeat split. Qed.

(** C9, as the code has it: [save_user] succeeds, and [get_user] with the
    same identifier then returns the identifier, the username, the first and
    last name, the language and the join timestamp that were saved, present
    or absent alike, with the active flag set; a user saved as active comes
    back equal to what was saved. *)
Theorem save_user_get_user_round_trip (user : Models.User) (s : FirebaseService.state) :
  fst (FirebaseService.save_user user s) = Py.Returned true
  /\ fst (FirebaseService.get_user (Models.u_id user)
            (snd (FirebaseService.save_user user s)))
     = Py.Returned (Some {| Models.u_id := Models.u_id user;
                            Models.u_username := Models.u_username user;
                            Models.u_first_name := Models.u_first_name user;
                            Models.u_last_name := Models.u_last_name user;
                            Models.u_language := Models.u_language user;
                            Models.u_joined_at := Models.u_joined_at user;
                            Models.u_is_active := true |})
  /\ (Models.u_is_active user = true ->
      FirebaseService.fetched_user (Models.u_id user)
        (snd (FirebaseService.save_user user s))
      = Some user).
Proof.
  assert (Hget : fst (FirebaseService.get_user (Models.u_id user)
                        (snd (FirebaseService.save_user user s)))
                 = Py.Returned (Some {| Models.u_id := Models.u_id user;
                            Models.u_username := Models.u_username user;
                            Models.u_first_name := Models.u_first_name user;
                            Models.u_last_name := Models.u_last_name user;
                            Models.u_language := Models.u_language user;
                            Models.u_joined_at := Models.u_joined_at user;
                            Models.u_is_active := true |})).
  { run_store. rewrite dict_get_set_eq. reflexivity. }
  split; [reflexivity|]. split; [exact Hget|].
  intros Hactive. unfold FirebaseService.fetched_user. rewrite Hget.
  destruct user; cbn in *. now subst.
Qed.

(** A user whose username and last name are null round-trips. *)
Lemma save_user_get_user_round_trip_witness :
  FirebaseService.fetched_user 7
    (snd (FirebaseService.save_user Scenario.alice Scenario.fresh_store))
  = Some Scenario.alice.
Proof.
  apply (proj2 (proj2 (save_user_get_user_round_trip Scenario.alice Scenario.fresh_store))).
  reflexivity.
Defined.

(** C9 as stated fails for the active flag: a user saved as inactive comes
    back active. *)
Lemma inactive_user_comes_back_active :
  Models.u_is_active Scenario.dormant_alice = false
  /\ FirebaseService.fetched_user 7
       (snd (FirebaseService.save_user Scenario.dormant_alice Scenario.fresh_store))
     = Some Scenario.alice
  /\ FirebaseService.fetched_user 7
       (snd (FirebaseService.save_user Scenario.dormant_alice Scenario.fresh_store))
     <> Some Scenario.dormant_alice.
Proof.
  assert (H : FirebaseService.fetched_user 7
                (snd (FirebaseService.save_user Scenario.dormant_alice Scenario.fresh_store))
              = Some Scenario.alice) by (vm_compute; reflexivity).
  split; [reflexivity|]. split; [exact H|]. rewrite H. discriminate.
Qed.

(** ** The conversation flows *)

Section BotFacts.
Import Py MusicBot.

(** What a reply does: the call is counted, and the reply is added to the
    outbox unless the network raises. *)
Lemma send_eq (o : outgoing) (s : state) :
  send o s
  = match reply_outcome s (replies s) with
    | Returned _ =>
        (Returned tt,
         {| user_states := user_states s; user_data := user_data s;
            firebase_service := firebase_service s; outbox := outbox s ++ [o];
            reply_outcome := reply_outcome s; replies := S (replies s) |})
    | Raised e =>
        (Raised e,
         {| user_states := user_states s; user_data := user_data s;
            firebase_service := firebase_service s; outbox := outbox s;
            reply_outcome := reply_outcome s; replies := S (replies s) |})
    end.
Proof.
  unfold send, record, bind, get, modify, lift. cbn.
  destruct (reply_outcome s (replies s)) as [[]|e]; reflexivity.
Qed.

(** A reply touches neither the conversation states, nor the user data,
    nor the store. *)
Lemma send_frame (o : outgoing) (s : state) :
  user_states (snd (send o s)) = user_states s
  /\ user_data (snd (send o s)) = user_data s
  /\ firebase_service (snd (send o s)) = firebase_service s
  /\ reply_outcome (snd (send o s)) = reply_outcome s.
Proof.
  rewrite send_eq. destruct (reply_outcome s (replies s)); cbn; auto.
Qed.

(** A text that is no integer literal leaves [user_states] as it was: the
    handler of [handle_broadcast] replies and returns. *)
Lemma handle_broadcast_bad_literal (transport : Transport) (update : Update) (s : state) :
  int_literal (text update) = None ->
  user_states (snd (handle_broadcast transport update s)) = user_states s
  /\ (replies_delivered s ->
      outbox (snd (handle_broadcast transport update s))
      = outbox s ++ [Reply (effective_user_id update) "error"
                       [("error", KExn (ValueError (text update)))]]).
Proof.
  intros Hbad.
  unfold handle_broadcast, try_except, bind, int. rewrite Hbad.
  unfold raise. cbv beta iota. rewrite send_eq.
  split.
  - destruct (reply_outcome s (replies s)); reflexivity.
  - intros Hd. rewrite Hd. reflexivity.
Qed.

(** So does a reply that comes when no message is pending. *)
Lemma handle_broadcast_without_message (transport : Transport) (update : Update)
    (s : state) (n : Z) :
  int_literal (text update) = Some n ->
  dict_get "broadcast_message" (user_data_of s (effective_user_id update)) = None ->
  user_states (snd (handle_broadcast transport update s)) = user_states s.
Proof.
  intros Hint Hdata.
  unfold handle_broadcast, try_except, int, context_user_data.
  unfold bind at 1 2 3. unfold get, ret. rewrite Hint. cbv beta iota.
  rewrite Hdata. rewrite send_eq.
  destruct (reply_outcome s (replies s)); [reflexivity|].
  rewrite send_eq. cbn [reply_outcome replies].
  destruct (reply_outcome s (S (replies s))); reflexivity.
Qed.

(** And the early return of [handle_song_edit]. *)
Lemma handle_song_edit_without_file (update : Update) (s : state) :
  dict_get "edit_file_id" (user_data_of s (effective_user_id update)) = None ->
  user_states (snd (handle_song_edit update s)) = user_states s.
Proof.
  intros Hdata.
  unfold handle_song_edit, try_except, context_user_data, bind, get, ret.
  cbv beta iota. rewrite Hdata. rewrite send_eq.
  destruct (reply_outcome s (replies s)); [reflexivity|].
  rewrite send_eq. cbn [reply_outcome replies].
  destruct (reply_outcome s (S (replies s))); reflexivity.
Qed.

End BotFacts.

(** C4 fails on the code.  The administrator is awaiting the duration and
    answers [abc]: the bot replies with the error and the state entry still
    says awaiting-duration, where the answer [2] sends the broadcast and
    removes the entry.  A user awaiting the edit information for whom no file
    identifier is recorded gets the error reply and stays in
    awaiting-edit-info as well. *)
Theorem failed_flows_keep_intermediate_state :
  MusicBot.conversation_state Scenario.awaiting_duration Scenario.admin
  = Some MusicBot.BROADCAST_WAITING_FOR_DURATION
  /\ MusicBot.outbox
       (snd (MusicBot.handle_text_message Scenario.delivering Scenario.no_download
               (Scenario.says Scenario.admin "abc") Scenario.awaiting_duration))
     = [MusicBot.Reply Scenario.admin "error"
          [("error", MusicBot.KExn (Py.ValueError "abc"))]]
  /\ MusicBot.conversation_state
       (snd (MusicBot.handle_text_message Scenario.delivering Scenario.no_download
               (Scenario.says Scenario.admin "abc") Scenario.awaiting_duration))
       Scenario.admin
     = Some MusicBot.BROADCAST_WAITING_FOR_DURATION
  /\ MusicBot.conversation_state
       (snd (MusicBot.handle_text_message Scenario.delivering Scenario.no_download
               (Scenario.says Scenario.admin "2") Scenario.awaiting_duration))
       Scenario.admin
     = None
  /\ MusicBot.outbox
       (snd (MusicBot.handle_text_message Scenario.delivering Scenario.no_download
               (Scenario.says Scenario.editor "Title: x") Scenario.awaiting_info_without_file))
     = [MusicBot.Reply Scenario.editor "error"
          [("error", MusicBot.KStr "File not found")]]
  /\ MusicBot.conversation_state
       (snd (MusicBot.handle_text_message Scenario.delivering Scenario.no_download
               (Scenario.says Scenario.editor "Title: x") Scenario.awaiting_info_without_file))
       Scenario.editor
     = Some MusicBot.EDIT_SONG_WAITING_FOR_INFO.
Proof. vm_compute. repeat split. Qed.

(** * Further properties of the code *)

(** ** Dictionaries with unique keys *)

Section UniqueKeys.
Import Py.
Context {V : Type}.

Lemma dict_get_set_ne (k k' : string) (v : V) (d : dict V) :
  k <> k' -> dict_get k' (dict_set k v d) = dict_get k' d.
Proof.
  intros Hne. induction d as [|[k0 v0] d IH]; cbn.
  - destruct (String.eqb_spec k' k); [congruence | reflexivity].
  - destruct (String.eqb_spec k k0) as [->|Hk]; cbn.
    + destruct (String.eqb_spec k' k0); [congruence | reflexivity].
    + destruct (String.eqb_spec k' k0); [reflexivity | exact IH].
Qed.

Lemma dict_get_In (k : string) (v : V) (d : dict V) :
  dict_get k d = Some v -> In (k, v) d.
Proof.
  induction d as [|[k0 v0] d IH]; cbn; [discriminate|].
  destruct (String.eqb_spec k k0) as [->|Hk].
  - intros [= ->]. now left.
  - intros H. right. now apply IH.
Qed.

Lemma dict_get_None (k : string) (d : dict V) :
  dict_get k d = None <-> ~ In k (map fst d).
Proof.
  induction d as [|[k0 v0] d IH]; cbn; [tauto|].
  destruct (String.eqb_spec k k0) as [->|Hk].
  - split; [discriminate | intros H; exfalso; apply H; now left].
  - rewrite IH. split; intros H; [intros [Heq|Hin]; [congruence | now apply H] | tauto].
Qed.

Lemma In_dict_get (k : string) (v : V) (d : dict V) :
  unique_keys d -> In (k, v) d -> dict_get k d = Some v.
Proof.
  unfold unique_keys. induction d as [|[k0 v0] d IH]; cbn; [intros _ []|].
  intros Hnd [Heq|Hin]; inversion Hnd as [|? ? Hnotin Hnd']; subst.
  - injection Heq as -> ->. now rewrite String.eqb_refl.
  - destruct (String.eqb_spec k k0) as [->|Hk]; [|now apply IH].
    exfalso. apply Hnotin. apply list_elem_of_In.
    apply (in_map fst) in Hin. exact Hin.
Qed.

Lemma dict_set_keys (k : string) (v : V) (d : dict V) :
  map fst (dict_set k v d)
  = match dict_get k d with
    | Some _ => map fst d
    | None => map fst d ++ [k]
    end.
Proof.
  induction d as [|[k0 v0] d IH]; cbn; [reflexivity|].
  destruct (String.eqb_spec k k0) as [->|Hk]; cbn; [reflexivity|].
  rewrite IH. now destruct (dict_get k d).
Qed.

Lemma dict_set_unique (k : string) (v : V) (d : dict V) :
  unique_keys d -> unique_keys (dict_set k v d).
Proof.
  unfold unique_keys. rewrite dict_set_keys.
  destruct (dict_get k d) eqn:E; [auto|].
  intros Hnd. apply NoDup_app. repeat split; auto.
  - apply dict_get_None in E. intros x Hx Hx'.
    apply list_elem_of_In in Hx. apply list_elem_of_In in Hx'.
    destruct Hx' as [<-|[]]. contradiction.
  - apply NoDup_singleton.
Qed.

Lemma dict_set_length (k : string) (v : V) (d : dict V) :
  length (dict_set k v d)
  = match dict_get k d with
    | Some _ => length d
    | None => S (length d)
    end.
Proof.
  induction d as [|[k0 v0] d IH]; cbn; [reflexivity|].
  destruct (String.eqb_spec k k0) as [->|Hk]; cbn; [reflexivity|].
  rewrite IH. now destruct (dict_get k d).
Qed.

(** Deleting a key, which occurs at most once, is filtering it out. *)
Lemma dict_del_filter (k : string) (d : list (string * V)) :
  unique_keys d ->
  dict_del k d = filter (fun item => k <> fst item) d.
Proof.
  unfold unique_keys. induction d as [|[k0 v0] d IH]; [reflexivity|].
  intros Hnd. cbn [map fst] in Hnd. apply NoDup_cons in Hnd as [Hnotin Hnd].
  cbn [dict_del].
  destruct (String.eqb_spec k k0) as [->|Hk].
  - rewrite filter_cons_False by (cbn; auto).
    symmetry. clear IH Hnd. induction d as [|[k1 v1] d IH]; [reflexivity|].
    cbn [map fst] in Hnotin. apply not_elem_of_cons in Hnotin as [Hne Hnotin].
    rewrite filter_cons_True by (cbn; exact Hne).
    f_equal. now apply IH.
  - rewrite filter_cons_True by (cbn; exact Hk).
    f_equal. now apply IH.
Qed.

Lemma filter_unique (P : string * V -> Prop) `{!forall x, Decision (P x)}
    (d : list (string * V)) :
  unique_keys d -> unique_keys (filter P d).
Proof.
  unfold unique_keys. induction d as [|x d IH]; [auto|].
  intros Hnd. cbn [map] in Hnd. apply NoDup_cons in Hnd as [Hnotin Hnd].
  destruct (decide (P x)) as [Hp|Hp].
  - rewrite filter_cons_True by exact Hp. cbn [map]. apply NoDup_cons.
    split; [|now apply IH].
    intros Hin. apply Hnotin.
    apply list_elem_of_fmap in Hin as (y & Hy & Hin).
    apply list_elem_of_fmap. exists y. split; [exact Hy|].
    now apply list_elem_of_filter in Hin as [_ Hin].
  - rewrite filter_cons_False by exact Hp. now apply IH.
Qed.

Lemma dict_del_unique (k : string) (d : list (string * V)) :
  unique_keys d -> unique_keys (dict_del k d).
Proof. intros H. rewrite dict_del_filter by exact H. now apply filter_unique. Qed.

End UniqueKeys.

Section UniqueKeysMore.
Import Py.
Context {V : Type}.

Lemma unique_keys_functional (d : list (string * V)) (k : string) (v v' : V) :
  unique_keys d -> In (k, v) d -> In (k, v') d -> v = v'.
Proof.
  intros Hu H1 H2.
  apply (In_dict_get _ _ _ Hu) in H1. apply (In_dict_get _ _ _ Hu) in H2. congruence.
Qed.

Lemma filter_all (P : string * V -> Prop) `{!forall x, Decision (P x)}
    (d : list (string * V)) :
  (forall x, In x d -> P x) -> filter P d = d.
Proof.
  induction d as [|x d IH]; intros Hall; [reflexivity|].
  rewrite filter_cons_True by (apply Hall; now left).
  f_equal. apply IH. intros y Hy. apply Hall. now right.
Qed.

Lemma filter_agree (P Q : string * V -> Prop)
    `{!forall x, Decision (P x), !forall x, Decision (Q x)} (d : list (string * V)) :
  (forall x, In x d -> (P x <-> Q x)) -> filter P d = filter Q d.
Proof.
  induction d as [|x d IH]; intros Hall; [reflexivity|].
  assert (IH' : filter P d = filter Q d).
  { apply IH. intros y Hy. apply Hall. now right. }
  destruct (decide (P x)) as [Hp|Hp].
  - rewrite (filter_cons_True P) by exact Hp.
    rewrite (filter_cons_True Q) by (apply Hall; [now left | exact Hp]).
    now rewrite IH'.
  - rewrite (filter_cons_False P) by exact Hp.
    rewrite (filter_cons_False Q); [exact IH'|].
    intros Hq. apply Hp. apply Hall; [now left | exact Hq].
Qed.

(** Deleting a list of keys one after the other is filtering them out. *)
Lemma fold_dict_del_filter (ks : list string) (d : list (string * V)) :
  unique_keys d ->
  fold_left (fun acc k => dict_del k acc) ks d = filter (fun item => fst item ∉ ks) d.
Proof.
  revert d. induction ks as [|k ks IH]; intros d Hu; cbn [fold_left].
  - symmetry. apply filter_all. intros x _. apply not_elem_of_nil.
  - rewrite IH by now apply dict_del_unique.
    rewrite dict_del_filter by exact Hu.
    rewrite list_filter_filter. apply list_filter_iff.
    intros x. rewrite not_elem_of_cons. split; intros [H1 H2]; split; auto.
Qed.

End UniqueKeysMore.

(** ** The record store, further *)

(** Case analysis on the tests that an unfolded operation performs. *)
Ltac store_branches :=
  repeat (match goal with
          | |- context [FirebaseService.all_users_loop ?items ?s] =>
              let Hl := fresh "Hl" in
              destruct (all_users_loop_local items s) as (? & ? & -> & Hl)
          | |- context [match ?x with _ => _ end] =>
              lazymatch x with
              | context [match _ with _ => _ end] => fail
              | _ => destruct x eqn:?
              end
          end; cbn).

Section StoreMore.
Import Py Models FirebaseService.

(** X1.  After [update_user_language] on a stored user, [get_user] returns the
    stored record with the new language, and nothing else of it changed. *)
Theorem update_user_language_then_get_user
    (user_id : Z) (language : string) (d : user_data) (s : state) :
  dict_get (str_of_int user_id) (users (local s)) = Some d ->
  fst (update_user_language user_id language s) = Returned true
  /\ fetched_user user_id (snd (update_user_language user_id language s))
     = Some {| u_id := ud_id d;
               u_username := ud_username d;
               u_first_name := ud_first_name d;
               u_last_name := ud_last_name d;
               u_language := language;
               u_joined_at := ud_joined_at d;
               u_is_active := true |}.
Proof.
  intros Hd. run_store. rewrite Hd. cbn. rewrite dict_get_set_eq. cbn.
  split; reflexivity.
Qed.

Lemma update_user_language_then_get_user_witness :
  fetched_user 7 (snd (update_user_language 7 "en" Scenario.store_with_alice))
  = Some {| u_id := 7;
            u_username := None;
            u_first_name := Some "Alice";
            u_last_name := None;
            u_language := "en";
            u_joined_at := 1690000000000000;
            u_is_active := true |}.
Proof.
  refine (proj2 (update_user_language_then_get_user 7 "en" Scenario.alice_data
                   Scenario.store_with_alice _)).
  vm_compute. reflexivity.
Defined.

(** X2.  [update_user_language] for an identifier that is not stored reports
    success and changes nothing: no record is created, no clock is read. *)
Theorem update_user_language_unknown_user (user_id : Z) (language : string) (s : state) :
  dict_get (str_of_int user_id) (users (local s)) = None ->
  update_user_language user_id language s = (Returned true, s).
Proof. intros Hd. run_store. rewrite Hd. reflexivity. Qed.

Lemma update_user_language_unknown_user_witness :
  update_user_language 8 "en" Scenario.store_with_alice
  = (Returned true, Scenario.store_with_alice).
Proof.
  apply update_user_language_unknown_user. vm_compute. reflexivity.
Defined.

(** X3.  Saving a user does not touch what is stored for another identifier. *)
Theorem save_user_leaves_other_users (user : User) (user_id : Z) (s : state) :
  user_id <> u_id user ->
  fetched_user user_id (snd (save_user user s)) = fetched_user user_id s.
Proof.
  intros Hne.
  assert (Hkey : str_of_int (u_id user) <> str_of_int user_id).
  { unfold str_of_int. intros H. apply (inj pretty) in H. congruence. }
  run_store. rewrite dict_get_set_ne by exact Hkey.
  destruct (dict_get (str_of_int user_id) (users (local s))); reflexivity.
Qed.

Lemma save_user_leaves_other_users_witness :
  fetched_user 7
    (snd (save_user {| u_id := 8; u_username := Some "bob"; u_first_name := None;
                       u_last_name := None; u_language := "en";
                       u_joined_at := 0; u_is_active := true |}
            Scenario.store_with_alice))
  = fetched_user 7 Scenario.store_with_alice.
Proof. apply save_user_leaves_other_users. cbn. lia. Defined.

(** X4.  [save_user] is an upsert: it adds one record when the identifier is
    new and replaces the record in place when it is stored already, so that
    saving the same user again does not change the number of users. *)
Theorem save_user_is_upsert (user : User) (s : state) :
  length (users (local (snd (save_user user s))))
  = match fetched_user (u_id user) s with
    | Some _ => length (users (local s))
    | None => S (length (users (local s)))
    end
  /\ length (users (local (snd (save_user user (snd (save_user user s))))))
     = length (users (local (snd (save_user user s)))).
Proof.
  run_store. rewrite !dict_set_length, dict_get_set_eq.
  destruct (dict_get (str_of_int (u_id user)) (users (local s))); cbn; split; reflexivity.
Qed.

(** X5.  [get_song] under the key [save_song] used returns every field that was
    saved except the numeric identifier, which comes back as 0. *)
Theorem save_song_then_get_song (song : Song) (s : state) :
  fst (save_song song s) = Returned true
  /\ fetched_song (song_key song) (snd (save_song song s))
     = Some {| s_id := 0;
               s_title := s_title song;
               s_artist := s_artist song;
               s_album := s_album song;
               s_duration := s_duration song;
               s_genre := s_genre song;
               s_year := s_year song;
               s_spotify_url := s_spotify_url song;
               s_apple_url := s_apple_url song;
               s_youtube_url := s_youtube_url song;
               s_image_url := s_image_url song;
               s_shazam_id := s_shazam_id song;
               s_isrc := s_isrc song;
               s_recognized_at := s_recognized_at song;
               s_user_id := s_user_id song |}.
Proof.
  unfold song_key. run_store. rewrite dict_get_set_eq. split; reflexivity.
Qed.

(** X6.  Two songs that are filed under the same key, as two songs without a
    service identifier and with the same numeric identifier (0 by default)
    are: the second save replaces the first.  [get_song] under that key
    returns the fields of the second song, and the store holds as many
    songs as after the first save. *)
Theorem save_song_same_key_overwrites (first second : Song) (s : state) :
  song_key first = song_key second ->
  fetched_song (song_key first) (snd (save_song second (snd (save_song first s))))
  = Some {| s_id := 0;
            s_title := s_title second;
            s_artist := s_artist second;
            s_album := s_album second;
            s_duration := s_duration second;
            s_genre := s_genre second;
            s_year := s_year second;
            s_spotify_url := s_spotify_url second;
            s_apple_url := s_apple_url second;
            s_youtube_url := s_youtube_url second;
            s_image_url := s_image_url second;
            s_shazam_id := s_shazam_id second;
            s_isrc := s_isrc second;
            s_recognized_at := s_recognized_at second;
            s_user_id := s_user_id second |}
  /\ length (songs (local (snd (save_song second (snd (save_song first s))))))
     = length (songs (local (snd (save_song first s))))
  /\ length (songs (local (snd (save_song first s))))
     = match fetched_song (song_key first) s with
       | Some _ => length (songs (local s))
       | None => S (length (songs (local s)))
       end.
Proof.
  unfold song_key. intros Hkey. run_store.
  rewrite Hkey, !dict_get_set_eq, !dict_set_length, dict_get_set_eq.
  split; [reflexivity|]. split; [reflexivity|].
  destruct (dict_get _ (songs (local s))); reflexivity.
Qed.

Lemma save_song_same_key_overwrites_witness :
  fetched_song "0"
    (snd (save_song (Scenario.unidentified_song "second")
            (snd (save_song (Scenario.unidentified_song "first") Scenario.fresh_store))))
  = Some (Scenario.unidentified_song "second").
Proof.
  refine (proj1 (save_song_same_key_overwrites (Scenario.unidentified_song "first")
                   (Scenario.unidentified_song "second") Scenario.fresh_store _)).
  reflexivity.
Defined.

(** X7.  [increment_stat] composes: [k] calls add [k] to a counter, and the
    first of them starts an absent counter at 1. *)
Theorem increment_stat_repeated (name : string) (k : nat) (s : state) :
  name <> "last_updated" ->
  (forall n, counter name s = Some n ->
     counter name (run_all (replicate k (IncrementStat name)) s) = Some (n + Z.of_nat k))
  /\ (statistics (local s) !! name = None ->
      counter name (run_all (replicate (S k) (IncrementStat name)) s)
      = Some (Z.of_nat (S k))).
Proof.
  intros Hname.
  assert (Hadd : forall k s n, counter name s = Some n ->
            counter name (run_all (replicate k (IncrementStat name)) s)
            = Some (n + Z.of_nat k)).
  { clear k s. induction k as [|k IH]; intros s n Hn; cbn.
    - rewrite Hn. f_equal. lia.
    - unfold run_all in IH. rewrite (IH _ (n + 1)).
      + f_equal. lia.
      + now apply increment_stat_counter. }
  split; [apply Hadd|].
  intros Hnone. cbn. unfold run_all in Hadd. rewrite (Hadd k _ 1).
  - f_equal. lia.
  - now apply increment_stat_counter.
Qed.

Lemma increment_stat_repeated_witness :
  counter "songs_downloaded"
    (run_all (replicate 3 (IncrementStat "songs_downloaded")) Scenario.fresh_store)
  = Some 3.
Proof.
  refine (proj1 (increment_stat_repeated "songs_downloaded" 3 Scenario.fresh_store _) 0 _).
  - discriminate.
  - vm_compute. reflexivity.
Defined.

(** X8.  [increment_stat] on a name that holds a timestamp, as ['last_updated']
    does, fails: it returns [False] and leaves the store as it was. *)
Theorem increment_stat_rejects_timestamp (name : string) (t : datetime) (s : state) :
  statistics (local s) !! name = Some (SIso t) ->
  increment_stat name s = (Returned false, s).
Proof. intros Ht. run_store. rewrite Ht. reflexivity. Qed.

Lemma increment_stat_rejects_timestamp_witness :
  increment_stat "last_updated" Scenario.fresh_store
  = (Returned false, Scenario.fresh_store).
Proof.
  apply (increment_stat_rejects_timestamp "last_updated" 1700000000000000).
  vm_compute. reflexivity.
Defined.

(** X9.  [cleanup_expired_data] deletes exactly the records whose expiry lies
    before the time it reads, whether they are active or not, and keeps the
    others in their order. *)
Theorem cleanup_removes_exactly_expired (s : state) :
  unique_keys (stored_broadcasts s) ->
  stored_broadcasts (snd (cleanup_expired_data s))
  = filter (fun item => expired (clock s (ticks s)) (snd item) = false)
      (stored_broadcasts s).
Proof.
  unfold stored_broadcasts. intros Hu. run_store.
  destruct (broadcasts (local s)) as [items|] eqn:Hb; cbn; rewrite ?Hb; [|reflexivity].
  unfold expired_broadcasts.
  rewrite fold_dict_del_filter by exact Hu.
  apply filter_agree. intros [k d] Hin. cbn [fst snd]. split.
  - intros Hnot. destruct (expired (clock s (ticks s)) d) eqn:He; [|reflexivity].
    exfalso. apply Hnot. apply list_elem_of_In. apply in_map_iff.
    exists (k, d). split; [reflexivity|]. apply list_elem_of_In.
    apply list_elem_of_filter. split; [cbn; now rewrite He | now apply list_elem_of_In].
  - intros He Hk. apply list_elem_of_In in Hk. apply in_map_iff in Hk as ([k' d'] & Hk' & Hin').
    cbn in Hk'. subst k'. apply list_elem_of_In in Hin'.
    apply list_elem_of_filter in Hin' as [He' Hin']. apply list_elem_of_In in Hin'.
    cbn in He'. rewrite (unique_keys_functional _ _ _ _ Hu Hin' Hin) in He'.
    rewrite He in He'. exact He'.
Qed.

Lemma cleanup_removes_exactly_expired_witness :
  map fst (stored_broadcasts (snd (cleanup_expired_data Scenario.three_broadcasts)))
  = ["a"; "c"].
Proof.
  rewrite cleanup_removes_exactly_expired.
  - vm_compute. reflexivity.
  - vm_compute. repeat constructor; rewrite ?elem_of_cons, ?elem_of_nil; intuition discriminate.
Defined.

(** Where a record of the dictionary that the loop leaves comes from. *)
Lemma active_loop_origin_kept (current_time : datetime) (items : dict broadcast_data)
    (k : string) (d : broadcast_data) :
  In (k, d) (fst (active_loop current_time items)) ->
  bd_is_active d = true ->
  In (k, d) items /\ expired current_time d = false.
Proof.
  induction items as [|[k0 d0] items IH]; cbn; [intros []|].
  destruct (active_loop current_time items) as [rest' appended] eqn:E. cbn in IH.
  intros Hin Ha.
  assert (Hrest : In (k, d) rest' ->
            ((k0, d0) = (k, d) \/ In (k, d) items) /\ expired current_time d = false).
  { intros H. destruct (IH H Ha). auto. }
  destruct (bd_is_active d0) eqn:Ha0; [destruct (expired current_time d0) eqn:He0|];
    cbn in Hin; destruct Hin as [Heq|Hin]; try (now apply Hrest);
    injection Heq as <- <-.
  - cbn in Ha. discriminate.
  - auto.
  - congruence.
Qed.

(** X10.  Two reads in a row: whatever the clock does, the second read returns
    no record that the first one left out. *)
Theorem get_active_broadcasts_only_shrinks (s : state) (d : broadcast_data) :
  In d (active_broadcasts (snd (get_active_broadcasts s))) ->
  In d (active_broadcasts s).
Proof.
  destruct (get_active_broadcasts_eq s) as [Hres Hstore].
  destruct (get_active_broadcasts_eq (snd (get_active_broadcasts s))) as [Hres' _].
  unfold active_broadcasts. rewrite Hres, Hres', Hstore.
  intros Hin. apply active_loop_appended in Hin as (k & Hin & Ha & _).
  apply active_loop_appended. exists k.
  destruct (active_loop_origin_kept _ _ _ _ Hin Ha) as [Hin0 He].
  auto.
Qed.

Lemma get_active_broadcasts_only_shrinks_witness :
  In (Scenario.one_hour_broadcast 0)
     (active_broadcasts
        (Scenario.store_with_broadcast (Scenario.one_hour_broadcast 0) (minutes 30))).
Proof.
  apply get_active_broadcasts_only_shrinks. vm_compute. left. reflexivity.
Defined.

Lemma dict_set_In_key {V} (k : string) (v : V) (d : dict V) (k' : string) (v' : V) :
  In (k', v') (dict_set k v d) -> (k' = k /\ v' = v) \/ In (k', v') d.
Proof.
  induction d as [|[k0 v0] d IH]; cbn.
  - intros [H|[]]. left. split; congruence.
  - destruct (String.eqb_spec k k0) as [->|Hk]; cbn.
    + intros [H|H]; [left; split; congruence | right; now right].
    + intros [H|H]; [right; now left|].
      destruct (IH H) as [Hv|Hin]; [now left | right; now right].
Qed.

(** The store keeps its users under distinct keys, each the text of the
    identifier of the record. *)
Lemma run_keeps_users_well_formed (op : operation) (s : state) :
  unique_keys (users (local s)) /\ users_well_keyed s ->
  unique_keys (users (local (run op s))) /\ users_well_keyed (run op s).
Proof.
  intros [Hu Hw].
  assert (Hsame : users (local (run op s)) = users (local s) ->
            unique_keys (users (local (run op s))) /\ users_well_keyed (run op s)).
  { intros Heq. unfold users_well_keyed. rewrite Heq. auto. }
  destruct op; try (apply Hsame; run_store; store_branches; congruence).
  - run_store. split.
    + now apply dict_set_unique.
    + intros k d Hin. cbn in Hin.
      apply dict_set_In_key in Hin as [[-> ->] | Hin]; [reflexivity | now apply Hw].
  - run_store. destruct (dict_get (str_of_int user_id) (users (local s))) as [d0|] eqn:E;
      cbn; [|auto].
    split.
    + now apply dict_set_unique.
    + intros k d Hin. cbn in Hin.
      apply dict_set_In_key in Hin as [[-> ->] | Hin]; [|now apply Hw].
      cbn. apply dict_get_In in E. now apply Hw.
Qed.

Lemma run_all_keeps_users_well_formed (ops : list operation) (s : state) :
  unique_keys (users (local s)) /\ users_well_keyed s ->
  unique_keys (users (local (run_all ops s))) /\ users_well_keyed (run_all ops s).
Proof.
  revert s. induction ops as [|op ops IH]; intros s Hs; [exact Hs|].
  apply IH. now apply run_keeps_users_well_formed.
Qed.

(** [get_all_users] lists the stored records in the order of the store. *)
Lemma listed_users_eq (s : state) :
  listed_users s = map (fun item => user_of_data (snd item)) (users (local s)).
Proof.
  assert (Hloop : forall items s0,
            fst (all_users_loop items s0)
            = Returned (map (fun item => user_of_data (snd item)) items)).
  { induction items as [|[k d] items IH]; intros s0; [reflexivity|].
    cbn [all_users_loop map snd]. unfold bind, now, ret. cbn.
    match goal with |- context [all_users_loop items ?s1] =>
      specialize (IH s1); destruct (all_users_loop items s1) as [[us|e] s2] end;
      cbn in IH |- *; congruence. }
  unfold listed_users, get_all_users, try_except, bind, get_local.
  specialize (Hloop (users (local s)) s).
  destruct (all_users_loop (users (local s)) s) as [[us|e] s2]; cbn in Hloop |- *;
    congruence.
Qed.

(** X11.  In a store that the service built from one without users,
    [get_all_users] never lists an identifier twice, however often a user was
    saved or updated. *)
Theorem listed_users_distinct (ops : list operation) (s : state) :
  users (local s) = [] ->
  NoDup (map u_id (listed_users (run_all ops s))).
Proof.
  intros Hempty.
  destruct (run_all_keeps_users_well_formed ops s) as [Hu Hw].
  { unfold users_well_keyed. rewrite Hempty. split; [constructor | intros ? ? []]. }
  rewrite listed_users_eq, map_map. cbn.
  unfold unique_keys in Hu.
  assert (Hkeys : map fst (users (local (run_all ops s)))
                  = map str_of_int (map (fun item => ud_id (snd item))
                                      (users (local (run_all ops s))))).
  { rewrite map_map. apply map_ext_in. intros [k d] Hin. cbn. now apply Hw. }
  rewrite Hkeys in Hu. now apply NoDup_fmap_1 in Hu.
Qed.

Lemma listed_users_distinct_witness :
  NoDup (map u_id
           (listed_users
              (run_all [SaveUser Scenario.alice; SaveUser Scenario.dormant_alice;
                        UpdateUserLanguage 7 "en"]
                 Scenario.fresh_store))).
Proof. apply listed_users_distinct. reflexivity. Defined.

End StoreMore.

(** ** The conversation flows, further *)

(** Unfolding of a handler down to the outcomes of its replies, and the
    case analysis on those. *)
Ltac run_replies s :=
  unfold MusicBot.send, MusicBot.record, MusicBot.set_user_states,
    MusicBot.set_context_user_data, MusicBot.context_user_data,
    Py.try_except, Py.bind, Py.get, Py.modify, Py.lift, Py.ret, Py.raise;
  cbn [MusicBot.user_states MusicBot.user_data MusicBot.firebase_service
       MusicBot.outbox MusicBot.reply_outcome MusicBot.replies fst snd];
  repeat match goal with
         | |- context [MusicBot.reply_outcome s ?n] =>
             destruct (MusicBot.reply_outcome s n) as [[]|?];
             cbn [MusicBot.user_states MusicBot.user_data MusicBot.firebase_service
                  MusicBot.outbox MusicBot.reply_outcome MusicBot.replies fst snd]
         end.

Section BotMore.
Import Py Models MusicBot.

Lemma dict_get_del_eq {V} (k : string) (d : list (string * V)) :
  unique_keys d -> dict_get k (dict_del k d) = None.
Proof.
  intros Hu. apply dict_get_None. rewrite dict_del_filter by exact Hu.
  intros Hin. apply in_map_iff in Hin as ([k' v] & Hk & Hin). cbn in Hk. subst k'.
  apply list_elem_of_In in Hin. apply list_elem_of_filter in Hin as [Hne _].
  now apply Hne.
Qed.

(** [get_all_users] returns its list and leaves the store as it was. *)
Lemma get_all_users_eq (fs : FirebaseService.state) :
  exists fs',
    FirebaseService.get_all_users fs = (Returned (FirebaseService.listed_users fs), fs')
    /\ FirebaseService.local fs' = FirebaseService.local fs.
Proof.
  unfold FirebaseService.listed_users, FirebaseService.get_all_users,
    try_except, bind, FirebaseService.get_local.
  destruct (all_users_loop_local (FirebaseService.users (FirebaseService.local fs)) fs)
    as (us & fs' & -> & Hl).
  exists fs'. split; [reflexivity | exact Hl].
Qed.

(** The loop over the users counts and records the deliveries that
    succeed, and touches nothing else. *)
Lemma broadcast_loop_eq (transport : Transport) (message : string)
    (users : list User) (sent_count : Z) (s : state) :
  broadcast_loop transport message users sent_count s
  = (Returned (sent_count
               + Z.of_nat (length (List.filter (reached transport message) users))),
     {| user_states := user_states s;
        user_data := user_data s;
        firebase_service := firebase_service s;
        outbox := outbox s
                  ++ map (fun user => Broadcast (u_id user) message)
                       (List.filter (reached transport message) users);
        reply_outcome := reply_outcome s;
        replies := replies s |}).
Proof.
  revert sent_count s. induction users as [|user users IH]; intros sent_count s.
  - cbn. rewrite Z.add_0_r, app_nil_r. now destruct s.
  - assert (Hr : reached transport message user
                 = match transport (u_id user) message with
                   | Returned _ => true
                   | Raised _ => false
                   end) by reflexivity.
    cbn [broadcast_loop List.filter]. rewrite Hr.
    unfold bind at 1. unfold try_except, bind, lift.
    destruct (transport (u_id user) message) as [[]|e]; cbn -[Z.of_nat]; rewrite IH.
    + cbn -[Z.of_nat]. rewrite <- app_assoc. cbn -[Z.of_nat].
      do 2 f_equal. lia.
    + reflexivity.
Qed.

(** The state in which [handle_broadcast] makes its first reply, when the
    text is a number and a message is pending. *)
Lemma handle_broadcast_eq
    (transport : Transport) (update : Update) (s : state) (n : Z) (message : string) :
  int_literal (text update) = Some n ->
  dict_get "broadcast_message" (user_data_of s (effective_user_id update)) = Some message ->
  message <> "" ->
  let user_id := effective_user_id update in
  let recipients :=
    List.filter (reached transport message)
      (FirebaseService.listed_users (firebase_service s)) in
  let s1 :=
    {| user_states := user_states s;
       user_data := user_data s;
       firebase_service := snd (FirebaseService.get_all_users (firebase_service s));
       outbox := outbox s ++ map (fun user => Broadcast (u_id user) message) recipients;
       reply_outcome := reply_outcome s;
       replies := replies s |} in
  handle_broadcast transport update s
  = try_except
      (send (Reply user_id "broadcast_sent"
               [("count", KInt (0 + Z.of_nat (length recipients)))]);;
       (if 0 <? n
        then send (Reply user_id "broadcast_duration" [("hours", KInt n)])
        else ret tt);;
       set_user_states (delete user_id);;
       set_context_user_data user_id (dict_del "broadcast_message"))
      (fun e => send (Reply user_id "error" [("error", KExn e)])) s1.
Proof.
  intros Hint Hdata Hmessage user_id recipients s1. subst user_id recipients s1.
  unfold handle_broadcast, try_except, int, context_user_data.
  unfold bind at 1 2 3. unfold get, ret. rewrite Hint. cbv beta iota.
  rewrite Hdata. destruct message as [|c message]; [congruence|].
  unfold bind at 1. unfold firebase.
  destruct (get_all_users_eq (firebase_service s)) as (fs' & -> & Hlocal).
  cbv beta iota. unfold bind at 1. rewrite broadcast_loop_eq. cbv beta iota.
  reflexivity.
Qed.

(** The state that a numeric reply leaves while a message is pending and
    the replies are delivered. *)
Lemma handle_broadcast_success_eq
    (transport : Transport) (update : Update) (s : state) (n : Z) (message : string) :
  int_literal (text update) = Some n ->
  dict_get "broadcast_message" (user_data_of s (effective_user_id update)) = Some message ->
  message <> "" ->
  replies_delivered s ->
  let user_id := effective_user_id update in
  let recipients :=
    List.filter (reached transport message)
      (FirebaseService.listed_users (firebase_service s)) in
  handle_broadcast transport update s
  = (Returned tt,
     {| user_states := delete user_id (user_states s);
        user_data :=
          <[user_id := dict_del "broadcast_message" (user_data_of s user_id)]> (user_data s);
        firebase_service := snd (FirebaseService.get_all_users (firebase_service s));
        outbox :=
          ((outbox s ++ map (fun user => Broadcast (u_id user) message) recipients)
           ++ [Reply user_id "broadcast_sent"
                 [("count", KInt (0 + Z.of_nat (length recipients)))]])
          ++ (if 0 <? n
              then [Reply user_id "broadcast_duration" [("hours", KInt n)]]
              else []);
        reply_outcome := reply_outcome s;
        replies := if 0 <? n then S (S (replies s)) else S (replies s) |}).
Proof.
  intros Hint Hdata Hmessage Hd user_id recipients.
  rewrite (handle_broadcast_eq _ _ _ _ _ Hint Hdata Hmessage).
  fold user_id recipients.
  unfold try_except. unfold bind at 1. rewrite send_eq. cbn [reply_outcome replies].
  rewrite Hd. cbv beta iota. unfold bind at 1.
  destruct (0 <? n).
  - rewrite send_eq. cbn [reply_outcome replies]. rewrite Hd. cbv beta iota.
    unfold set_user_states, set_context_user_data, modify, bind, user_data_of.
    cbn -[Z.of_nat]. reflexivity.
  - unfold set_user_states, set_context_user_data, modify, bind, ret, user_data_of.
    cbn -[Z.of_nat]. rewrite app_nil_r. reflexivity.
Qed.

(** X12.  A numeric reply while a message is pending, when the replies to the
    administrator are delivered: the message goes to every stored user whom
    the transport reaches, the administrator is told how many that were (and
    the duration, when positive), the conversation is idle again, the
    pending message is gone, and the store holds what it held before: the
    broadcast itself is not saved. *)
Theorem handle_broadcast_delivers
    (transport : Transport) (update : Update) (s : state) (n : Z) (message : string) :
  let user_id := effective_user_id update in
  let recipients :=
    List.filter (reached transport message)
      (FirebaseService.listed_users (firebase_service s)) in
  let s' := snd (handle_broadcast transport update s) in
  int_literal (text update) = Some n ->
  dict_get "broadcast_message" (user_data_of s user_id) = Some message ->
  message <> "" ->
  unique_keys (user_data_of s user_id) ->
  replies_delivered s ->
  fst (handle_broadcast transport update s) = Returned tt
  /\ outbox s'
     = outbox s
       ++ map (fun user => Broadcast (u_id user) message) recipients
       ++ [Reply user_id "broadcast_sent" [("count", KInt (Z.of_nat (length recipients)))]]
       ++ (if 0 <? n then [Reply user_id "broadcast_duration" [("hours", KInt n)]] else [])
  /\ conversation_state s' user_id = None
  /\ dict_get "broadcast_message" (user_data_of s' user_id) = None
  /\ FirebaseService.local (firebase_service s')
     = FirebaseService.local (firebase_service s).
Proof.
  intros user_id recipients s' Hint Hdata Hmessage Hu Hd.
  subst s'. rewrite (handle_broadcast_success_eq _ _ _ _ _ Hint Hdata Hmessage Hd).
  fold user_id recipients. cbn [fst snd outbox]. repeat split.
  - rewrite <- !app_assoc. reflexivity.
  - unfold conversation_state. cbn. apply lookup_delete_eq.
  - unfold user_data_of at 1. cbn [user_data]. rewrite lookup_insert_eq.
    now apply dict_get_del_eq.
  - cbn. destruct (get_all_users_eq (firebase_service s)) as (fs' & -> & Hlocal).
    exact Hlocal.
Qed.

Lemma handle_broadcast_delivers_witness :
  outbox (snd (handle_broadcast Scenario.delivering (Scenario.says Scenario.admin "2")
                 Scenario.awaiting_duration_with_alice))
  = [ Broadcast 7 "hello";
      Reply Scenario.admin "broadcast_sent" [("count", KInt 1)];
      Reply Scenario.admin "broadcast_duration" [("hours", KInt 2)] ].
Proof.
  refine (proj1 (proj2 (handle_broadcast_delivers Scenario.delivering
                          (Scenario.says Scenario.admin "2")
                          Scenario.awaiting_duration_with_alice 2 "hello" _ _ _ _ _))).
  - reflexivity.
  - reflexivity.
  - discriminate.
  - vm_compute. repeat constructor. rewrite elem_of_nil. tauto.
  - intros n. reflexivity.
Defined.

(** X13.  Whatever the reply, whatever the transport does and whatever becomes
    of the replies of the bot, [handle_broadcast] leaves the contents of the
    store as they were: the bot never saves a broadcast, so none is ever
    listed as active. *)
Theorem handle_broadcast_never_persists
    (transport : Transport) (update : Update) (s : state) :
  FirebaseService.local (firebase_service (snd (handle_broadcast transport update s)))
  = FirebaseService.local (firebase_service s).
Proof.
  destruct (int_literal (text update)) as [n|] eqn:Hint.
  - destruct (dict_get "broadcast_message" (user_data_of s (effective_user_id update)))
      as [[|c message]|] eqn:Hdata.
    + unfold handle_broadcast, try_except, int, context_user_data.
      unfold bind at 1 2 3. unfold get, ret. rewrite Hint. cbv beta iota.
      rewrite Hdata. run_replies s; reflexivity.
    + rewrite (handle_broadcast_eq _ _ _ _ _ Hint Hdata) by discriminate.
      destruct (get_all_users_eq (firebase_service s)) as (fs' & -> & Hlocal).
      destruct (0 <? n); run_replies s; exact Hlocal.
    + unfold handle_broadcast, try_except, int, context_user_data.
      unfold bind at 1 2 3. unfold get, ret. rewrite Hint. cbv beta iota.
      rewrite Hdata. run_replies s; reflexivity.
  - unfold handle_broadcast, try_except, bind, int. rewrite Hint.
    unfold raise. cbv beta iota. run_replies s; reflexivity.
Qed.

(** What [handle_song_edit] and [handle_broadcast] can do to the
    conversation states: nothing, or remove the entry of the sender. *)
Lemma handle_song_edit_states (update : Update) (s : state) :
  user_states (snd (handle_song_edit update s)) = user_states s
  \/ user_states (snd (handle_song_edit update s))
     = delete (effective_user_id update) (user_states s).
Proof.
  unfold handle_song_edit, try_except, context_user_data, bind, get, ret.
  cbv beta iota.
  destruct (dict_get "edit_file_id" (user_data_of s (effective_user_id update)))
    as [[|c f]|]; run_replies s; auto.
Qed.

(** A confirmation that the network does not deliver: the exception is
    raised before the reset, so the handler of [handle_song_edit] replies
    with the error, if it can, and the user stays where they were. *)
Lemma handle_song_edit_failed_reply (update : Update) (s : state) (e : exn)
    (c : ascii) (f : string) :
  dict_get "edit_file_id" (user_data_of s (effective_user_id update))
  = Some (String c f) ->
  reply_outcome s (replies s) = Raised e ->
  user_states (snd (handle_song_edit update s)) = user_states s
  /\ user_data (snd (handle_song_edit update s)) = user_data s
  /\ (reply_outcome s (S (replies s)) = Returned tt ->
      outbox (snd (handle_song_edit update s))
      = outbox s ++ [Reply (effective_user_id update) "error" [("error", KExn e)]]).
Proof.
  intros Hdata Hfail.
  unfold handle_song_edit, try_except, context_user_data, bind, get, ret.
  cbv beta iota. rewrite Hdata. rewrite send_eq, Hfail. rewrite send_eq.
  cbn [reply_outcome replies user_states user_data outbox].
  destruct (reply_outcome s (S (replies s))) as [[]|e']; cbn; repeat split.
  discriminate.
Qed.

Lemma broadcasts_sent_app (a b : list outgoing) :
  broadcasts_sent (a ++ b) = broadcasts_sent a ++ broadcasts_sent b.
Proof. induction a as [|[] a IH]; cbn; rewrite ?IH; reflexivity. Qed.

Lemma handle_song_edit_sends_no_broadcast (update : Update) (s : state) :
  broadcasts_sent (outbox (snd (handle_song_edit update s))) = broadcasts_sent (outbox s).
Proof.
  unfold handle_song_edit, try_except, context_user_data, bind, get, ret.
  cbv beta iota.
  destruct (dict_get "edit_file_id" (user_data_of s (effective_user_id update)))
    as [[|c f]|]; run_replies s;
    rewrite ?broadcasts_sent_app; cbn; rewrite ?app_nil_r; reflexivity.
Qed.

Lemma handle_broadcast_states (transport : Transport) (update : Update) (s : state) :
  user_states (snd (handle_broadcast transport update s)) = user_states s
  \/ user_states (snd (handle_broadcast transport update s))
     = delete (effective_user_id update) (user_states s).
Proof.
  destruct (int_literal (text update)) as [n|] eqn:Hint.
  - destruct (dict_get "broadcast_message" (user_data_of s (effective_user_id update)))
      as [[|c message]|] eqn:Hdata.
    + left. unfold handle_broadcast, try_except, int, context_user_data.
      unfold bind at 1 2 3. unfold get, ret. rewrite Hint. cbv beta iota.
      rewrite Hdata. run_replies s; reflexivity.
    + rewrite (handle_broadcast_eq _ _ _ _ _ Hint Hdata) by discriminate.
      destruct (get_all_users_eq (firebase_service s)) as (fs' & -> & Hlocal).
      destruct (0 <? n); run_replies s; auto.
    + left. now apply (handle_broadcast_without_message transport update s n).
  - left. now apply handle_broadcast_bad_literal.
Qed.

Lemma delete_keeps_admins (user_id : Z) (s s' : state) :
  user_states s' = user_states s \/ user_states s' = delete user_id (user_states s) ->
  broadcast_flow_is_admins s -> broadcast_flow_is_admins s'.
Proof.
  intros [Heq|Heq] Hs u; rewrite Heq; [apply Hs|].
  destruct (decide (user_id = u)) as [->|Hne].
  - rewrite lookup_delete_eq. intros [H|H]; discriminate.
  - rewrite lookup_delete_ne by exact Hne. apply Hs.
Qed.

(** X14.  Only the administrator can be in the broadcast flow, and so only the
    administrator can make the bot broadcast: [broadcast_command] and
    [handle_text_message] keep every other user out of the two broadcast
    states, and a text from another user sends no broadcast, provided the
    download handler neither broadcasts nor touches the states. *)
Theorem broadcast_flow_stays_with_admin
    (transport : Transport) (handle_url_download : Update -> M state unit)
    (update : Update) (s : state) :
  broadcast_flow_is_admins s ->
  (forall u s0, user_states (snd (handle_url_download u s0)) = user_states s0) ->
  (forall u s0, broadcasts_sent (outbox (snd (handle_url_download u s0)))
                = broadcasts_sent (outbox s0)) ->
  broadcast_flow_is_admins (snd (broadcast_command update s))
  /\ broadcast_flow_is_admins
       (snd (handle_text_message transport handle_url_download update s))
  /\ (effective_user_id update <> ADMIN_USER_ID ->
      broadcasts_sent
        (outbox (snd (handle_text_message transport handle_url_download update s)))
      = broadcasts_sent (outbox s)).
Proof.
  intros Hs Hstates Hquiet. split; [|split].
  - unfold broadcast_command, is_admin.
    destruct (Z.eqb_spec (effective_user_id update) ADMIN_USER_ID) as [Heq|Hne];
      cbn [negb].
    + unfold bind at 1. unfold set_user_states, modify. cbv beta iota.
      intros u. rewrite (proj1 (send_frame _ _)). cbn [user_states].
      destruct (decide (effective_user_id update = u)) as [<-|Hu].
      * intros _. exact Heq.
      * rewrite lookup_insert_ne by exact Hu. apply Hs.
    + intros u. rewrite (proj1 (send_frame _ _)). apply Hs.
  - unfold handle_text_message, bind at 1. unfold get. cbv beta iota.
    destruct (decide (user_states s !! effective_user_id update
                      = Some EDIT_SONG_WAITING_FOR_INFO)) as [H2|H2].
    { apply (delete_keeps_admins (effective_user_id update) s); [|exact Hs].
      apply handle_song_edit_states. }
    destruct (decide (user_states s !! effective_user_id update
                      = Some BROADCAST_WAITING_FOR_MESSAGE)) as [H3|H3].
    { unfold bind at 1 2. unfold set_context_user_data, set_user_states, modify.
      cbv beta iota. intros u. rewrite (proj1 (send_frame _ _)). cbn [user_states].
      destruct (decide (effective_user_id update = u)) as [<-|Hu].
      - intros _. apply Hs. now left.
      - rewrite lookup_insert_ne by exact Hu. apply Hs. }
    destruct (decide (user_states s !! effective_user_id update
                      = Some BROADCAST_WAITING_FOR_DURATION)) as [H4|H4].
    { apply (delete_keeps_admins (effective_user_id update) s); [|exact Hs].
      apply handle_broadcast_states. }
    destruct (existsb _ _).
    + intros u. rewrite Hstates. apply Hs.
    + exact Hs.
  - intros Hne.
    assert (H3 : user_states s !! effective_user_id update
                 <> Some BROADCAST_WAITING_FOR_MESSAGE).
    { intros H. apply Hne. apply Hs. now left. }
    assert (H4 : user_states s !! effective_user_id update
                 <> Some BROADCAST_WAITING_FOR_DURATION).
    { intros H. apply Hne. apply Hs. now right. }
    unfold handle_text_message, bind at 1. unfold get. cbv beta iota.
    destruct (decide (user_states s !! effective_user_id update
                      = Some EDIT_SONG_WAITING_FOR_INFO)) as [H2|H2].
    { apply handle_song_edit_sends_no_broadcast. }
    rewrite (decide_False _ _ H3), (decide_False _ _ H4).
    destruct (existsb _ _); [apply Hquiet | reflexivity].
Qed.

Lemma broadcast_flow_stays_with_admin_witness :
  broadcasts_sent
    (outbox (snd (handle_text_message Scenario.delivering Scenario.no_download
                    (Scenario.says Scenario.editor "5") Scenario.awaiting_duration_with_alice)))
  = [].
Proof.
  refine (proj2 (proj2 (broadcast_flow_stays_with_admin Scenario.delivering
                          Scenario.no_download (Scenario.says Scenario.editor "5")
                          Scenario.awaiting_duration_with_alice _ _ _)) _).
  - intros u. unfold Scenario.awaiting_duration_with_alice. cbn [user_states].
    destruct (decide (Scenario.admin = u)) as [<-|Hu]; [reflexivity|].
    rewrite lookup_singleton_ne by exact Hu. intros [H|H]; discriminate.
  - reflexivity.
  - reflexivity.
  - cbn. unfold Scenario.editor, ADMIN_USER_ID. lia.
Defined.

(** X15.  A text that the classifier does not recognise, from an idle user, is
    ignored: nothing is sent and nothing changes.  (The converse fails: the
    handler tests six fragments only, so an address that holds [pin.it] or
    [instagr.am] and none of the six is ignored too.) *)
Theorem unsupported_text_is_ignored
    (transport : Transport) (handle_url_download : Update -> M state unit)
    (update : Update) (s : state) :
  user_states s !! effective_user_id update = None ->
  Helpers.get_platform_from_url (text update) = None ->
  handle_text_message transport handle_url_download update s = (Returned tt, s).
Proof.
  intros Hidle Hnone.
  unfold handle_text_message, bind at 1. unfold get. cbv beta iota.
  rewrite Hidle.
  rewrite !decide_False by discriminate.
  unfold Helpers.get_platform_from_url in Hnone. cbn [existsb].
  destruct (str_in "youtube.com" (lower (text update))); [discriminate|].
  destruct (str_in "youtu.be" (lower (text update))); [discriminate|].
  destruct (str_in "instagram.com" (lower (text update))); [discriminate|].
  destruct (str_in "instagr.am" (lower (text update))); [discriminate|].
  destruct (str_in "tiktok.com" (lower (text update))); [discriminate|].
  destruct (str_in "pinterest.com" (lower (text update))); [discriminate|].
  destruct (str_in "pin.it" (lower (text update))); [discriminate|].
  destruct (str_in "soundcloud.com" (lower (text update))); [discriminate|].
  reflexivity.
Qed.

Lemma unsupported_text_is_ignored_witness :
  handle_text_message Scenario.delivering Scenario.no_download
    (Scenario.says Scenario.admin "hello there") Scenario.awaiting_file
  = (Returned tt, Scenario.awaiting_file).
Proof.
  apply unsupported_text_is_ignored.
  - vm_compute. reflexivity.
  - vm_compute. reflexivity.
Defined.

(** X16.  The edit flow, when the file arrives as an audio or a voice message
    and the replies of the bot are delivered: the bot asks for the
    information, and the reply to that closes the flow; the user is idle
    again. *)
Theorem edit_flow_completes
    (transport : Transport) (handle_url_download : Update -> M state unit)
    (recognize_and_reply : MediaUpdate -> M state unit)
    (media : MediaUpdate) (file_id info : string) (s : state) :
  let user_id := media_user_id media in
  let s1 := snd (handle_audio_message recognize_and_reply media s) in
  let s2 := snd (handle_text_message transport handle_url_download
                   {| effective_user_id := user_id; text := info |} s1) in
  user_states s !! user_id = Some EDIT_SONG_WAITING_FOR_FILE ->
  audio media = Some file_id \/ (audio media = None /\ voice media = Some file_id) ->
  file_id <> "" ->
  replies_delivered s ->
  fst (handle_audio_message recognize_and_reply media s) = Returned tt
  /\ conversation_state s1 user_id = Some EDIT_SONG_WAITING_FOR_INFO
  /\ fst (handle_text_message transport handle_url_download
            {| effective_user_id := user_id; text := info |} s1) = Returned tt
  /\ conversation_state s2 user_id = None
  /\ outbox s2 = outbox s ++ [Reply user_id "edit_info" []; Reply user_id "info_updated" []].
Proof.
  intros user_id s1 s2 Hstate Hfile Hne Hd.
  assert (Hs1 : handle_audio_message recognize_and_reply media s
                = (Returned tt,
                   {| user_states := <[user_id := EDIT_SONG_WAITING_FOR_INFO]> (user_states s);
                      user_data := <[user_id := dict_set "edit_file_id" file_id
                                                  (user_data_of s user_id)]> (user_data s);
                      firebase_service := firebase_service s;
                      outbox := outbox s ++ [Reply user_id "edit_info" []];
                      reply_outcome := reply_outcome s;
                      replies := S (replies s) |})).
  { unfold handle_audio_message, bind at 1. unfold get. cbv beta iota.
    fold user_id. rewrite Hstate. rewrite decide_True by reflexivity.
    unfold bind at 1. unfold set_user_states, modify. cbv beta iota.
    assert (Hfile_id :
              forall s0 : state,
                match audio media with
                | Some file_id => ret file_id
                | None => match voice media with
                          | Some file_id => ret file_id
                          | None => raise AttributeError
                          end
                end s0 = (Returned file_id, s0)).
    { intros s0. destruct Hfile as [Ha | [Ha Hv]]; rewrite Ha; [|rewrite Hv]; reflexivity. }
    unfold bind at 1. rewrite Hfile_id. cbv beta iota.
    unfold bind at 1. unfold set_context_user_data, modify. cbv beta iota.
    rewrite send_eq. cbn [reply_outcome replies]. rewrite Hd. reflexivity. }
  assert (Hs2 : handle_text_message transport handle_url_download
                  {| effective_user_id := user_id; text := info |} s1
                = (Returned tt,
                   {| user_states :=
                        delete user_id (<[user_id := EDIT_SONG_WAITING_FOR_INFO]> (user_states s));
                      user_data :=
                        <[user_id := dict_del "edit_file_id"
                                       (dict_set "edit_file_id" file_id
                                          (user_data_of s user_id))]>
                          (<[user_id := dict_set "edit_file_id" file_id
                                          (user_data_of s user_id)]> (user_data s));
                      firebase_service := firebase_service s;
                      outbox := (outbox s ++ [Reply user_id "edit_info" []])
                                ++ [Reply user_id "info_updated" []];
                      reply_outcome := reply_outcome s;
                      replies := S (S (replies s)) |})).
  { subst s1. rewrite Hs1. cbn [snd].
    unfold handle_text_message, bind at 1. unfold get. cbv beta iota.
    cbn [user_states effective_user_id].
    rewrite lookup_insert_eq. rewrite decide_True by reflexivity.
    unfold handle_song_edit, try_except, context_user_data, bind, get, ret.
    cbv beta iota. unfold user_data_of at 1. cbn [user_data effective_user_id].
    rewrite lookup_insert_eq, dict_get_set_eq.
    destruct file_id as [|c f]; [congruence|].
    rewrite send_eq. cbn [reply_outcome replies]. rewrite Hd.
    cbv beta iota.
    unfold set_user_states, set_context_user_data, modify.
    cbn [user_states user_data firebase_service outbox reply_outcome replies fst snd].
    unfold user_data_of at 1. cbn [user_data]. rewrite lookup_insert_eq.
    reflexivity. }
  subst s2. rewrite Hs2. subst s1. rewrite Hs1.
  cbn [fst snd]. unfold conversation_state. cbn [user_states outbox].
  rewrite lookup_insert_eq, lookup_delete_eq, <- app_assoc. repeat split.
Qed.

Lemma edit_flow_completes_witness :
  conversation_state
    (snd (handle_text_message Scenario.delivering Scenario.no_download
            (Scenario.says Scenario.editor "Title: x")
            (snd (handle_audio_message Scenario.no_recognition
                    (Scenario.sends_audio Scenario.editor "file-1") Scenario.awaiting_file))))
    Scenario.editor
  = None.
Proof.
  refine (proj1 (proj2 (proj2 (proj2
            (edit_flow_completes Scenario.delivering Scenario.no_download
               Scenario.no_recognition
               (Scenario.sends_audio Scenario.editor "file-1")
               "file-1" "Title: x" Scenario.awaiting_file _ _ _ _))))).
  - reflexivity.
  - left. reflexivity.
  - discriminate.
  - intros n. reflexivity.
Defined.



End BotMore.

(** ** The downloader, further *)

(** Unfolding of the adapters. *)
Ltac run_adapter :=
  unfold Downloader._download_from_youtube, Downloader._download_from_tiktok,
    Downloader._download_from_pinterest, Downloader._download_from_soundcloud,
    Downloader.download_song,
    Downloader.run_ydl, Downloader.prefer_mp3, Downloader.log, Downloader.log_exn,
    Downloader.emit, Py.try_except, Py.bind, Py.ret, Py.raise, Py.lift, Py.modify.

Section DownloaderMore.
Import Py Downloader.

(** The classifier of the downloader names one of the five platforms. *)
Lemma _get_platform_from_url_range (url platform : string) :
  _get_platform_from_url url = Some platform ->
  In platform ["youtube"; "instagram"; "tiktok"; "pinterest"; "soundcloud"].
Proof.
  unfold _get_platform_from_url.
  repeat match goal with
         | |- context [if ?c then _ else _] => destruct c
         end; intros [= <-]; cbn; auto 10.
Qed.

Lemma youtube_contract (self : t) (env : Env) (url : string) :
  adapter_contract env (ydl_opts self) url (_download_from_youtube self env url []).
Proof.
  unfold adapter_contract. run_adapter. cbn.
  destruct (YoutubeDL env (ydl_opts self) url) as [[file ex]|e]; cbn; [|auto].
  destruct ((endswith file ".webm" || endswith file ".m4a")
            && ex (fst (splitext file) +:+ ".mp3")) eqn:E; cbn.
  - apply andb_prop in E as [_ E]. repeat split. left. eauto 6.
  - destruct (ex file) eqn:E'; cbn; repeat split; [left; eauto 6 | right; auto].
Qed.

Lemma soundcloud_contract (self : t) (env : Env) (url : string) :
  adapter_contract env soundcloud_opts url (_download_from_soundcloud self env url []).
Proof.
  unfold adapter_contract. run_adapter. cbn.
  destruct (YoutubeDL env soundcloud_opts url) as [[file ex]|e]; cbn; [|auto].
  destruct ((endswith file ".webm" || endswith file ".m4a")
            && ex (fst (splitext file) +:+ ".mp3")) eqn:E; cbn.
  - apply andb_prop in E as [_ E]. repeat split. left. eauto 6.
  - destruct (ex file) eqn:E'; cbn; repeat split; [left; eauto 6 | right; auto].
Qed.

Lemma tiktok_contract (self : t) (env : Env) (url : string) :
  adapter_contract env tiktok_opts url (_download_from_tiktok self env url []).
Proof.
  unfold adapter_contract. run_adapter. cbn.
  destruct (YoutubeDL env tiktok_opts url) as [[file ex]|e]; cbn; [|auto].
  destruct (ex file) eqn:E'; cbn; repeat split; [left; eauto 6 | right; auto].
Qed.

Lemma pinterest_contract (self : t) (env : Env) (url : string) :
  adapter_contract env pinterest_opts url (_download_from_pinterest self env url []).
Proof.
  unfold adapter_contract. run_adapter. cbn.
  destruct (YoutubeDL env pinterest_opts url) as [[file ex]|e]; cbn; [|auto].
  destruct (ex file) eqn:E'; cbn; repeat split; [left; eauto 6 | right; auto].
Qed.

(** X19.  [download_from_url] on an address of a platform that is fetched through
    yt-dlp: no exception leaves it, yt-dlp is asked exactly once, with the
    option set of that platform, a path that it returns names a file that
    exists when yt-dlp is done, and a failure of yt-dlp gives [None]. *)
Theorem download_from_url_contract (self : t) (env : Env) (url platform : string) :
  _get_platform_from_url url = Some platform ->
  platform <> "instagram" ->
  adapter_contract env (options_for self platform) url (download_from_url self env url []).
Proof.
  intros Hp Hne.
  assert (Hrun : forall c : M trace (option string),
            (exists r, fst (c []) = Returned r) ->
            try_except c
              (fun e => log_exn ERROR ("Error downloading from URL " +:+ url +:+ ": ") e;;
                        ret None) [] = c []).
  { intros c [r Hr]. unfold try_except. destruct (c []) as [[a|e] tr]; [reflexivity|].
    discriminate. }
  assert (Hcontract : forall opts run, adapter_contract env opts url run ->
            exists r, fst run = Returned r).
  { intros opts run (_ & H).
    destruct (YoutubeDL env opts url) as [[file ex]|e]; [|eauto].
    destruct H as [(path & H & _)|[H _]]; eauto. }
  pose proof (_get_platform_from_url_range _ _ Hp) as Hrange.
  unfold download_from_url. rewrite Hp.
  cbn in Hrange.
  destruct Hrange as [<-|[<-|[<-|[<-|[<-|[]]]]]]; try congruence;
    repeat (rewrite decide_False by discriminate);
    rewrite decide_True by reflexivity; cbn [options_for String.eqb Ascii.eqb Bool.eqb].
  - rewrite Hrun; [apply youtube_contract|].
    apply (Hcontract _ _ (youtube_contract self env url)).
  - rewrite Hrun; [apply tiktok_contract|].
    apply (Hcontract _ _ (tiktok_contract self env url)).
  - rewrite Hrun; [apply pinterest_contract|].
    apply (Hcontract _ _ (pinterest_contract self env url)).
  - rewrite Hrun; [apply soundcloud_contract|].
    apply (Hcontract _ _ (soundcloud_contract self env url)).
Qed.

Lemma download_from_url_contract_witness :
  adapter_contract Scenario.transcoding_ydl (options_for (__init__ true) "youtube")
    "https://youtu.be/abc"
    (download_from_url (__init__ true) Scenario.transcoding_ydl "https://youtu.be/abc" []).
Proof.
  apply download_from_url_contract; [vm_compute; reflexivity | discriminate].
Defined.

(** An address that no platform claims: [download_from_url] returns
    [None], logs the error, asks no backend and starts no process. *)
Lemma download_from_url_unsupported (self : t) (env : Env) (url : string) :
  _get_platform_from_url url = None ->
  download_from_url self env url []
  = (Returned None, [Logged (Log ERROR "Unsupported platform: None")]).
Proof.
  intros Hp. unfold download_from_url. rewrite Hp.
  repeat (rewrite decide_False by discriminate). reflexivity.
Qed.

Lemma download_from_url_unsupported_witness :
  download_from_url (__init__ true) Scenario.transcoding_ydl "https://example.org/x" []
  = (Returned None, [Logged (Log ERROR "Unsupported platform: None")]).
Proof. apply download_from_url_unsupported. vm_compute. reflexivity. Defined.

(** X20.  [download_song] asks yt-dlp once, for the search [ytsearch:] followed
    by the query and with the options of [__init__] made quiet; it never
    raises, and a path that it returns names a file that exists when yt-dlp
    is done: the file yt-dlp named, or one with the same root and one of the
    four audio extensions. *)
Theorem download_song_contract (self : t) (env : Env) (query : string) :
  let run := download_song self env query [] in
  let target := "ytsearch:" +:+ query in
  requested_options (snd run) = [search_opts self]
  /\ spawned (snd run) = []
  /\ match YoutubeDL env (search_opts self) target with
     | Returned (file, exists_) =>
         (exists path, fst run = Returned (Some path) /\ exists_ path = true
            /\ (path = file
                \/ exists ext, In ext [".mp3"; ".m4a"; ".webm"; ".opus"]
                               /\ path = fst (splitext file) +:+ ext))
         \/ (fst run = Returned None /\ exists_ file = false)
     | Raised e => fst run = Returned None
     end.
Proof.
  intros run target. subst run target. unfold download_song.
  set (opts := search_opts self). set (target := "ytsearch:" +:+ query).
  run_adapter.
  destruct (YoutubeDL env opts target) as [[file ex]|e];
    destruct (ffmpeg_available self); cbn -[find]; auto.
  all: destruct (ex file) eqn:E; cbn -[find]; [repeat split; left; eauto 6|].
  all: destruct (find _ _) as [ext|] eqn:F; cbn; repeat split; auto.
  all: apply find_some in F as [Hin Hex]; left;
    exists (fst (splitext file) +:+ ext); repeat split; auto; right; exists ext; auto.
Qed.

Lemma append_assoc (a b c : string) : (a +:+ b) +:+ c = a +:+ b +:+ c.
Proof.
  induction a as [|x a IH]; [reflexivity|].
  rewrite !append_cons. now rewrite IH.
Qed.

Lemma str_in_char (c a : ascii) (t : string) :
  str_in (String c "") (String a t) = Ascii.eqb c a || str_in (String c "") t.
Proof.
  cbn [str_in String.prefix].
  destruct (ascii_dec c a) as [->|Hne].
  - rewrite Ascii.eqb_refl. now destruct t.
  - apply Ascii.eqb_neq in Hne. now rewrite Hne.
Qed.

Lemma str_in_char_nil (c : ascii) : str_in (String c "") "" = false.
Proof. reflexivity. Qed.

(** [before_first] gives a prefix, and what follows it starts with the
    separator. *)
Lemma before_first_prefix (sep : ascii) (s : string) :
  exists post, s = before_first sep s +:+ post
               /\ match post with
                  | EmptyString => True
                  | String c _ => c = sep
                  end.
Proof.
  induction s as [|c s (post & IH & Hpost)]; cbn [before_first].
  - exists "". auto.
  - destruct (Ascii.eqb c sep) eqn:E.
    + apply Ascii.eqb_eq in E. exists (String c s). auto.
    + exists post. rewrite append_cons, <- IH. auto.
Qed.

Lemma before_first_free (sep : ascii) (s : string) :
  str_in (String sep "") (before_first sep s) = false.
Proof.
  induction s as [|c s IH]; cbn [before_first]; [reflexivity|].
  destruct (Ascii.eqb c sep) eqn:E; [reflexivity|].
  rewrite str_in_char, IH, Ascii.eqb_sym, E. reflexivity.
Qed.

Lemma before_first_keeps_free (c sep : ascii) (s : string) :
  str_in (String c "") s = false ->
  str_in (String c "") (before_first sep s) = false.
Proof.
  induction s as [|a s IH]; cbn [before_first]; [auto|].
  rewrite str_in_char. intros [Ha Hs]%orb_false_iff.
  destruct (Ascii.eqb a sep); [reflexivity|].
  rewrite str_in_char, Ha, IH; auto.
Qed.

Lemma up_to_slash_before_first (s : string) : up_to_slash s = before_first "/" s.
Proof. induction s as [|c s IH]; cbn; [|rewrite IH]; reflexivity. Qed.

Lemma drop_chars_app (a b : string) : drop_chars (String.length a) (a +:+ b) = b.
Proof. induction a as [|c a IH]; [reflexivity|]. rewrite append_cons. exact IH. Qed.

Lemma match_here_inv (literal s group : string) :
  match_here literal s = Some group ->
  exists rest, s = literal +:+ rest /\ group = before_first "/" rest.
Proof.
  unfold match_here. destruct (String.prefix literal s) eqn:P; [|discriminate].
  apply prefix_spec in P as [rest ->]. rewrite drop_chars_app, up_to_slash_before_first.
  intros H. exists rest. split; [reflexivity|].
  destruct (before_first "/" rest); [discriminate | congruence].
Qed.

Lemma search_group_inv (literal s group : string) :
  search_group literal s = Some group ->
  exists pre rest, s = pre +:+ literal +:+ rest /\ group = before_first "/" rest.
Proof.
  induction s as [|c s IH]; cbn [search_group].
  - destruct (match_here literal "") eqn:M; [|discriminate].
    intros [= ->]. apply match_here_inv in M as (rest & H & Hg). exists "", rest. auto.
  - destruct (match_here literal (String c s)) eqn:M.
    + intros [= ->]. apply match_here_inv in M as (rest & H & Hg). exists "", rest. auto.
    + intros (pre & rest & -> & Hg)%IH. exists (String c pre), rest. auto.
Qed.

(** Where the short code sits in the address. *)
Lemma shortcode_position (url shortcode : string) :
  _extract_instagram_shortcode url = Some shortcode ->
  exists literal pre rest,
    In literal [ "instagram.com/p/"; "instagram.com/reel/"; "instagr.am/p/" ]
    /\ url = pre +:+ literal +:+ rest
    /\ shortcode = before_first "?" (before_first "/" (before_first "/" rest)).
Proof.
  unfold _extract_instagram_shortcode.
  destruct (find _ _) as [literal|] eqn:F; [|discriminate].
  apply find_some in F as [Hin _].
  destruct (search_group literal url) as [group|] eqn:G; [|discriminate].
  intros [= <-]. apply search_group_inv in G as (pre & rest & -> & ->).
  exists literal, pre, rest. auto.
Qed.

Lemma before_first_idem (sep : ascii) (s : string) :
  before_first sep (before_first sep s) = before_first sep s.
Proof.
  induction s as [|c s IH]; cbn [before_first]; [reflexivity|].
  destruct (Ascii.eqb c sep) eqn:E; [reflexivity|].
  cbn [before_first]. rewrite E, IH. reflexivity.
Qed.

(** X21.  The short code that [_extract_instagram_shortcode] returns holds
    neither a slash nor a question mark, and it stands in the address right
    after one of the three path prefixes and right before the end, a slash
    or a question mark. *)
Theorem instagram_shortcode_is_a_segment (url shortcode : string) :
  _extract_instagram_shortcode url = Some shortcode ->
  str_in "/" shortcode = false
  /\ str_in "?" shortcode = false
  /\ exists literal pre post,
       In literal [ "instagram.com/p/"; "instagram.com/reel/"; "instagr.am/p/" ]
       /\ url = pre +:+ literal +:+ shortcode +:+ post
       /\ match post with
          | EmptyString => True
          | String c _ => c = "/"%char \/ c = "?"%char
          end.
Proof.
  intros (literal & pre & rest & Hin & -> & ->)%shortcode_position.
  rewrite before_first_idem. split; [|split].
  - apply before_first_keeps_free, before_first_free.
  - apply before_first_free.
  - exists literal, pre.
    destruct (before_first_prefix "/" rest) as (post1 & H1 & Hp1).
    destruct (before_first_prefix "?" (before_first "/" rest)) as (post2 & H2 & Hp2).
    exists (post2 +:+ post1). split; [exact Hin|]. split.
    + rewrite <- (append_assoc _ post2 post1), <- H2, <- H1. reflexivity.
    + destruct post2 as [|c post2]; [|rewrite append_cons; auto].
      rewrite append_nil_l. destruct post1; auto.
Qed.

Lemma instagram_shortcode_is_a_segment_witness :
  str_in "/" "Cabc123" = false
  /\ str_in "?" "Cabc123" = false
  /\ exists literal pre post,
       In literal [ "instagram.com/p/"; "instagram.com/reel/"; "instagr.am/p/" ]
       /\ "https://www.instagram.com/reel/Cabc123/?igshid=1"
          = pre +:+ literal +:+ "Cabc123" +:+ post
       /\ match post with
          | EmptyString => True
          | String c _ => c = "/"%char \/ c = "?"%char
          end.
Proof.
  apply (instagram_shortcode_is_a_segment
           "https://www.instagram.com/reel/Cabc123/?igshid=1" "Cabc123").
  vm_compute. reflexivity.
Defined.

(** X22.  An address from which a short code can be taken is one that the
    classifier of the downloader gives to Instagram, unless a YouTube host
    name occurs in it too. *)
Theorem shortcode_implies_instagram_address (url shortcode : string) :
  _extract_instagram_shortcode url = Some shortcode ->
  _get_platform_from_url url = Some "instagram"
  \/ _get_platform_from_url url = Some "youtube".
Proof.
  intros (literal & pre & rest & Hin & -> & _)%shortcode_position.
  assert (Hhost : str_in "instagram.com" (lower (pre +:+ literal +:+ rest))
                  || str_in "instagr.am" (lower (pre +:+ literal +:+ rest)) = true).
  { apply orb_true_iff. rewrite !lower_app.
    cbn in Hin. destruct Hin as [<-|[<-|[<-|[]]]]; [left|left|right];
      apply str_in_spec; exists (lower pre).
    - exists ("/p/" +:+ lower rest). reflexivity.
    - exists ("/reel/" +:+ lower rest). reflexivity.
    - exists ("/p/" +:+ lower rest). reflexivity. }
  unfold _get_platform_from_url. cbv zeta. rewrite Hhost.
  match goal with |- context [if ?c then Some "youtube" else _] => destruct c end;
    cbn; auto.
Qed.

Lemma shortcode_implies_instagram_address_witness :
  _get_platform_from_url "https://instagr.am/p/XYZ" = Some "instagram"
  \/ _get_platform_from_url "https://instagr.am/p/XYZ" = Some "youtube".
Proof.
  apply (shortcode_implies_instagram_address "https://instagr.am/p/XYZ" "XYZ").
  vm_compute. reflexivity.
Defined.

End DownloaderMore.

(** ** The helpers, further *)

Section HelpersFacts.
Import Py Helpers.

Lemma string_length_app (a b : string) :
  String.length (a +:+ b) = (String.length a + String.length b)%nat.
Proof. induction a as [|c a IH]; [reflexivity|]. rewrite append_cons. cbn. now rewrite IH. Qed.

Lemma length_substring_0 (k : nat) (s : string) :
  String.length (String.substring 0 k s) = Nat.min k (String.length s).
Proof.
  revert k. induction s as [|c s IH]; intros [|k]; cbn; try reflexivity.
  now rewrite IH.
Qed.

(** *** Decimal digits *)

Lemma pretty_N_char_facts (d : N) :
  is_space (pretty_N_char d) = false
  /\ pretty_N_char d <> "-"%char
  /\ pretty_N_char d <> "+"%char
  /\ Ascii.eqb (pretty_N_char d) ":" = false.
Proof. unfold pretty_N_char. repeat case_match; repeat split; (reflexivity || discriminate). Qed.

Lemma pretty_N_char_value (d : N) :
  (d < 10)%N -> digit_value (pretty_N_char d) = Some (Z.of_N d).
Proof.
  intros Hd.
  assert (d = 0 \/ d = 1 \/ d = 2 \/ d = 3 \/ d = 4 \/ d = 5 \/ d = 6 \/ d = 7
          \/ d = 8 \/ d = 9)%N as H by lia.
  repeat (destruct H as [->|H]; [reflexivity|]). subst. reflexivity.
Qed.

(** Reading the digits that [pretty_N_go] writes gives the number back. *)
Lemma int_digits_pretty_N_go (x : N) :
  exists k : Z, 0 <= k /\ forall s acc b,
    int_digits (pretty_N_go x s) acc b
    = int_digits s (acc * 10 ^ k + Z.of_N x) (b || (0 <? x)%N).
Proof.
  induction (N.lt_wf_0 x) as [x _ IH].
  assert (x = 0 \/ 0 < x)%N as [->|Hx] by lia.
  - exists 0. split; [lia|]. intros s acc b. rewrite pretty_N_go_0, orb_false_r.
    f_equal. lia.
  - destruct (IH (x `div` 10)%N) as (k & Hk & H); [now apply N.div_lt|].
    exists (k + 1). split; [lia|]. intros s acc b.
    rewrite pretty_N_go_step, H by exact Hx. cbn [int_digits].
    rewrite pretty_N_char_value by (apply N.mod_lt; lia).
    assert (N.ltb 0 x = true) as -> by (apply N.ltb_lt; exact Hx).
    rewrite orb_true_r. f_equal.
    rewrite Z.pow_add_r, Z.pow_1_r by lia.
    rewrite N2Z.inj_div, N2Z.inj_mod.
    pose proof (Z.div_mod (Z.of_N x) 10). lia.
Qed.

Lemma rstrip_cons (c : ascii) (t : string) :
  is_space c = false -> rstrip (String c t) = String c (rstrip t).
Proof. intros Hc. cbn [rstrip]. rewrite Hc. now destruct (rstrip t). Qed.

Lemma rstrip_pretty_N_go (x : N) (s : string) :
  rstrip (pretty_N_go x s) = pretty_N_go x (rstrip s).
Proof.
  revert s. induction (N.lt_wf_0 x) as [x _ IH]; intros s.
  assert (x = 0 \/ 0 < x)%N as [->|Hx] by lia.
  - now rewrite !pretty_N_go_0.
  - rewrite (pretty_N_go_step x s), (pretty_N_go_step x (rstrip s)) by exact Hx.
    rewrite IH by now apply N.div_lt.
    rewrite rstrip_cons by apply pretty_N_char_facts. reflexivity.
Qed.

Lemma colon_free_pretty_N_go (x : N) (s : string) :
  str_in ":" s = false -> str_in ":" (pretty_N_go x s) = false.
Proof.
  revert s. induction (N.lt_wf_0 x) as [x _ IH]; intros s Hs.
  assert (x = 0 \/ 0 < x)%N as [->|Hx] by lia.
  - now rewrite pretty_N_go_0.
  - rewrite pretty_N_go_step by exact Hx. apply IH; [now apply N.div_lt|].
    rewrite str_in_char, Hs, Ascii.eqb_sym.
    now destruct (pretty_N_char_facts (x `mod` 10)) as (_ & _ & _ & ->).
Qed.

Lemma head_pretty_N_go (x : N) (s : string) :
  (0 < x)%N -> exists d t, pretty_N_go x s = String (pretty_N_char d) t.
Proof.
  revert s. induction (N.lt_wf_0 x) as [x _ IH]; intros s Hx.
  rewrite pretty_N_go_step by exact Hx.
  destruct (N.eq_0_gt_0_cases (x `div` 10)) as [->|Hq].
  - rewrite pretty_N_go_0. eauto.
  - apply IH; [now apply N.div_lt | exact Hq].
Qed.

(** A literal that starts with neither white space nor a sign and has no
    white space at its end is read digit by digit. *)
Lemma int_literal_unsigned (c : ascii) (t : string) :
  is_space c = false -> c <> "-"%char -> c <> "+"%char ->
  rstrip (String c t) = String c t ->
  int_literal (String c t) = int_digits (String c t) 0 false.
Proof.
  intros Hspace Hminus Hplus Hr. unfold int_literal, strip.
  cbn [lstrip]. rewrite Hspace, Hr.
  destruct c as [[] [] [] [] [] [] [] []]; try reflexivity; congruence.
Qed.

Lemma pretty_nonneg_facts (n : Z) :
  0 <= n ->
  rstrip (pretty n) = pretty n
  /\ str_in ":" (pretty n) = false
  /\ (forall b, int_digits (pretty n) 0 b = Some n)
  /\ exists d t, pretty n = String (pretty_N_char d) t.
Proof.
  intros Hn. destruct n as [|p|p]; [| |lia].
  - repeat split; try reflexivity. exists 0%N, "". reflexivity.
  - change (pretty (Z.pos p)) with (pretty_N_go (N.pos p) "").
    split; [apply rstrip_pretty_N_go|].
    split; [now apply colon_free_pretty_N_go|].
    split; [|apply head_pretty_N_go; lia].
    intros b. destruct (int_digits_pretty_N_go (N.pos p)) as (k & _ & ->).
    cbn. now rewrite orb_true_r.
Qed.

(** [int] reads back what [str] wrote for a number that is not negative,
    also behind a zero. *)
Lemma int_literal_pretty (n : Z) : 0 <= n -> int_literal (pretty n) = Some n.
Proof.
  intros Hn. destruct (pretty_nonneg_facts n Hn) as (Hr & _ & Hd & d & t & Hhead).
  rewrite Hhead in Hr |- *.
  destruct (pretty_N_char_facts d) as (Hs & Hm & Hp & _).
  rewrite int_literal_unsigned by assumption. rewrite <- Hhead. apply Hd.
Qed.

Lemma int_literal_pad2 (n : Z) : 0 <= n -> int_literal (pad2 n) = Some n.
Proof.
  intros Hn. unfold pad2. cbv zeta.
  destruct (String.length (pretty n) <? 2)%nat; [|now apply int_literal_pretty].
  destruct (pretty_nonneg_facts n Hn) as (Hr & _ & Hd & _).
  rewrite append_cons, append_nil_l.
  rewrite int_literal_unsigned; try discriminate; try reflexivity.
  - cbn [int_digits]. apply Hd.
  - rewrite rstrip_cons by reflexivity. now rewrite Hr.
Qed.

Lemma colon_free_pad2 (n : Z) : 0 <= n -> str_in ":" (pad2 n) = false.
Proof.
  intros Hn. unfold pad2. cbv zeta.
  destruct (pretty_nonneg_facts n Hn) as (_ & Hc & _).
  destruct (String.length (pretty n) <? 2)%nat; [|exact Hc].
  rewrite append_cons, append_nil_l, str_in_char, Hc. reflexivity.
Qed.

(** *** [split] *)

Lemma split_colon_free (a : string) :
  str_in ":" a = false -> split ":" a = [a].
Proof.
  induction a as [|c a IH]; [reflexivity|].
  rewrite str_in_char. intros [Hc Ha]%orb_false_iff.
  cbn [split]. rewrite Ascii.eqb_sym, Hc, IH by exact Ha. reflexivity.
Qed.

Lemma split_at_first_colon (a rest : string) :
  str_in ":" a = false ->
  split ":" (a +:+ ":" +:+ rest) = a :: split ":" rest.
Proof.
  induction a as [|c a IH].
  - intros _. reflexivity.
  - rewrite str_in_char. intros [Hc Ha]%orb_false_iff.
    rewrite append_cons. cbn [split]. rewrite Ascii.eqb_sym, Hc, IH by exact Ha.
    reflexivity.
Qed.

(** X23.  What [format_duration] writes, [parse_duration_string] reads back:
    the number of seconds, and [0] for a duration that is not positive. *)
Theorem format_duration_then_parse {S} (seconds : Z) (st : S) :
  parse_duration_string (format_duration seconds) st
  = (Returned (Z.max seconds 0), st).
Proof.
  unfold format_duration.
  destruct (seconds <=? 0) eqn:Hsign.
  - apply Z.leb_le in Hsign. rewrite Z.max_r by lia. reflexivity.
  - apply Z.leb_gt in Hsign. rewrite Z.max_l by lia.
    set (s := seconds mod 60). set (m := (seconds / 60) mod 60).
    set (h := seconds / 60 / 60).
    assert (0 <= s < 60) as Hs by (apply Z.mod_pos_bound; lia).
    assert (0 <= m < 60) as Hm by (apply Z.mod_pos_bound; lia).
    assert (0 <= h) as Hh by (subst h; repeat apply Z.div_pos; lia).
    assert (seconds = h * 3600 + m * 60 + s) as Hsum.
    { subst h m s. pose proof (Z.div_mod seconds 60).
      pose proof (Z.div_mod (seconds / 60) 60). lia. }
    cbv beta iota zeta.
    fold s. fold m. fold h.
    unfold parse_duration_string, try_except.
    destruct (0 <? h) eqn:Hhours.
    + rewrite split_at_first_colon by (apply pretty_nonneg_facts; exact Hh).
      rewrite split_at_first_colon by (apply colon_free_pad2; lia).
      rewrite split_colon_free by (apply colon_free_pad2; lia).
      unfold bind, int.
      rewrite int_literal_pretty, !int_literal_pad2 by lia.
      cbn [ret]. do 2 f_equal. lia.
    + apply Z.ltb_ge in Hhours. assert (h = 0) as Hzero by lia.
      rewrite split_at_first_colon by (apply pretty_nonneg_facts; lia).
      rewrite split_colon_free by (apply colon_free_pad2; lia).
      unfold bind, int.
      rewrite int_literal_pretty, !int_literal_pad2 by lia.
      cbn [ret]. do 2 f_equal. lia.
Qed.

(** *** [truncate_text] *)

Lemma length_slice_to (s : string) (stop : Z) :
  Z.of_nat (String.length (slice_to s stop))
  = if stop <? 0 then Z.max (Z.of_nat (String.length s) + stop) 0
    else Z.min stop (Z.of_nat (String.length s)).
Proof.
  unfold slice_to. cbv zeta. rewrite length_substring_0.
  destruct (stop <? 0) eqn:E; [apply Z.ltb_lt in E | apply Z.ltb_ge in E]; lia.
Qed.

(** X24.  With room for the ellipsis, the text that [truncate_text] returns is
    as long as the original or as long as the limit, whichever is less. *)
Theorem truncate_text_fits (text : string) (max_length : Z) :
  3 <= max_length ->
  Z.of_nat (String.length (truncate_text text max_length))
  = Z.min (Z.of_nat (String.length text)) max_length.
Proof.
  intros Hmax. unfold truncate_text.
  destruct (Z.of_nat (String.length text) <=? max_length) eqn:E;
    [apply Z.leb_le in E | apply Z.leb_gt in E]; [lia|].
  rewrite string_length_app, Nat2Z.inj_add, length_slice_to.
  assert ((max_length - 3 <? 0) = false) as -> by (apply Z.ltb_ge; lia).
  cbn [String.length]. lia.
Qed.

Lemma truncate_text_fits_witness :
  Z.of_nat (String.length (truncate_text "abcdefghij" 5))
  = Z.min (Z.of_nat (String.length "abcdefghij")) 5.
Proof. apply (truncate_text_fits "abcdefghij" 5). lia. Defined.

(** X25.  Below three, the limit is not kept: a text longer than the limit comes
    back longer than the limit, since the ellipsis alone takes three
    characters and a negative slice bound counts from the end. *)
Theorem truncate_text_overruns (text : string) (max_length : Z) :
  max_length < 3 ->
  max_length < Z.of_nat (String.length text) ->
  max_length < Z.of_nat (String.length (truncate_text text max_length))
  /\ Z.of_nat (String.length (truncate_text text max_length))
     = Z.max (Z.of_nat (String.length text) + max_length) 3.
Proof.
  intros Hmax Hlong. unfold truncate_text.
  assert ((Z.of_nat (String.length text) <=? max_length) = false) as ->
    by (apply Z.leb_gt; lia).
  rewrite string_length_app, Nat2Z.inj_add, length_slice_to.
  assert ((max_length - 3 <? 0) = true) as -> by (apply Z.ltb_lt; lia).
  cbn [String.length]. lia.
Qed.

Lemma truncate_text_overruns_witness :
  2 < Z.of_nat (String.length (truncate_text "abcdefghij" 2))
  /\ Z.of_nat (String.length (truncate_text "abcdefghij" 2))
     = Z.max (Z.of_nat (String.length "abcdefghij") + 2) 3.
Proof. apply (truncate_text_overruns "abcdefghij" 2); [lia | cbn; lia]. Defined.

(** *** [sanitize_filename] *)

Lemma free_remove_characters (class : ascii -> bool) (c : ascii) (s : string) :
  class c = true -> str_in (String c "") (remove_characters class s) = false.
Proof.
  intros Hc. induction s as [|a s IH]; [reflexivity|]. cbn [remove_characters].
  destruct (class a) eqn:Ha; [exact IH|].
  rewrite str_in_char, IH, orb_false_r.
  apply Ascii.eqb_neq. congruence.
Qed.

Lemma free_lstrip_chars (chars : ascii -> bool) (c : ascii) (s : string) :
  str_in (String c "") s = false ->
  str_in (String c "") (lstrip_chars chars s) = false.
Proof.
  induction s as [|a s IH]; [auto|]. cbn [lstrip_chars].
  destruct (chars a); [|auto].
  rewrite str_in_char. intros [_ Hs]%orb_false_iff. auto.
Qed.

Lemma free_rstrip_chars (chars : ascii -> bool) (c : ascii) (s : string) :
  str_in (String c "") s = false ->
  str_in (String c "") (rstrip_chars chars s) = false.
Proof.
  induction s as [|a s IH]; [auto|]. cbn [rstrip_chars].
  rewrite str_in_char. intros [Ha Hs]%orb_false_iff. specialize (IH Hs).
  destruct (rstrip_chars chars s) as [|b t].
  - destruct (chars a); [reflexivity|]. now rewrite str_in_char, Ha.
  - now rewrite str_in_char, Ha, IH.
Qed.

Lemma free_substring_0 (k : nat) (c : ascii) (s : string) :
  str_in (String c "") s = false ->
  str_in (String c "") (String.substring 0 k s) = false.
Proof.
  revert k. induction s as [|a s IH]; intros [|k]; try reflexivity.
  rewrite str_in_char. intros [Ha Hs]%orb_false_iff.
  cbn [String.substring]. now rewrite str_in_char, Ha, IH.
Qed.

(** What is left after [strip] starts with a character that [strip] does
    not take, unless nothing is left. *)
Lemma head_strip_chars (chars : ascii -> bool) (s : string) :
  strip_chars chars s = ""
  \/ exists c t, strip_chars chars s = String c t /\ chars c = false.
Proof.
  unfold strip_chars. induction s as [|a s IH]; [left; reflexivity|].
  cbn [lstrip_chars]. destruct (chars a) eqn:Ha; [exact IH|].
  right. cbn [rstrip_chars]. destruct (rstrip_chars chars s); rewrite ?Ha; eauto.
Qed.

(** X26.  The name that [sanitize_filename] returns is never empty, is at most
    200 characters long, holds none of the characters that the function
    removes, and starts with neither a dot nor a space. *)
Theorem sanitize_filename_safe (filename : string) :
  let name := sanitize_filename filename in
  (1 <= String.length name <= 200)%nat
  /\ (forall c, invalid_character c = true -> str_in (String c "") name = false)
  /\ exists c t, name = String c t /\ dot_or_space c = false.
Proof.
  cbv zeta. unfold sanitize_filename. cbv zeta.
  set (clean := remove_characters invalid_character filename).
  assert (Hclean : forall c, invalid_character c = true ->
                             str_in (String c "") (strip_chars dot_or_space clean) = false).
  { intros c Hc. apply free_rstrip_chars, free_lstrip_chars, free_remove_characters, Hc. }
  assert (Hunnamed : forall c, invalid_character c = true ->
                               str_in (String c "") "unnamed" = false).
  { intros c Hc. unfold invalid_character in Hc.
    apply existsb_exists in Hc as (x & Hin & Hx). apply Ascii.eqb_eq in Hx as <-.
    cbn in Hin. repeat (destruct Hin as [<-|Hin]; [reflexivity|]). destruct Hin. }
  destruct (head_strip_chars dot_or_space clean) as [Hempty|(c & t & Hhead & Hc)].
  - rewrite Hempty. cbn. repeat split; try lia; eauto.
  - rewrite Hhead in Hclean |- *.
    destruct (200 <? String.length (String c t))%nat eqn:Hlong.
    + cbn [String.substring String.eqb]. change (200 - 0)%nat with 200%nat in *.
      split; [|split].
      * change (String c (String.substring 0 199 t))
          with (String.substring 0 200 (String c t)).
        rewrite length_substring_0. apply Nat.ltb_lt in Hlong. lia.
      * intros x Hx. apply (free_substring_0 200 x (String c t)), Hclean, Hx.
      * eauto.
    + apply Nat.ltb_ge in Hlong. cbn [String.eqb].
      split; [cbn [String.length] in *; lia|]. split; [exact Hclean | eauto].
Qed.

End HelpersFacts.

(** ** The recognizer, further *)

Section RecognizerMore.
Import Py SongRecognizer.

(** The dictionary of a track without ['hub'] cannot be built: the look-up
    of the second streaming option raises. *)
Lemma track_info_of_without_hub {S} (entries : dict pyval) (s : S) :
  dict_get "hub" entries = None ->
  exists e, fst (track_info_of (PDict entries) s) = Raised e.
Proof.
  intros Hhub. unfold track_info_of.
  do 8 (apply bind_raises; intros ? ?).
  unfold py_get at 1. rewrite Hhub.
  exists IndexError. reflexivity.
Qed.

(** The loop raises as soon as one element does. *)
Lemma collect_raises {S A} (f : pyval -> M S A) (items : list pyval) (x : pyval) :
  In x items ->
  (forall s, exists e, fst (f x s) = Raised e) ->
  forall out s, exists e, fst (collect f items out s) = Raised e.
Proof.
  intros Hin Hx. induction items as [|y rest IH]; [destruct Hin|].
  intros out s. cbn [collect]. unfold bind.
  destruct (f y s) as [[a|e] s'] eqn:E; [|eauto].
  destruct Hin as [->|Hin]; [|auto].
  destruct (Hx s) as [e He]. rewrite E in He. discriminate.
Qed.

Lemma or_empty_raised {A} (body : M (list exn) (list A)) (logged : list exn) :
  (exists e, fst (body logged) = Raised e) ->
  fst (or_empty body logged) = Returned [].
Proof.
  intros [e He]. unfold or_empty, try_except.
  destruct (body logged) as [[a|e'] logged']; [discriminate|reflexivity].
Qed.

(** X27.  One hit without ['hub'] among the hits of a search, and [search_song]
    returns the empty list: the records built for the other hits are
    dropped with it. *)
Theorem search_song_all_or_nothing (shazam : Shazam) (query : string)
    (response tracks hit entries : dict pyval) (hits : list pyval)
    (logged : list exn) :
  shazam_search_track shazam query 10 = Returned (PDict response) ->
  dict_get "tracks" response = Some (PDict tracks) ->
  dict_get "hits" tracks = Some (PList hits) ->
  In (PDict hit) hits ->
  dict_get "track" hit = Some (PDict entries) ->
  dict_get "hub" entries = None ->
  fst (search_song shazam query logged) = Returned [].
Proof.
  intros Hcall Htracks Hhits Hin Htrack Hhub.
  unfold search_song. apply or_empty_raised.
  unfold bind at 1, lift. rewrite Hcall.
  destruct response as [|kv response]; [discriminate|]. cbn [truthy].
  unfold bind at 1 2 3. unfold py_get at 1. rewrite Htracks. cbn [ret].
  unfold py_get at 1. rewrite Hhits. cbn [ret].
  destruct hits as [|h0 hits0]; [destruct Hin|]. cbn [truthy].
  unfold bind at 1. unfold py_item at 1. rewrite Htracks. cbn [ret].
  unfold bind at 1. unfold py_item at 1. rewrite Hhits. cbn [ret].
  unfold bind at 1. cbn [py_iter ret].
  apply (collect_raises _ _ (PDict hit) Hin).
  intros s. unfold bind at 1. unfold py_item. rewrite Htrack. cbn [ret].
  apply track_info_of_without_hub, Hhub.
Qed.

Lemma search_song_all_or_nothing_witness :
  fst (search_song Scenario.catalogue "song" []) = Returned [].
Proof.
  refine (search_song_all_or_nothing Scenario.catalogue "song" _ _
            [ ("track", PDict Scenario.bare_track) ] Scenario.bare_track _ []
            _ _ _ _ _ _);
    [reflexivity | reflexivity | reflexivity | right; left; reflexivity
    | reflexivity | reflexivity].
Defined.

Lemma tracks_of_without_hub (response entries : dict pyval) (tracks : list pyval)
    (s : list exn) :
  dict_get "tracks" response = Some (PList tracks) ->
  In (PDict entries) tracks ->
  dict_get "hub" entries = None ->
  exists e, fst (tracks_of (PDict response) s) = Raised e.
Proof.
  intros Hget Hin Hhub. unfold tracks_of.
  destruct response as [|kv response]; [discriminate|]. cbn [truthy].
  unfold bind at 1 2. unfold py_get at 1. rewrite Hget. cbn [ret].
  destruct tracks as [|t0 tracks0]; [destruct Hin|]. cbn [truthy].
  unfold bind at 1. unfold py_item at 1. rewrite Hget. cbn [ret].
  unfold bind at 1. cbn [py_iter ret].
  apply (collect_raises _ _ (PDict entries) Hin).
  intros s'. apply track_info_of_without_hub, Hhub.
Qed.

(** X28.  The same holds of the related tracks: one track without ['hub'] in the
    answer, and [get_related_tracks] returns the empty list. *)
Theorem get_related_tracks_all_or_nothing (shazam : Shazam) (track_id : string)
    (limit offset : Z) (response entries : dict pyval) (tracks : list pyval)
    (logged : list exn) :
  shazam_related_tracks shazam track_id limit offset = Returned (PDict response) ->
  dict_get "tracks" response = Some (PList tracks) ->
  In (PDict entries) tracks ->
  dict_get "hub" entries = None ->
  fst (get_related_tracks shazam track_id limit offset logged) = Returned [].
Proof.
  intros Hcall Hget Hin Hhub.
  unfold get_related_tracks. apply or_empty_raised.
  unfold bind at 1, lift. rewrite Hcall.
  apply (tracks_of_without_hub response entries tracks); assumption.
Qed.

Lemma get_related_tracks_all_or_nothing_witness :
  fst (get_related_tracks Scenario.catalogue "42" 5 0 []) = Returned [].
Proof.
  refine (get_related_tracks_all_or_nothing Scenario.catalogue "42" 5 0 _
            Scenario.bare_track _ [] _ _ _ _);
    [reflexivity | reflexivity | right; left; reflexivity | reflexivity].
Defined.

(** And of the charts, whichever of the three [get_top_tracks] asks for. *)
Lemma get_top_tracks_all_or_nothing (shazam : Shazam)
    (country_code city_name : option string) (limit : Z)
    (response entries : dict pyval) (tracks : list pyval) (logged : list exn) :
  requested_chart shazam country_code city_name limit = Returned (PDict response) ->
  dict_get "tracks" response = Some (PList tracks) ->
  In (PDict entries) tracks ->
  dict_get "hub" entries = None ->
  fst (get_top_tracks shazam country_code city_name limit logged) = Returned [].
Proof.
  intros Hcall Hget Hin Hhub.
  unfold get_top_tracks. apply or_empty_raised.
  assert (Hlift : forall s : list exn,
            (if given city_name && given country_code
             then lift (shazam_top_city_tracks shazam country_code city_name limit)
             else if given country_code
                  then lift (shazam_top_country_tracks shazam country_code limit)
                  else lift (shazam_top_world_tracks shazam limit)) s
            = (Returned (PDict response), s)).
  { intros s. unfold requested_chart in Hcall. unfold lift.
    destruct (given city_name && given country_code); [now rewrite Hcall|].
    destruct (given country_code); now rewrite Hcall. }
  unfold bind at 1. rewrite Hlift.
  apply (tracks_of_without_hub response entries tracks); assumption.
Qed.

Lemma get_top_tracks_all_or_nothing_witness :
  fst (get_top_tracks Scenario.catalogue (Some "IR") (Some "Tehran") 10 [])
  = Returned [].
Proof.
  refine (get_top_tracks_all_or_nothing Scenario.catalogue (Some "IR") (Some "Tehran")
            10 _ Scenario.bare_track _ [] _ _ _ _);
    [reflexivity | reflexivity | right; left; reflexivity | reflexivity].
Defined.

Lemma collect_artists (hits : list pyval) :
  forallb readable_artist_hit hits = true ->
  forall (out : list (dict pyval)) (s : list exn),
  exists infos,
    collect (fun hit => artist ← py_item hit "artist"; artist_info_of artist)
      hits out s = (Returned (out ++ infos), s)
    /\ length infos = length hits
    /\ Forall (fun info => map fst info = ["id"; "name"; "genre"; "image_url"; "verified"])
         infos.
Proof.
  induction hits as [|hit hits IH]; intros Hall out s.
  - exists []. rewrite app_nil_r. auto.
  - cbn [forallb] in Hall. apply andb_prop in Hall as [Hhit Hall].
    destruct hit as [| | | | |entries]; try discriminate.
    cbn [readable_artist_hit] in Hhit.
    destruct (dict_get "artist" entries) as [[| | | | |artist]|] eqn:Hartist;
      try discriminate.
    assert (Hinfo : exists info,
              (artist ← py_item (PDict entries) "artist"; artist_info_of artist) s
              = (Returned info, s)
              /\ map fst info = ["id"; "name"; "genre"; "image_url"; "verified"]).
    { unfold bind at 1. unfold py_item. rewrite Hartist. cbn [ret].
      unfold artist_info_of, bind, py_get, ret.
      destruct (dict_get "id" artist), (dict_get "name" artist),
        (dict_get "avatar" artist), (dict_get "verified" artist);
        destruct (dict_get "genres" artist) as [[| | | | |genres]|];
        try discriminate;
        try destruct (dict_get "primary" genres); cbn; eauto. }
    destruct Hinfo as (info & Hrun & Hkeys).
    cbn [collect]. unfold bind at 1. rewrite Hrun.
    destruct (IH Hall (out ++ [info]) s) as (infos & Hrest & Hlen & Hall').
    exists (info :: infos). rewrite Hrest.
    split; [now rewrite <- app_assoc|]. split; [cbn; lia|]. constructor; auto.
Qed.

(** X29.  [search_artist] reads its hits with [get] alone, so it does not share
    the weakness of the track listings: when every hit is a dictionary with
    an ['artist'] dictionary, it returns one record of five entries for each
    hit and logs nothing. *)
Theorem search_artist_one_record_per_hit (shazam : Shazam) (query : string)
    (limit : Z) (response artists : dict pyval) (hits : list pyval)
    (logged : list exn) :
  shazam_search_artist shazam query limit = Returned (PDict response) ->
  dict_get "artists" response = Some (PDict artists) ->
  dict_get "hits" artists = Some (PList hits) ->
  forallb readable_artist_hit hits = true ->
  exists infos,
    search_artist shazam query limit logged = (Returned infos, logged)
    /\ length infos = length hits
    /\ Forall (fun info => map fst info = ["id"; "name"; "genre"; "image_url"; "verified"])
         infos.
Proof.
  intros Hcall Hartists Hhits Hall.
  unfold search_artist, or_empty, try_except.
  unfold bind at 1, lift. rewrite Hcall.
  destruct response as [|kv response]; [discriminate|]. cbn [truthy].
  unfold bind at 1 2 3. unfold py_get at 1. rewrite Hartists. cbn [ret].
  unfold py_get at 1. rewrite Hhits. cbn [ret].
  destruct hits as [|h0 hits0]; [exists []; auto|]. cbn [truthy].
  unfold bind at 1. unfold py_item at 1. rewrite Hartists. cbn [ret].
  unfold bind at 1. unfold py_item at 1. rewrite Hhits. cbn [ret].
  unfold bind at 1. cbn [py_iter ret].
  destruct (collect_artists (h0 :: hits0) Hall [] logged) as (infos & -> & Hlen & Hkeys).
  exists infos. auto.
Qed.

Lemma search_artist_one_record_per_hit_witness :
  exists infos,
    search_artist Scenario.catalogue "ann" 5 [] = (Returned infos, [])
    /\ length infos = length Scenario.artist_hits
    /\ Forall (fun info => map fst info = ["id"; "name"; "genre"; "image_url"; "verified"])
         infos.
Proof.
  refine (search_artist_one_record_per_hit Scenario.catalogue "ann" 5 _ _
            Scenario.artist_hits [] _ _ _ _); reflexivity.
Defined.

(** A city without a country is not looked at: [get_top_tracks] then asks
    for the chart of the world, as it does without any argument. *)
Lemma get_top_tracks_needs_country (shazam : Shazam)
    (country_code city_name : option string) (limit : Z) :
  given country_code = false ->
  get_top_tracks shazam country_code city_name limit
  = get_top_tracks shazam None None limit.
Proof.
  intros Hcountry. unfold get_top_tracks. rewrite Hcountry, andb_false_r.
  reflexivity.
Qed.

Lemma get_top_tracks_needs_country_witness :
  get_top_tracks Scenario.catalogue (Some "") (Some "Tehran") 10
  = get_top_tracks Scenario.catalogue None None 10.
Proof. apply get_top_tracks_needs_country. reflexivity. Defined.

(** [get_listening_count] never returns a count that is zero or empty: such
    an answer of the service comes out as [None], like a track that is not
    known. *)
Lemma get_listening_count_is_truthy (shazam : Shazam) (track_id : string)
    (logged : list exn) (count : pyval) :
  fst (get_listening_count shazam track_id logged) = Returned (Some count) ->
  truthy count = true
  /\ shazam_listening_counter shazam track_id = Returned count.
Proof.
  unfold get_listening_count, try_except, bind, lift.
  destruct (shazam_listening_counter shazam track_id) as [c|e]; [|discriminate].
  destruct (truthy c) eqn:Hc; cbn; [|discriminate].
  intros [= <-]. auto.
Qed.

Lemma get_listening_count_is_truthy_witness :
  truthy (PInt 1000) = true
  /\ shazam_listening_counter Scenario.catalogue "42" = Returned (PInt 1000).
Proof.
  apply (get_listening_count_is_truthy Scenario.catalogue "42" [] (PInt 1000)).
  reflexivity.
Defined.

End RecognizerMore.

(** ** The FFmpeg manager *)

Section FFmpegFacts.
Import Py FFmpegManager.

(** Where a path of the manager comes from. *)
Lemma _try_alternative_paths_sound (env : Env) (self : t) :
  let self' := _try_alternative_paths env self in
  (forall path, ffmpeg_path self' = Some path ->
     ffmpeg_path self = Some path
     \/ (In path common_paths /\ is_executable env path = true))
  /\ (forall path, ffprobe_path self' = Some path ->
        ffprobe_path self = Some path
        \/ (In path probe_paths /\ is_executable env path = true)).
Proof.
  cbv zeta. unfold _try_alternative_paths.
  destruct (find (is_executable env) common_paths) as [p|] eqn:F;
    destruct (find (is_executable env) probe_paths) as [q|] eqn:G;
    cbn [ffmpeg_path ffprobe_path with_ffmpeg_path with_ffprobe_path];
    try apply find_some in F; try apply find_some in G;
    split; intros path; try intros [= <-]; auto.
Qed.

(** X30.  A path that the manager holds after [__init__] can be run: it is the
    bare command name, whose probe exited with status 0, or one of the
    listed locations, at which an executable file lies. *)
Theorem manager_paths_can_be_run (env : Env) (self : t) (result : outcome unit) :
  __init__ env = (result, self) ->
  (forall path, ffmpeg_path self = Some path ->
     (path = "ffmpeg" /\ run_version env "ffmpeg" = Exited 0)
     \/ (In path common_paths /\ is_executable env path = true))
  /\ (forall path, ffprobe_path self = Some path ->
        (path = "ffprobe" /\ run_version env "ffprobe" = Exited 0)
        \/ (In path probe_paths /\ is_executable env path = true)).
Proof.
  unfold __init__, _check_ffmpeg_availability.
  destruct (run_version env "ffmpeg") as [rc| |e] eqn:Hffmpeg.
  - assert (Hrc : (rc =? 0) = true -> Exited rc = Exited 0)
      by (intros ->%Z.eqb_eq; reflexivity).
    destruct (run_version env "ffprobe") as [rc'| |e] eqn:Hffprobe.
    + assert (Hrc' : (rc' =? 0) = true -> Exited rc' = Exited 0)
        by (intros ->%Z.eqb_eq; reflexivity).
      intros [= _ <-].
      destruct (rc =? 0), (rc' =? 0); cbn; split; intros path; intros [= <-]; auto.
    + intros [= _ <-].
      match goal with |- context [_try_alternative_paths env ?s] =>
        destruct (_try_alternative_paths_sound env s) as [H1 H2] end.
      split; intros path Hpath; [apply H1 in Hpath | apply H2 in Hpath];
        destruct Hpath as [Hpath|Hpath]; auto;
        destruct (rc =? 0); cbn in Hpath; try discriminate.
      injection Hpath as <-. auto.
    + intros [= _ <-].
      destruct (rc =? 0); cbn; split; intros path; intros [= <-]; auto.
  - intros [= _ <-].
    match goal with |- context [_try_alternative_paths env ?s] =>
      destruct (_try_alternative_paths_sound env s) as [H1 H2] end.
    split; intros path Hpath; [apply H1 in Hpath | apply H2 in Hpath];
      destruct Hpath as [Hpath|Hpath]; auto; discriminate.
  - intros [= _ <-]. cbn. split; intros path; discriminate.
Qed.

Lemma manager_paths_can_be_run_witness :
  (forall path, Some "/usr/local/bin/ffmpeg" = Some path ->
     (path = "ffmpeg" /\ run_version Scenario.split_install "ffmpeg" = Exited 0)
     \/ (In path common_paths /\ is_executable Scenario.split_install path = true))
  /\ (forall path, Some "/usr/local/bin/ffprobe" = Some path ->
        (path = "ffprobe" /\ run_version Scenario.split_install "ffprobe" = Exited 0)
        \/ (In path probe_paths /\ is_executable Scenario.split_install path = true)).
Proof.
  apply (manager_paths_can_be_run Scenario.split_install
           {| ffmpeg_path := Some "/usr/local/bin/ffmpeg";
              ffprobe_path := Some "/usr/local/bin/ffprobe" |} (Returned tt)).
  reflexivity.
Defined.

End FFmpegFacts.

(** ** The bot and the downloader *)

Section BotGate.
Import Py Models MusicBot.

(** X18.  A text from an idle user is either ignored or handed to
    [handle_url_download], and what is handed over is an address whose
    platform the downloader knows: [download_from_url] is never asked for
    a platform that it does not support. *)
Theorem forwarded_text_is_supported
    (transport : Transport) (update : Update) (s : state) :
  user_states s !! effective_user_id update = None ->
  (forall handle_url_download,
     handle_text_message transport handle_url_download update s = (Returned tt, s))
  \/ ((forall handle_url_download,
         handle_text_message transport handle_url_download update s
         = handle_url_download update s)
      /\ exists platform,
           Downloader._get_platform_from_url (text update) = Some platform).
Proof.
  intros Hidle.
  assert (Hrun : forall h,
            handle_text_message transport h update s
            = (if existsb (fun platform => str_in platform (lower (text update)))
                    [ "youtube.com"; "youtu.be"; "instagram.com"; "tiktok.com";
                      "pinterest.com"; "soundcloud.com" ]
               then h update else ret tt) s).
  { intros h. unfold handle_text_message, bind at 1. unfold get. cbv beta iota.
    rewrite Hidle. rewrite !decide_False by discriminate. reflexivity. }
  destruct (existsb (fun platform => str_in platform (lower (text update)))
              [ "youtube.com"; "youtu.be"; "instagram.com"; "tiktok.com";
                "pinterest.com"; "soundcloud.com" ]) eqn:Hgate.
  - right. split; [exact Hrun|].
    unfold Downloader._get_platform_from_url. cbv zeta.
    cbn [existsb] in Hgate.
    destruct (str_in "youtube.com" (lower (text update))); [cbn; eauto|].
    destruct (str_in "youtu.be" (lower (text update))); [cbn; eauto|].
    destruct (str_in "instagram.com" (lower (text update))); [cbn; eauto|].
    destruct (str_in "instagr.am" (lower (text update))); [cbn; eauto|].
    destruct (str_in "tiktok.com" (lower (text update))); [cbn; eauto|].
    destruct (str_in "pinterest.com" (lower (text update))); [cbn; eauto|].
    destruct (str_in "pin.it" (lower (text update))); [cbn; eauto|].
    destruct (str_in "soundcloud.com" (lower (text update))); [cbn; eauto|].
    discriminate.
  - left. exact Hrun.
Qed.

Lemma forwarded_text_is_supported_witness :
  (forall handle_url_download,
     handle_text_message Scenario.delivering handle_url_download
       (Scenario.says Scenario.admin "https://soundcloud.com/a/b") Scenario.awaiting_file
     = (Returned tt, Scenario.awaiting_file))
  \/ ((forall handle_url_download,
         handle_text_message Scenario.delivering handle_url_download
           (Scenario.says Scenario.admin "https://soundcloud.com/a/b") Scenario.awaiting_file
         = handle_url_download
             (Scenario.says Scenario.admin "https://soundcloud.com/a/b")
             Scenario.awaiting_file)
      /\ exists platform,
           Downloader._get_platform_from_url
             (text (Scenario.says Scenario.admin "https://soundcloud.com/a/b"))
           = Some platform).
Proof.
  apply (forwarded_text_is_supported Scenario.delivering
           (Scenario.says Scenario.admin "https://soundcloud.com/a/b")
           Scenario.awaiting_file).
  vm_compute. reflexivity.
Defined.

End BotGate.
